(** * SavvyFinance: the budget-alert evaluator, the aggregation queries and
      the CRUD routes of [server/routes.ts] and [server/storage.ts]

    The development embeds the server-side TypeScript of the repository:
    - JavaScript numbers are IEEE-754 binary64 values, embedded as Rocq's
      primitive floats, so that [parseFloat], [+], [/], [*], [>=] and [<] are
      the operations the source runs;
    - [numeric(12,2)] columns are exact decimals, held as their count of
      hundredths in [Z];
    - [timestamp] columns and JavaScript [Date] values are time values in
      milliseconds of local civil time since 1970-01-01T00:00:00;
    - tables are lists of rows in insertion order; a query is a function of
      the store; every query can be rejected by the database;
    - [async] functions are computations over the world (database, console,
      clock, query log) that either return or throw;
    - a request carries [req.user] when [req.isAuthenticated()]; the
      session store and the routes that read numbers from the query string
      are left out;
    - the users table, the password hashes and the registration and login
      routes of [server/auth.ts] are a state of their own, with [scrypt] a
      parameter and the random salt an input. *)

From Stdlib Require Import ZArith List String Ascii Bool Lia.
From Stdlib Require Import Floats DecimalString.
From Stdlib Require Uint63.
From Stdlib Require Import Sorting.Sorted Sorting.Permutation.
Import ListNotations.

Local Open Scope string_scope.
Local Open Scope Z_scope.

(** ** JavaScript numbers *)

(** A [numeric(12,2)] value as its number of hundredths: 850.00 is [85000]. *)
Definition Decimal2 := Z.

Module Num.

(** The double that equals the integer [z] (exact for |z| < 2^53). *)
Definition of_Z (z : Z) : float :=
  if z <? 0 then PrimFloat.opp (of_uint63 (Uint63.of_Z (- z)))
  else of_uint63 (Uint63.of_Z z).

(** [parseFloat(row.amount)]: the driver returns a [numeric(12,2)] value as
    its decimal text, and [parseFloat] yields the double nearest to that
    decimal.  A [numeric(12,2)] value has fewer than 10^12 hundredths, so both
    [of_Z a] and [100] are exact, and IEEE division rounds correctly: the
    quotient is that nearest double. *)
Definition parseFloat (a : Decimal2) : float := (of_Z a / 100)%float.

(** Decimal digits of a non-negative integer. *)
Definition digits (n : Z) : string :=
  NilZero.string_of_uint (N.to_uint (Z.to_N n)).

(** For a finite [x >= 0]: the integer [n] for which [n / 10 - x] is as
    close to zero as possible, the larger one when there are two
    (Number.prototype.toFixed, step 11.a, fractionDigits = 1). *)
Definition tenths (x : float) : Z :=
  match Prim2SF x with
  | S754_finite _ m e =>
      if 0 <=? e then Z.pos m * 10 * 2 ^ e
      else (2 * (Z.pos m * 10) + 2 ^ (- e)) / 2 ^ (- e + 1)
  | _ => 0
  end.

Section Host.

(** [Number::toString], used by [toFixed] only for NaN, the infinities
    and magnitudes from 10^21 on. *)
Variable NumberToString : float -> string.

(** [x.toFixed(1)] *)
Definition toFixed1 (x : float) : string :=
  if negb (is_finite x) then NumberToString x
  else
    let s := if (x <? 0)%float then "-" else EmptyString in
    let x := abs x in
    let m :=
      if (1e21 <=? x)%float then NumberToString x
      else
        let m := digits (tenths x) in
        let m := if (String.length m <=? 1)%nat then "0" ++ m else m in
        let k := String.length m in
        substring 0 (k - 1) m ++ "." ++ substring (k - 1) 1 m in
    s ++ m.

End Host.

End Num.

(** ** JavaScript dates (ECMAScript, Date objects) *)

Module JsDate.

Definition msPerDay : Z := 86400000.

Definition Day (t : Z) : Z := t / msPerDay.
Definition TimeWithinDay (t : Z) : Z := t mod msPerDay.

Definition InLeapYear (y : Z) : bool :=
  (y mod 4 =? 0) && (negb (y mod 100 =? 0) || (y mod 400 =? 0)).

Definition DayFromYear (y : Z) : Z :=
  365 * (y - 1970) + (y - 1969) / 4 - (y - 1901) / 100 + (y - 1601) / 400.

(** Days of the year that precede month [mn] (0 = January). *)
Definition DaysBeforeMonth (leap : bool) (mn : Z) : Z :=
  let l := if leap then 1 else 0 in
  match mn with
  | 0 => 0 | 1 => 31 | 2 => 59 + l | 3 => 90 + l | 4 => 120 + l
  | 5 => 151 + l | 6 => 181 + l | 7 => 212 + l | 8 => 243 + l
  | 9 => 273 + l | 10 => 304 + l | _ => 334 + l
  end.

Definition DaysInMonth (y mn : Z) : Z :=
  match mn with
  | 1 => if InLeapYear y then 29 else 28
  | 3 | 5 | 8 | 10 => 30
  | _ => 31
  end.

(** [MakeDay(year, month, date)]: months outside 0..11 carry into the year,
    days outside the month carry into the neighbouring months. *)
Definition MakeDay (year month date : Z) : Z :=
  let ym := year + month / 12 in
  let mn := month mod 12 in
  DayFromYear ym + DaysBeforeMonth (InLeapYear ym) mn + date - 1.

Definition MakeTime (hour min sec ms : Z) : Z :=
  hour * 3600000 + min * 60000 + sec * 1000 + ms.

Definition MakeDate (day time : Z) : Z := day * msPerDay + time.

(** [new Date(year, monthIndex, date, hours, minutes, seconds)]; a year in
    0..99 means 1900 + year. *)
Definition fullYear (year : Z) : Z :=
  if (0 <=? year) && (year <=? 99) then 1900 + year else year.

Definition newDate (year monthIndex date hours minutes seconds : Z) : Z :=
  MakeDate (MakeDay (fullYear year) monthIndex date)
           (MakeTime hours minutes seconds 0).

(** Year, month index and day of month of a day number (proleptic
    Gregorian calendar, eras of 400 years starting on 1 March). *)
Definition civil (days : Z) : Z * Z * Z :=
  let z := days + 719468 in
  let era := z / 146097 in
  let doe := z - era * 146097 in
  let yoe := (doe - doe / 1460 + doe / 36524 - doe / 146096) / 365 in
  let doy := doe - (365 * yoe + yoe / 4 - yoe / 100) in
  let mp := (5 * doy + 2) / 153 in
  let d := doy - (153 * mp + 2) / 5 + 1 in
  let m := if mp <? 10 then mp + 3 else mp - 9 in
  let y := yoe + era * 400 + (if m <=? 2 then 1 else 0) in
  (y, m - 1, d).

Definition YearFromTime (t : Z) : Z := fst (fst (civil (Day t))).
Definition MonthFromTime (t : Z) : Z := snd (fst (civil (Day t))).
Definition DateFromTime (t : Z) : Z := snd (civil (Day t)).

Definition getFullYear (t : Z) : Z := YearFromTime t.
Definition getMonth (t : Z) : Z := MonthFromTime t.

(** [d.setMonth(month)] returns the new time value of [d]. *)
Definition setMonth (t month : Z) : Z :=
  MakeDate (MakeDay (YearFromTime t) month (DateFromTime t))
           (TimeWithinDay t).

Definition pad (width : nat) (n : Z) : string :=
  let s := Num.digits n in
  String.concat EmptyString (repeat "0" (width - String.length s)) ++ s.

(** PostgreSQL's [TO_CHAR(ts, 'YYYY-MM')] for years 0..9999. *)
Definition to_char_YYYY_MM (t : Z) : string :=
  pad 4 (YearFromTime t) ++ "-" ++ pad 2 (MonthFromTime t + 1).

(** [civil] and [MakeDay] agree on [day]: the day number of the civil date is
    [day], the month index is in 0..11 and the day is a day of that month. *)
Definition civil_agrees (day : Z) : bool :=
  let '(y, m, d) := civil day in
  (MakeDay y m d =? day) && (0 <=? m) && (m <=? 11)
  && (1 <=? d) && (d <=? DaysInMonth y m).

(** [civil_agrees] on each of the [days] day numbers from [first] on. *)
Definition civil_agrees_from (first : Z) (days : positive) : bool :=
  snd (Pos.iter (fun st : Z * bool => (fst st + 1, snd st && civil_agrees (fst st)))
                (first, true) days).

End JsDate.

(** ** The schema ([shared/schema.ts]) *)

(** A [uuid] value as the 128-bit number it denotes. *)
Definition Uuid := N.

Inductive Category : Set :=
  | Food | Transportation | Entertainment | Bills | Shopping | Healthcare
  | Education | Travel | Groceries | Utilities | Insurance | Investment
  | Income | Other.

Inductive TransactionType : Set := income | expense.

Definition Category_eq_dec (a b : Category) : {a = b} + {a <> b}.
Proof. decide equality. Defined.

Definition TransactionType_eq_dec (a b : TransactionType) : {a = b} + {a <> b}.
Proof. decide equality. Defined.

(** The enum label, as interpolated into a template literal. *)
Definition categoryName (c : Category) : string :=
  match c with
  | Food => "Food" | Transportation => "Transportation"
  | Entertainment => "Entertainment" | Bills => "Bills"
  | Shopping => "Shopping" | Healthcare => "Healthcare"
  | Education => "Education" | Travel => "Travel"
  | Groceries => "Groceries" | Utilities => "Utilities"
  | Insurance => "Insurance" | Investment => "Investment"
  | Income => "Income" | Other => "Other"
  end.

Module Transaction.
Record t : Set := mk
  { id : Uuid; userId : Uuid; amount : Decimal2; description : string;
    category : Category; type : TransactionType; date : Z; createdAt : Z }.
End Transaction.

(** [InsertTransaction]: the columns a client supplies. *)
Module InsertTransaction.
Record t : Set := mk
  { amount : Decimal2; description : string; category : Category;
    type : TransactionType; date : Z }.
End InsertTransaction.

(** [Partial<InsertTransaction>]: every column optional. *)
Module PartialTransaction.
Record t : Set := mk
  { amount : option Decimal2; description : option string;
    category : option Category; type : option TransactionType;
    date : option Z }.
End PartialTransaction.

Module Budget.
Record t : Set := mk
  { id : Uuid; userId : Uuid; category : Category; amount : Decimal2;
    month : Z; year : Z; createdAt : Z }.
End Budget.

Module PartialBudget.
Record t : Set := mk
  { category : option Category; amount : option Decimal2;
    month : option Z; year : option Z }.
End PartialBudget.

Module Goal.
Record t : Set := mk
  { id : Uuid; userId : Uuid; title : string; targetAmount : Decimal2;
    currentAmount : Decimal2; targetDate : option Z; isCompleted : bool;
    createdAt : Z }.
End Goal.

Module PartialGoal.
Record t : Set := mk
  { title : option string; targetAmount : option Decimal2;
    targetDate : option (option Z) }.
End PartialGoal.

Module Notification.
Record t : Set := mk
  { id : Uuid; userId : Uuid; title : string; message : string;
    type : string; isRead : bool; createdAt : Z }.
End Notification.

(** [InsertNotification & { userId }] *)
Module InsertNotification.
Record t : Set := mk
  { userId : Uuid; title : string; message : string; type : string }.
End InsertNotification.

(** ** The database *)

Record Store : Set := mkStore
  { transactions : list Transaction.t;
    budgets : list Budget.t;
    goals : list Goal.t;
    notifications : list Notification.t;
    (** the next value of [gen_random_uuid()] *)
    next_uuid : Uuid }.

(** The statements [DatabaseStorage] sends to the database. *)
Inductive Query : Set :=
  | SelectTransactionsByDateRange (userId : Uuid) (startDate endDate : Z)
  | InsertIntoTransactions (userId : Uuid) (values : InsertTransaction.t)
  | UpdateTransactions (id : Uuid) (set : PartialTransaction.t)
  | DeleteFromTransactions (id : Uuid)
  | SelectBudgetByCategory (userId : Uuid) (category : Category) (month year : Z)
  | UpdateBudgets (id : Uuid) (set : PartialBudget.t)
  | DeleteFromBudgets (id : Uuid)
  | UpdateGoals (id : Uuid) (set : PartialGoal.t)
  | DeleteFromGoals (id : Uuid)
  | InsertIntoNotifications (values : InsertNotification.t)
  | SelectSpendingByCategory (userId : Uuid) (startDate endDate : Z)
  | SelectMonthlyTrends (userId : Uuid) (startDate endDate : Z).

Inductive Exn : Set :=
  | ZodError
  | DatabaseError (q : Query).

(** [INSERT INTO transactions ... RETURNING *]: [id] defaults to
    [gen_random_uuid()], [created_at] to [now()]. *)
Definition insert_into_transactions (createdAt : Z) (userId : Uuid)
    (values : InsertTransaction.t) (s : Store) : Transaction.t * Store :=
  let newTransaction :=
    Transaction.mk (next_uuid s) userId
      (InsertTransaction.amount values)
      (InsertTransaction.description values)
      (InsertTransaction.category values)
      (InsertTransaction.type values)
      (InsertTransaction.date values) createdAt in
  (newTransaction,
   mkStore (transactions s ++ [newTransaction])%list (budgets s) (goals s)
           (notifications s) (N.succ (next_uuid s))).

(** [INSERT INTO notifications ... RETURNING *]: [is_read] defaults to
    [false]. *)
Definition insert_into_notifications (createdAt : Z)
    (values : InsertNotification.t) (s : Store) : Notification.t * Store :=
  let newNotification :=
    Notification.mk (next_uuid s)
      (InsertNotification.userId values)
      (InsertNotification.title values)
      (InsertNotification.message values)
      (InsertNotification.type values) false createdAt in
  (newNotification,
   mkStore (transactions s) (budgets s) (goals s)
           (notifications s ++ [newNotification])%list (N.succ (next_uuid s))).

(** ** Asynchronous computations *)

Record World : Set := mkWorld
  { db : Store;
    (** [console.error] lines *)
    console : list (string * Exn);
    (** the wall clock, [new Date()] *)
    clock : Z;
    (** the statements sent so far, oldest first *)
    queries : list Query }.

Inductive Outcome (A : Type) : Type :=
  | Returned (a : A)
  | Thrown (e : Exn).
Arguments Returned {A} a.
Arguments Thrown {A} e.

Definition Async (A : Type) : Type := World -> Outcome A * World.

Definition ret {A} (a : A) : Async A := fun w => (Returned a, w).

Definition throw {A} (e : Exn) : Async A := fun w => (Thrown e, w).

Definition bind {A B} (m : Async A) (k : A -> Async B) : Async B :=
  fun w =>
    match m w with
    | (Returned a, w') => k a w'
    | (Thrown e, w') => (Thrown e, w')
    end.

(** [try { body } catch (error) { handler }] *)
Definition try_catch {A} (body : Async A) (handler : Exn -> Async A) : Async A :=
  fun w =>
    match body w with
    | (Returned a, w') => (Returned a, w')
    | (Thrown e, w') => handler e w'
    end.

Declare Scope async_scope.
Delimit Scope async_scope with async.
Notation "x <- m ;; k" := (bind m (fun x => k))
  (at level 100, m at next level, right associativity) : async_scope.
Notation "m ;; k" := (bind m (fun _ => k))
  (at level 100, right associativity) : async_scope.
Local Open Scope async_scope.

(** [new Date()] *)
Definition now : Async Z := fun w => (Returned (clock w), w).

(** [console.error(msg, error)] *)
Definition console_error (msg : string) (error : Exn) : Async unit :=
  fun w => (Returned tt,
            mkWorld (db w) (console w ++ [(msg, error)])%list (clock w) (queries w)).

(** ** Query building blocks (drizzle-orm over PostgreSQL) *)

(** [ORDER BY]: a stable insertion sort; [before x y] says that [x] may
    precede [y].  Rows with equal keys keep their table order (PostgreSQL
    leaves their order open). *)
Fixpoint insert_by {A} (before : A -> A -> bool) (x : A) (l : list A) : list A :=
  match l with
  | [] => [x]
  | y :: l' => if before x y then x :: l else y :: insert_by before x l'
  end.

Definition order_by {A} (before : A -> A -> bool) (rows : list A) : list A :=
  fold_right (insert_by before) [] rows.

(** [GROUP BY key]: one group per distinct key, holding the rows of that key. *)
Definition group_by {A K} (K_eq_dec : forall a b : K, {a = b} + {a <> b})
    (key : A -> K) (rows : list A) : list (K * list A) :=
  map (fun k => (k, filter (fun r => if K_eq_dec (key r) k then true else false) rows))
      (nodup K_eq_dec (map key rows)).

(** [SUM(column)] over exact decimals. *)
Definition SUM (l : list Decimal2) : Decimal2 := fold_right Z.add 0 l.

(** [UPDATE t SET ... WHERE ... RETURNING *]: the rows returned and the new
    table. *)
Definition update_where {A} (where_ : A -> bool) (set : A -> A) (rows : list A)
    : list A * list A :=
  (map set (filter where_ rows),
   map (fun r => if where_ r then set r else r) rows).

(** [DELETE FROM t WHERE ...]: [rowCount] and the new table. *)
Definition delete_where {A} (where_ : A -> bool) (rows : list A) : nat * list A :=
  (List.length (filter where_ rows), filter (fun r => negb (where_ r)) rows).

Definition or_else {A} (o : option A) (a : A) : A :=
  match o with Some x => x | None => a end.

Definition set_transaction (p : PartialTransaction.t) (r : Transaction.t) : Transaction.t :=
  Transaction.mk (Transaction.id r) (Transaction.userId r)
    (or_else (PartialTransaction.amount p) (Transaction.amount r))
    (or_else (PartialTransaction.description p) (Transaction.description r))
    (or_else (PartialTransaction.category p) (Transaction.category r))
    (or_else (PartialTransaction.type p) (Transaction.type r))
    (or_else (PartialTransaction.date p) (Transaction.date r))
    (Transaction.createdAt r).

Definition set_budget (p : PartialBudget.t) (r : Budget.t) : Budget.t :=
  Budget.mk (Budget.id r) (Budget.userId r)
    (or_else (PartialBudget.category p) (Budget.category r))
    (or_else (PartialBudget.amount p) (Budget.amount r))
    (or_else (PartialBudget.month p) (Budget.month r))
    (or_else (PartialBudget.year p) (Budget.year r))
    (Budget.createdAt r).

Definition set_goal (p : PartialGoal.t) (r : Goal.t) : Goal.t :=
  Goal.mk (Goal.id r) (Goal.userId r)
    (or_else (PartialGoal.title p) (Goal.title r))
    (or_else (PartialGoal.targetAmount p) (Goal.targetAmount r))
    (Goal.currentAmount r)
    (or_else (PartialGoal.targetDate p) (Goal.targetDate r))
    (Goal.isCompleted r) (Goal.createdAt r).

(** Result rows of the analytics queries. *)
Module SpendingRow.
Record t : Set := mk { category : Category; total : Decimal2 }.
End SpendingRow.

Module TrendRow.
Record t : Set := mk { month : string; income : Decimal2; expenses : Decimal2 }.
End TrendRow.

Definition is_expense (t : Transaction.t) : bool :=
  if TransactionType_eq_dec (Transaction.type t) expense then true else false.


Definition has_category (c : Category) (t : Transaction.t) : bool :=
  if Category_eq_dec (Transaction.category t) c then true else false.

(** [WHERE user_id = userId AND date >= startDate AND date <= endDate] *)
Definition in_range (userId : Uuid) (startDate endDate : Z) (t : Transaction.t) : bool :=
  (Transaction.userId t =? userId)%N
  && (startDate <=? Transaction.date t) && (Transaction.date t <=? endDate).

(** [TO_CHAR(date, 'YYYY-MM')] of a row. *)
Definition month_key (t : Transaction.t) : string :=
  JsDate.to_char_YYYY_MM (Transaction.date t).

(** [SUM(CASE WHEN type = ty THEN amount ELSE 0 END)] *)
Definition SUM_CASE (ty : TransactionType) (rows : list Transaction.t) : Decimal2 :=
  SUM (map (fun t => if TransactionType_eq_dec (Transaction.type t) ty
                     then Transaction.amount t else 0) rows).

(** ** Accounts ([server/auth.ts], the user methods of [server/storage.ts]) *)

From Stdlib Require Strings.Byte.

Module User.
Record t : Set := mk
  { id : Uuid; username : string; password : string; email : string;
    firstName : string; lastName : string; createdAt : Z }.
End User.

(** [InsertUser]: [insertUserSchema] omits [id] and [createdAt]. *)
Module InsertUser.
Record t : Set := mk
  { username : string; password : string; email : string;
    firstName : string; lastName : string }.
End InsertUser.

(** *** Buffers and their hexadecimal text *)

Definition Buffer : Set := list Byte.byte.

Definition hexDigit (n : N) : ascii :=
  ascii_of_N (if (n <? 10)%N then 48 + n else 87 + n).

(** [buf.toString("hex")]: two lower-case digits per byte. *)
Definition toHex (buf : Buffer) : string :=
  fold_right
    (fun b s => String (hexDigit (Byte.to_N b / 16))
                  (String (hexDigit (Byte.to_N b mod 16)) s))
    EmptyString buf.

Definition unhex (c : ascii) : option N :=
  let n := N_of_ascii c in
  if ((48 <=? n) && (n <=? 57))%N then Some (n - 48)%N
  else if ((97 <=? n) && (n <=? 102))%N then Some (n - 87)%N
  else if ((65 <=? n) && (n <=? 70))%N then Some (n - 55)%N
  else None.

Definition byte_of_N (n : N) : Byte.byte :=
  match Byte.of_N n with Some b => b | None => Byte.x00 end.

(** [Buffer.from(s, "hex")]: decoding stops at the first pair that is not
    two hexadecimal digits; a last single character is dropped. *)
Fixpoint fromHex (s : string) : Buffer :=
  match s with
  | String a (String b s') =>
      match unhex a, unhex b with
      | Some h, Some l => byte_of_N (16 * h + l) :: fromHex s'
      | _, _ => []
      end
  | _ => []
  end.

(** [s.split(sep)] for a separator of one character. *)
Fixpoint split (sep : ascii) (s : string) : list string :=
  match s with
  | EmptyString => [EmptyString]
  | String c s' =>
      if Ascii.eqb c sep then EmptyString :: split sep s'
      else match split sep s' with
           | segment :: segments => String c segment :: segments
           | [] => [String c EmptyString]
           end
  end.

(** The text [s] holds no character [c]. *)
Fixpoint lacks (c : ascii) (s : string) : bool :=
  match s with
  | EmptyString => true
  | String c' s' => negb (Ascii.eqb c' c) && lacks c s'
  end.

(** A column name as PostgreSQL prints it in an error detail: no [)] and no
    line terminator. *)
Definition plain (column : string) : bool :=
  lacks ")" column && lacks (ascii_of_N 10) column && lacks (ascii_of_N 13) column
  && lacks (ascii_of_N 226) column.

Definition Buffer_eqb (a b : Buffer) : bool :=
  (List.length a =? List.length b)%nat
  && forallb (fun p => Byte.eqb (fst p) (snd p)) (combine a b).

(** *** Errors *)

(** The driver's error for a statement the database refused. *)
Module PgError.
Record t : Set := mk { code : string; detail : option string; message : string }.
End PgError.

(** The error [req.login] passes to its callback. *)
Module SessionError.
Record t : Set := mk { status : option Z; statusCode : option Z; message : string }.
End SessionError.

Inductive Error : Set :=
  (** [new Error(message)] *)
  | JsError (message : string)
  (** thrown by [scrypt] for a salt that is [undefined], or by a property
      access on [undefined] *)
  | TypeError
  (** thrown by [timingSafeEqual] for buffers of different lengths *)
  | RangeError
  | DatabaseFailure (e : PgError.t)
  | SessionFailure (e : SessionError.t).

(** [error.message === m]; the messages of Node's [TypeError] and
    [RangeError] are not among the texts the routes compare with. *)
Definition has_message (error : Error) (m : string) : bool :=
  match error with
  | JsError message => (message =? m)%string
  | DatabaseFailure e => (PgError.message e =? m)%string
  | SessionFailure e => (SessionError.message e =? m)%string
  | TypeError | RangeError => false
  end.

(** *** The users table *)

Inductive Logged : Set :=
  (** [console.log("Inserting user into database:", insertUser)] *)
  | InsertingUser (insertUser : InsertUser.t)
  (** [console.log("Inserted user:", user)] *)
  | InsertedUser (user : User.t)
  (** [console.error(label, error)] *)
  | LoggedError (label : string) (error : Error).

Record Accounts : Set := mkAccounts
  { users : list User.t;
    next_user_id : Uuid;
    output : list Logged }.

Inductive AccountStatement : Set :=
  | SelectUserById (id : Uuid)
  | SelectUserByUsername (username : string)
  | SelectUserByEmail (email : string)
  | InsertIntoUsers (values : InsertUser.t).

Definition quote : string := String (ascii_of_N 34) EmptyString.

(** PostgreSQL's error 23505 for a value that is already in a unique column
    of [users]. *)
Definition unique_violation (column value : string) : PgError.t :=
  PgError.mk "23505"
    (Some ("Key (" ++ column ++ ")=(" ++ value ++ ") already exists."))
    ("duplicate key value violates unique constraint " ++ quote ++ "users_" ++ column
       ++ "_unique" ++ quote).

(** [/\((.*?)\)/]: the text between the first [(] that is followed, on its
    line, by a [)], and that [)].  [.] matches no line terminator (LF, CR,
    U+2028, U+2029; the last two are E2 80 A8 and E2 80 A9 in UTF-8). *)
Fixpoint until_close (s : string) : option string :=
  match s with
  | EmptyString => None
  | String c s' =>
      if Ascii.eqb c ")" then Some EmptyString
      else if Ascii.eqb c (ascii_of_N 10) || Ascii.eqb c (ascii_of_N 13) then None
      else
        match s' with
        | String c1 (String c2 _) =>
            if Ascii.eqb c (ascii_of_N 226) && Ascii.eqb c1 (ascii_of_N 128)
               && (Ascii.eqb c2 (ascii_of_N 168) || Ascii.eqb c2 (ascii_of_N 169))
            then None
            else option_map (String c) (until_close s')
        | _ => option_map (String c) (until_close s')
        end
  end.

Fixpoint first_group (s : string) : option string :=
  match s with
  | EmptyString => None
  | String c s' =>
      if Ascii.eqb c "(" then
        match until_close s' with
        | Some group => Some group
        | None => first_group s'
        end
      else first_group s'
  end.

(** [v === text] for a value that is a string or [undefined]. *)
Definition is_text (v : option string) (text : string) : bool :=
  match v with
  | Some s => (s =? text)%string
  | None => false
  end.

(** [info?.message || fallback], [err.message || fallback] *)
Definition message_or (message : option string) (fallback : string) : string :=
  match message with
  | Some m => if (m =? EmptyString)%string then fallback else m
  | None => fallback
  end.

(** [a || b] on status codes: 0 and [undefined] are falsy. *)
Definition status_or (a : option Z) (b : Z) : Z :=
  match a with
  | Some s => if s =? 0 then b else s
  | None => b
  end.

(** A body field that is a non-empty string; [None] stands for a field that
    is missing or falsy. *)
Definition truthy (v : option string) : option string :=
  match v with
  | Some s => if (s =? EmptyString)%string then None else Some s
  | None => None
  end.

(** [req.body] of [POST /api/register] *)
Module RegisterBody.
Record t : Set := mk
  { username : option string; password : option string; email : option string;
    firstName : option string; lastName : option string }.
End RegisterBody.

(** What the account routes send. *)
Inductive AuthReply : Set :=
  (** [res.status(code).json(user)] *)
  | ReplyUser (code : Z) (user : User.t)
  (** [res.status(code).json({ error })] *)
  | ReplyError (code : Z) (error : string)
  (** [res.status(code).json({ message })] *)
  | ReplyMessage (code : Z) (message : string).

(** What the verify callback of the local strategy passes to [done]. *)
Inductive Verified : Set :=
  | DoneUser (user : User.t)
  | DoneFalse (info : option string)
  | DoneError (err : Error).

Section Auth.

(** [crypto.scrypt(password, salt, keylen)] with the default cost. *)
Variable scrypt : string -> string -> nat -> Buffer.

(** The account statements the database refuses, with the error. *)
Variable refused : AccountStatement -> option PgError.t.

(** [scryptAsync(password, salt, keylen)]; the salt is [None] when it is
    [undefined]. *)
Definition scryptAsync (password : string) (salt : option string) (keylen : nat)
    : Buffer + Error :=
  match salt with
  | Some salt => inl (scrypt password salt keylen)
  | None => inr TypeError
  end.

Definition timingSafeEqual (a b : Buffer) : bool + Error :=
  if (List.length a =? List.length b)%nat then inl (Buffer_eqb a b)
  else inr RangeError.

(** [hashPassword(password)], where [randomBytes(16)] returned [random]. *)
Definition hashPassword (random : Buffer) (password : string) : string :=
  let salt := toHex random in
  let buf := scrypt password salt 64 in
  toHex buf ++ "." ++ salt.

Definition comparePasswords (supplied stored : string) : bool + Error :=
  let parts := split "." stored in
  let hashed := nth 0 parts EmptyString in
  let salt := nth_error parts 1 in
  let hashedBuf := fromHex hashed in
  match scryptAsync supplied salt 64 with
  | inl suppliedBuf => timingSafeEqual hashedBuf suppliedBuf
  | inr e => inr e
  end.

(** [const [user] = await db.select().from(users).where(...)] *)
Definition select_user (st : AccountStatement) (where_ : User.t -> bool) (a : Accounts)
    : option User.t + Error :=
  match refused st with
  | Some e => inr (DatabaseFailure e)
  | None => inl (hd_error (filter where_ (users a)))
  end.

Definition getUser (id : Uuid) : Accounts -> option User.t + Error :=
  select_user (SelectUserById id) (fun u => (User.id u =? id)%N).

Definition getUserByUsername (username : string) : Accounts -> option User.t + Error :=
  select_user (SelectUserByUsername username)
              (fun u => (User.username u =? username)%string).

Definition getUserByEmail (email : string) : Accounts -> option User.t + Error :=
  select_user (SelectUserByEmail email) (fun u => (User.email u =? email)%string).

(** [INSERT INTO users ... RETURNING *]: [username] and [email] are unique;
    PostgreSQL checks the unique indexes in the order of their creation. *)
Definition insert_into_users (now : Z) (values : InsertUser.t) (a : Accounts)
    : (User.t + PgError.t) * Accounts :=
  match refused (InsertIntoUsers values) with
  | Some e => (inr e, a)
  | None =>
      if existsb (fun u => (User.username u =? InsertUser.username values)%string)
                 (users a)
      then (inr (unique_violation "username" (InsertUser.username values)), a)
      else if existsb (fun u => (User.email u =? InsertUser.email values)%string)
                      (users a)
      then (inr (unique_violation "email" (InsertUser.email values)), a)
      else
        let user :=
          User.mk (next_user_id a) (InsertUser.username values)
            (InsertUser.password values) (InsertUser.email values)
            (InsertUser.firstName values) (InsertUser.lastName values) now in
        (inl user, mkAccounts (users a ++ [user])%list (N.succ (next_user_id a)) (output a))
  end.

Definition console_log (line : Logged) (a : Accounts) : Accounts :=
  mkAccounts (users a) (next_user_id a) (output a ++ [line])%list.

Definition createUser (now : Z) (insertUser : InsertUser.t) (a : Accounts)
    : (User.t + Error) * Accounts :=
  let a := console_log (InsertingUser insertUser) a in
  match insert_into_users now insertUser a with
  | (inl user, a) => (inl user, console_log (InsertedUser user) a)
  | (inr error, a) =>
      if (PgError.code error =? "23505")%string then
        match PgError.detail error with
        | None => (inr TypeError, a)
        | Some detail =>
            let constraint := first_group detail in
            (inr (JsError
                    (if is_text constraint "username" then "Username already exists."
                     else if is_text constraint "email" then "Email already exists."
                     else "Unique constraint violation.")),
             a)
        end
      else (inr (DatabaseFailure error), a)
  end.

(** The verify callback of [new LocalStrategy(...)]. *)
Definition verify (username password : string) (a : Accounts) : Verified :=
  match getUserByUsername username a with
  | inr err => DoneError err
  | inl None => DoneFalse (Some "Invalid username or password")
  | inl (Some user) =>
      match comparePasswords password (User.password user) with
      | inr err => DoneError err
      | inl false => DoneFalse (Some "Invalid username or password")
      | inl true => DoneUser user
      end
  end.

(** The error handler of [server/index.ts]. *)
Definition errorHandler (err : SessionError.t) (a : Accounts) : AuthReply * Accounts :=
  let status := status_or (SessionError.status err)
                  (status_or (SessionError.statusCode err) 500) in
  let message := message_or (Some (SessionError.message err)) "Internal Server Error" in
  (ReplyMessage status message,
   console_log (LoggedError "Error occurred:" (SessionFailure err)) a).

(** [app.post("/api/register", ...)]; [random] is what [randomBytes(16)]
    returns, [sessionError] the error of [req.login], if any. *)
Definition post_register (now : Z) (random : Buffer)
    (sessionError : option SessionError.t) (body : RegisterBody.t) (a : Accounts)
    : AuthReply * Accounts :=
  match truthy (RegisterBody.username body), truthy (RegisterBody.password body),
        truthy (RegisterBody.email body), truthy (RegisterBody.firstName body),
        truthy (RegisterBody.lastName body) with
  | Some username, Some password, Some email, Some firstName, Some lastName =>
      let hashedPassword := hashPassword random password in
      match createUser now
              (InsertUser.mk username hashedPassword email firstName lastName) a with
      | (inl user, a) =>
          match sessionError with
          | Some err => errorHandler err a
          | None => (ReplyUser 201 user, a)
          end
      | (inr error, a) =>
          if has_message error "Username already exists."
          then (ReplyError 400 "Username already exists.", a)
          else if has_message error "Email already exists."
          then (ReplyError 400 "Email already exists.", a)
          else (ReplyError 500 "Internal server error.",
                console_log (LoggedError "Error during registration:" error) a)
      end
  | _, _, _, _, _ => (ReplyError 400 "All fields are required.", a)
  end.

(** The callback [POST /api/login] gives to [passport.authenticate]. *)
Definition authenticated (sessionError : option SessionError.t) (v : Verified)
    (a : Accounts) : AuthReply * Accounts :=
  match v with
  | DoneError err =>
      (ReplyError 500 "Internal server error",
       console_log (LoggedError "Login error:" err) a)
  | DoneFalse info => (ReplyError 401 (message_or info "Invalid credentials"), a)
  | DoneUser user =>
      match sessionError with
      | Some err =>
          (ReplyError 500 "Internal server error",
           console_log (LoggedError "Login session error:" (SessionFailure err)) a)
      | None => (ReplyUser 200 user, a)
      end
  end.

(** [app.post("/api/login", ...)]; [username] and [password] are the
    fields the local strategy finds in the request: it fails with "Missing
    credentials" when one is missing or empty, and calls the verify callback
    otherwise. *)
Definition post_login (sessionError : option SessionError.t)
    (username password : option string) (a : Accounts) : AuthReply * Accounts :=
  match truthy username, truthy password with
  | Some username, Some password =>
      authenticated sessionError (verify username password a) a
  | _, _ => authenticated sessionError (DoneFalse (Some "Missing credentials")) a
  end.

(** Accounts as registrations leave them: user names and email addresses
    are unique, and each stored password was made by [hashPassword]. *)
Definition hashed (u : User.t) : Prop :=
  exists random password, User.password u = hashPassword random password.

Definition sound_accounts (a : Accounts) : Prop :=
  NoDup (map User.username (users a))
  /\ NoDup (map User.email (users a))
  /\ Forall hashed (users a).

End Auth.

(** *** Example accounts *)

(** A stand-in for [scrypt] that returns [keylen] bytes counting up from the
    lengths of the password and the salt. *)
Definition toy_scrypt (password salt : string) (keylen : nat) : Buffer :=
  map (fun i => byte_of_N ((N.of_nat (String.length password + String.length salt + i))
                           mod 256))
      (seq 0 keylen).

Definition nothing_refused (st : AccountStatement) : option PgError.t := None.

(** A database whose insert into [users] hits the primary key. *)
Definition id_collision (st : AccountStatement) : option PgError.t :=
  match st with
  | InsertIntoUsers _ =>
      Some (PgError.mk "23505"
              (Some ("Key (" ++ "id" ++ ")=(" ++ "7" ++ ") already exists."))
              "duplicate key value violates unique constraint")
  | _ => None
  end.

Definition sixteen_bytes : Buffer := map byte_of_N (map N.of_nat (seq 1 16)).

Definition carol_body : RegisterBody.t :=
  RegisterBody.mk (Some "carol") (Some "correct horse") (Some "carol@example.org")
                  (Some "Carol") (Some "Jones").

(** A user whose stored password is no [hash.salt]. *)
Definition dave : User.t :=
  User.mk 5%N "dave" "plain-text-password" "dave@example.org" "Dave" "Smith" 0.

Definition some_accounts : Accounts := mkAccounts [dave] 6%N [].

(** Carol alone, as her registration leaves her. *)
Definition carol : User.t :=
  User.mk 6%N "carol" (hashPassword toy_scrypt sixteen_bytes "correct horse")
    "carol@example.org" "Carol" "Jones" 1000.

Definition carol_accounts : Accounts := mkAccounts [carol] 7%N [].

(** The session store is down. *)
Definition store_down : SessionError.t :=
  SessionError.mk None None "connect ECONNREFUSED".

(** ** The request log line ([server/index.ts]) *)

(** A JavaScript string as its UTF-16 code units. *)
Definition JsString : Set := list N.

(** The code units of an ASCII text. *)
Definition units (s : string) : JsString := map N_of_ascii (list_ascii_of_string s).

(** The suffix of a shortened line, three code units in the source file:
    U+00E2, U+20AC, U+00A6. *)
Definition shortened : JsString := [226; 8364; 166]%N.

Definition startsWith (s prefix : JsString) : bool :=
  (List.length prefix <=? List.length s)%nat
  && forallb (fun p => (fst p =? snd p)%N) (combine prefix (firstn (List.length prefix) s)).

(** The line before it is shortened; [statusCode] and [duration] are the
    texts of the two numbers, [captured] is [JSON.stringify] of the body given
    to [res.json], if one was given and is truthy. *)
Definition fullLine (method path statusCode duration : JsString)
    (captured : option JsString) : JsString :=
  let logLine :=
    (method ++ units " " ++ path ++ units " " ++ statusCode ++ units " in "
       ++ duration ++ units "ms")%list in
  match captured with
  | Some json => (logLine ++ units " :: " ++ json)%list
  | None => logLine
  end.

(** What the [finish] listener hands to [log], if anything. *)
Definition logLine (method path statusCode duration : JsString)
    (captured : option JsString) : option JsString :=
  if startsWith path (units "/api") then
    let logLine := fullLine method path statusCode duration captured in
    Some (if (80 <? List.length logLine)%nat
          then (firstn 79 logLine ++ shortened)%list
          else logLine)
  else None.

(** [GET /api/transactions 200 in 12ms :: [...]], with a body of 60 units. *)
Definition long_line_body : JsString :=
  (units "[" ++ repeat 120%N 58 ++ units "]")%list.

(** ** The remaining statements of [DatabaseStorage] *)

(** [InsertBudget]: the columns a client supplies. *)
Module InsertBudget.
Record t : Set := mk
  { category : Category; amount : Decimal2; month : Z; year : Z }.
End InsertBudget.

(** [InsertGoal]: [insertGoalSchema] omits [currentAmount] and
    [isCompleted]; [targetDate] is nullable. *)
Module InsertGoal.
Record t : Set := mk
  { title : string; targetAmount : Decimal2; targetDate : option Z }.
End InsertGoal.

Inductive Statement : Set :=
  | SelectTransactions (userId : Uuid) (limit : Z)
  | SelectBudgets (userId : Uuid) (monthYear : option (Z * Z))
  | InsertIntoBudgets (userId : Uuid) (values : InsertBudget.t)
  | SelectGoals (userId : Uuid)
  | InsertIntoGoals (userId : Uuid) (values : InsertGoal.t)
  | SelectNotifications (userId : Uuid)
  | UpdateNotificationsSetRead (id : Uuid).

(** What these methods and their routes throw: the [z.ZodError] of
    [schema.parse], or the driver's error for a statement. *)
Inductive Fault : Set :=
  | ValidationFault
  | StatementFault (st : Statement).

(** [INSERT INTO budgets ... RETURNING *] *)
Definition insert_into_budgets (createdAt : Z) (userId : Uuid)
    (values : InsertBudget.t) (s : Store) : Budget.t * Store :=
  let newBudget :=
    Budget.mk (next_uuid s) userId
      (InsertBudget.category values) (InsertBudget.amount values)
      (InsertBudget.month values) (InsertBudget.year values) createdAt in
  (newBudget,
   mkStore (transactions s) (budgets s ++ [newBudget])%list (goals s)
           (notifications s) (N.succ (next_uuid s))).

(** [INSERT INTO goals ... RETURNING *]: [current_amount] defaults to 0,
    [is_completed] to [false]. *)
Definition insert_into_goals (createdAt : Z) (userId : Uuid)
    (values : InsertGoal.t) (s : Store) : Goal.t * Store :=
  let newGoal :=
    Goal.mk (next_uuid s) userId
      (InsertGoal.title values) (InsertGoal.targetAmount values) 0
      (InsertGoal.targetDate values) false createdAt in
  (newGoal,
   mkStore (transactions s) (budgets s) (goals s ++ [newGoal])%list
           (notifications s) (N.succ (next_uuid s))).

(** [.set({ isRead: true })] *)
Definition set_read (r : Notification.t) : Notification.t :=
  Notification.mk (Notification.id r) (Notification.userId r)
    (Notification.title r) (Notification.message r) (Notification.type r)
    true (Notification.createdAt r).

(** Asynchronous computations that throw a [Fault]. *)
Definition Task (A : Type) : Type := World -> (A + Fault) * World.

Definition done {A} (a : A) : Task A := fun w => (inl a, w).

Definition raise {A} (e : Fault) : Task A := fun w => (inr e, w).

Definition and_then {A B} (m : Task A) (k : A -> Task B) : Task B :=
  fun w =>
    match m w with
    | (inl a, w') => k a w'
    | (inr e, w') => (inr e, w')
    end.

(** [try { body } catch (error) { handler }] *)
Definition attempt {A} (body : Task A) (handler : Fault -> Task A) : Task A :=
  fun w =>
    match body w with
    | (inl a, w') => (inl a, w')
    | (inr e, w') => handler e w'
    end.

Declare Scope task_scope.
Delimit Scope task_scope with task.
Notation "x <~ m ;; k" := (and_then m (fun x => k))
  (at level 100, m at next level, right associativity) : task_scope.
Local Open Scope task_scope.

(** [new Date()] *)
Definition today : Task Z := fun w => (inl (clock w), w).

(** [schema.parse(req.body)] *)
Definition validate {A} (body : option A) : Task A :=
  match body with
  | Some validatedData => done validatedData
  | None => raise ValidationFault
  end.

(** [notifications?.filter(n => !n.isRead)], the unread notifications the
    client shows, and their number in the header badge. *)
Definition unreadNotifications (notifications : list Notification.t)
    : list Notification.t :=
  filter (fun n => negb (Notification.isRead n)) notifications.

Definition unreadCount (notifications : list Notification.t) : nat :=
  List.length (unreadNotifications notifications).

(** ** [DatabaseStorage] ([server/storage.ts]) *)

Section Server.

(** The statements the database rejects (connection loss, constraint
    violation, malformed value): the driver then throws. *)
Variable fails : Query -> bool.

(** Host formatting: [Number::toString] and the locale-dependent
    [Number.prototype.toLocaleString]. *)
Variable NumberToString : float -> string.
Variable toLocaleString : float -> string.

(** Sending a statement: it is logged; if the database rejects it nothing is
    written and the promise rejects; otherwise it runs on the store. *)
Definition query {A} (q : Query) (run : Store -> A * Store) : Async A :=
  fun w =>
    let sent := (queries w ++ [q])%list in
    if fails q then (Thrown (DatabaseError q), mkWorld (db w) (console w) (clock w) sent)
    else let (a, s) := run (db w) in
         (Returned a, mkWorld s (console w) (clock w) sent).

Definition getTransactionsByDateRange (userId : Uuid) (startDate endDate : Z)
    : Async (list Transaction.t) :=
  query (SelectTransactionsByDateRange userId startDate endDate) (fun s =>
    (order_by (fun x y => Transaction.date y <=? Transaction.date x)
       (filter (in_range userId startDate endDate) (transactions s)),
     s)).

Definition createTransaction (userId : Uuid) (transaction : InsertTransaction.t)
    : Async Transaction.t :=
  createdAt <- now ;;
  query (InsertIntoTransactions userId transaction)
        (insert_into_transactions createdAt userId transaction).

Definition updateTransaction (id : Uuid) (transaction : PartialTransaction.t)
    : Async (option Transaction.t) :=
  query (UpdateTransactions id transaction) (fun s =>
    let (returning, table) :=
      update_where (fun r => (Transaction.id r =? id)%N)
                   (set_transaction transaction) (transactions s) in
    (hd_error returning,
     mkStore table (budgets s) (goals s) (notifications s) (next_uuid s))).

Definition deleteTransaction (id : Uuid) : Async bool :=
  query (DeleteFromTransactions id) (fun s =>
    let (rowCount, table) :=
      delete_where (fun r => (Transaction.id r =? id)%N) (transactions s) in
    ((0 <? rowCount)%nat,
     mkStore table (budgets s) (goals s) (notifications s) (next_uuid s))).

Definition budget_matches (userId : Uuid) (category : Category) (month year : Z)
    (b : Budget.t) : bool :=
  (Budget.userId b =? userId)%N
  && (if Category_eq_dec (Budget.category b) category then true else false)
  && (Budget.month b =? month) && (Budget.year b =? year).

Definition getBudgetByCategory (userId : Uuid) (category : Category) (month year : Z)
    : Async (option Budget.t) :=
  query (SelectBudgetByCategory userId category month year) (fun s =>
    (hd_error (filter (budget_matches userId category month year) (budgets s)), s)).

Definition updateBudget (id : Uuid) (budget : PartialBudget.t)
    : Async (option Budget.t) :=
  query (UpdateBudgets id budget) (fun s =>
    let (returning, table) :=
      update_where (fun r => (Budget.id r =? id)%N) (set_budget budget) (budgets s) in
    (hd_error returning,
     mkStore (transactions s) table (goals s) (notifications s) (next_uuid s))).

Definition deleteBudget (id : Uuid) : Async bool :=
  query (DeleteFromBudgets id) (fun s =>
    let (rowCount, table) :=
      delete_where (fun r => (Budget.id r =? id)%N) (budgets s) in
    ((0 <? rowCount)%nat,
     mkStore (transactions s) table (goals s) (notifications s) (next_uuid s))).

Definition updateGoal (id : Uuid) (goal : PartialGoal.t) : Async (option Goal.t) :=
  query (UpdateGoals id goal) (fun s =>
    let (returning, table) :=
      update_where (fun r => (Goal.id r =? id)%N) (set_goal goal) (goals s) in
    (hd_error returning,
     mkStore (transactions s) (budgets s) table (notifications s) (next_uuid s))).

Definition deleteGoal (id : Uuid) : Async bool :=
  query (DeleteFromGoals id) (fun s =>
    let (rowCount, table) :=
      delete_where (fun r => (Goal.id r =? id)%N) (goals s) in
    ((0 <? rowCount)%nat,
     mkStore (transactions s) (budgets s) table (notifications s) (next_uuid s))).

Definition createNotification (notification : InsertNotification.t)
    : Async Notification.t :=
  createdAt <- now ;;
  query (InsertIntoNotifications notification)
        (insert_into_notifications createdAt notification).


Definition getMonthlyTrends (userId : Uuid) (months : Z) : Async (list TrendRow.t) :=
  endDate <- now ;;
  startDate <- now ;;
  let startDate := JsDate.setMonth startDate (JsDate.getMonth endDate - months) in
  query (SelectMonthlyTrends userId startDate endDate) (fun s =>
    (order_by (fun x y => (TrendRow.month x <=? TrendRow.month y)%string)
       (map (fun g => TrendRow.mk (fst g) (SUM_CASE income (snd g))
                                  (SUM_CASE expense (snd g)))
          (group_by string_dec month_key
             (filter (in_range userId startDate endDate) (transactions s)))),
     s)).

(** ** The routes ([server/routes.ts]) *)

Inductive Json : Set :=
  | JsonTransaction (t : Transaction.t)
  | JsonBudget (b : Budget.t)
  | JsonGoal (g : Goal.t)
  (** [{ message }] *)
  | JsonMessage (message : string)
  (** [{ message, errors: error.errors }] *)
  | JsonInvalid (message : string).

Inductive Response : Set :=
  | SendStatus (code : Z)
  | StatusJson (code : Z) (body : Json).

(** [schema.parse(req.body)]: a body the schema accepts is [Some] of the
    validated data, any other body makes [parse] throw a [ZodError]. *)
Definition parse {A} (body : option A) : Async A :=
  match body with
  | Some validatedData => ret validatedData
  | None => throw ZodError
  end.

(** The local constants of [checkBudgetAlerts]. *)
Definition categoryTransactions (category : Category) (transactions : list Transaction.t)
    : list Transaction.t :=
  filter (fun t => has_category category t && is_expense t) transactions.

Definition totalSpent (categoryTransactions : list Transaction.t) : float :=
  fold_left (fun sum t => (sum + Num.parseFloat (Transaction.amount t))%float)
            categoryTransactions 0%float.

Definition percentage (totalSpent budgetAmount : float) : float :=
  ((totalSpent / budgetAmount) * 100)%float.

(** The two notifications the evaluator can create. *)
Definition budgetAlert (userId : Uuid) (category : Category)
    (percentage totalSpent budgetAmount : float) : InsertNotification.t :=
  InsertNotification.mk userId
    ("Budget Alert - " ++ categoryName category)
    ("You've spent " ++ Num.toFixed1 NumberToString percentage ++ "% of your "
       ++ categoryName category ++ " budget this month (₹"
       ++ toLocaleString totalSpent ++ " of ₹" ++ toLocaleString budgetAmount ++ ")")
    "warning".

Definition budgetExceeded (userId : Uuid) (category : Category)
    (totalSpent budgetAmount : float) : InsertNotification.t :=
  InsertNotification.mk userId
    ("Budget Exceeded - " ++ categoryName category)
    ("You've exceeded your " ++ categoryName category ++ " budget by ₹"
       ++ toLocaleString (totalSpent - budgetAmount)%float)
    "warning".

Definition checkBudgetAlerts (userId : Uuid) (category : Category) (month year : Z)
    : Async unit :=
  try_catch
    (budget <- getBudgetByCategory userId category month year ;;
     match budget with
     | None => ret tt
     | Some budget =>
         let startDate := JsDate.newDate year (month - 1) 1 0 0 0 in
         let endDate := JsDate.newDate year month 0 23 59 59 in
         transactions <- getTransactionsByDateRange userId startDate endDate ;;
         let categoryTransactions := categoryTransactions category transactions in
         let totalSpent := totalSpent categoryTransactions in
         let budgetAmount := Num.parseFloat (Budget.amount budget) in
         let percentage := percentage totalSpent budgetAmount in
         if ((80 <=? percentage) && (percentage <? 100))%float then
           createNotification
             (budgetAlert userId category percentage totalSpent budgetAmount) ;;
           ret tt
         else if (100 <=? percentage)%float then
           createNotification
             (budgetExceeded userId category totalSpent budgetAmount) ;;
           ret tt
         else ret tt
     end)
    (fun error => console_error "Error checking budget alerts:" error).

(** [app.post("/api/transactions", ...)]; [user] is [req.user] when
    [req.isAuthenticated()]. *)
Definition post_transactions (user : option Uuid) (body : option InsertTransaction.t)
    : Async Response :=
  match user with
  | None => ret (SendStatus 401)
  | Some userId =>
      try_catch
        (validatedData <- parse body ;;
         transaction <- createTransaction userId validatedData ;;
         (if TransactionType_eq_dec (InsertTransaction.type validatedData) expense
          then
            d1 <- now ;;
            d2 <- now ;;
            checkBudgetAlerts userId (InsertTransaction.category validatedData)
              (JsDate.getMonth d1 + 1) (JsDate.getFullYear d2)
          else ret tt) ;;
         ret (StatusJson 201 (JsonTransaction transaction)))
        (fun error =>
           match error with
           | ZodError => ret (StatusJson 400 (JsonInvalid "Invalid transaction data"))
           | _ => ret (StatusJson 500 (JsonMessage "Failed to create transaction"))
           end)
  end.

(** [app.put("/api/transactions/:id", ...)] *)
Definition put_transactions (user : option Uuid) (id : Uuid)
    (body : option PartialTransaction.t) : Async Response :=
  match user with
  | None => ret (SendStatus 401)
  | Some _ =>
      try_catch
        (validatedData <- parse body ;;
         transaction <- updateTransaction id validatedData ;;
         match transaction with
         | None => ret (StatusJson 404 (JsonMessage "Transaction not found"))
         | Some transaction => ret (StatusJson 200 (JsonTransaction transaction))
         end)
        (fun error =>
           match error with
           | ZodError => ret (StatusJson 400 (JsonInvalid "Invalid transaction data"))
           | _ => ret (StatusJson 500 (JsonMessage "Failed to update transaction"))
           end)
  end.

(** [app.delete("/api/transactions/:id", ...)] *)
Definition delete_transactions (user : option Uuid) (id : Uuid) : Async Response :=
  match user with
  | None => ret (SendStatus 401)
  | Some _ =>
      try_catch
        (success <- deleteTransaction id ;;
         if negb success
         then ret (StatusJson 404 (JsonMessage "Transaction not found"))
         else ret (SendStatus 204))
        (fun _ => ret (StatusJson 500 (JsonMessage "Failed to delete transaction")))
  end.

(** [app.put("/api/budgets/:id", ...)] *)
Definition put_budgets (user : option Uuid) (id : Uuid)
    (body : option PartialBudget.t) : Async Response :=
  match user with
  | None => ret (SendStatus 401)
  | Some _ =>
      try_catch
        (validatedData <- parse body ;;
         budget <- updateBudget id validatedData ;;
         match budget with
         | None => ret (StatusJson 404 (JsonMessage "Budget not found"))
         | Some budget => ret (StatusJson 200 (JsonBudget budget))
         end)
        (fun error =>
           match error with
           | ZodError => ret (StatusJson 400 (JsonInvalid "Invalid budget data"))
           | _ => ret (StatusJson 500 (JsonMessage "Failed to update budget"))
           end)
  end.

(** [app.delete("/api/budgets/:id", ...)] *)
Definition delete_budgets (user : option Uuid) (id : Uuid) : Async Response :=
  match user with
  | None => ret (SendStatus 401)
  | Some _ =>
      try_catch
        (success <- deleteBudget id ;;
         if negb success
         then ret (StatusJson 404 (JsonMessage "Budget not found"))
         else ret (SendStatus 204))
        (fun _ => ret (StatusJson 500 (JsonMessage "Failed to delete budget")))
  end.

(** [app.put("/api/goals/:id", ...)] *)
Definition put_goals (user : option Uuid) (id : Uuid)
    (body : option PartialGoal.t) : Async Response :=
  match user with
  | None => ret (SendStatus 401)
  | Some _ =>
      try_catch
        (validatedData <- parse body ;;
         goal <- updateGoal id validatedData ;;
         match goal with
         | None => ret (StatusJson 404 (JsonMessage "Goal not found"))
         | Some goal => ret (StatusJson 200 (JsonGoal goal))
         end)
        (fun error =>
           match error with
           | ZodError => ret (StatusJson 400 (JsonInvalid "Invalid goal data"))
           | _ => ret (StatusJson 500 (JsonMessage "Failed to update goal"))
           end)
  end.

(** [app.delete("/api/goals/:id", ...)] *)
Definition delete_goals (user : option Uuid) (id : Uuid) : Async Response :=
  match user with
  | None => ret (SendStatus 401)
  | Some _ =>
      try_catch
        (success <- deleteGoal id ;;
         if negb success
         then ret (StatusJson 404 (JsonMessage "Goal not found"))
         else ret (SendStatus 204))
        (fun _ => ret (StatusJson 500 (JsonMessage "Failed to delete goal")))
  end.

(** ** What a run of the evaluator computes *)

(** The value of [categoryTransactions] when the evaluator runs on store [s]. *)
Definition monthRows (userId : Uuid) (category : Category) (month year : Z) (s : Store)
    : list Transaction.t :=
  categoryTransactions category
    (order_by (fun x y => Transaction.date y <=? Transaction.date x)
       (filter (in_range userId (JsDate.newDate year (month - 1) 1 0 0 0)
                                (JsDate.newDate year month 0 23 59 59))
               (transactions s))).

(** The value of [percentage] when the evaluator runs on store [s] and finds
    [budget]. *)
Definition spentPercentage (userId : Uuid) (category : Category) (month year : Z)
    (budget : Budget.t) (s : Store) : float :=
  percentage (totalSpent (monthRows userId category month year s))
             (Num.parseFloat (Budget.amount budget)).

(** The notification the evaluator then inserts, if any. *)
Definition alertFor (userId : Uuid) (category : Category) (month year : Z)
    (budget : Budget.t) (s : Store) : option InsertNotification.t :=
  let totalSpent := totalSpent (monthRows userId category month year s) in
  let budgetAmount := Num.parseFloat (Budget.amount budget) in
  let percentage := percentage totalSpent budgetAmount in
  if ((80 <=? percentage) && (percentage <? 100))%float
  then Some (budgetAlert userId category percentage totalSpent budgetAmount)
  else if (100 <=? percentage)%float
  then Some (budgetExceeded userId category totalSpent budgetAmount)
  else None.

(** The budget row the evaluator finds on store [s]. *)
Definition budgetFor (userId : Uuid) (category : Category) (month year : Z) (s : Store)
    : option Budget.t :=
  hd_error (filter (budget_matches userId category month year) (budgets s)).

(** The statements a run of the evaluator sends. *)
Definition budgetLookup (userId : Uuid) (category : Category) (month year : Z) : Query :=
  SelectBudgetByCategory userId category month year.

Definition monthSelect (userId : Uuid) (month year : Z) : Query :=
  SelectTransactionsByDateRange userId
    (JsDate.newDate year (month - 1) 1 0 0 0) (JsDate.newDate year month 0 23 59 59).

(** The world after the statements [qs] were sent and left the store alone. *)
Definition sent (qs : list Query) (w : World) : World :=
  mkWorld (db w) (console w) (clock w) (queries w ++ qs)%list.

(** The world after the statements [qs] were sent, the last one, [q], was
    rejected, and the evaluator logged the error. *)
Definition logged (qs : list Query) (q : Query) (w : World) : World :=
  mkWorld (db w)
    (console w ++ [("Error checking budget alerts:", DatabaseError q)])%list
    (clock w) (queries w ++ qs)%list.

(** The world after the statements [qs] were sent, the last of which inserted
    the notification [n]. *)
Definition notified (qs : list Query) (n : InsertNotification.t) (w : World) : World :=
  mkWorld (snd (insert_into_notifications (clock w) n (db w)))
    (console w) (clock w) (queries w ++ qs)%list.

(** Budget lookups among the statements sent: one per run of the evaluator. *)
Definition is_budget_lookup (q : Query) : bool :=
  match q with SelectBudgetByCategory _ _ _ _ => true | _ => false end.

(** ** The calendar month, as the specification words it: from the first of
    the month at 00:00:00 to the last of the month at 23:59:59. *)

Definition first_of_month (year month : Z) : Z :=
  JsDate.MakeDate (JsDate.MakeDay year (month - 1) 1) (JsDate.MakeTime 0 0 0 0).

Definition last_of_month (year month : Z) : Z :=
  JsDate.MakeDate
    (JsDate.MakeDay year (month - 1) (JsDate.DaysInMonth year (month - 1)))
    (JsDate.MakeTime 23 59 59 0).

(** An expense of [userId] in [category], dated within the month. *)
Definition counts_towards (userId : Uuid) (category : Category) (month year : Z)
    (t : Transaction.t) : bool :=
  (Transaction.userId t =? userId)%N
  && (first_of_month year month <=? Transaction.date t)
  && (Transaction.date t <=? last_of_month year month)
  && is_expense t && has_category category t.



(** ** Example data *)

Definition alice : Uuid := 1%N.
Definition bob : Uuid := 2%N.

Definition no_faults (q : Query) : bool := false.

(** A host that prints every number with one decimal. *)
Definition oneDecimal (x : float) : string := Num.toFixed1 (fun _ => "NaN") x.

(** 15 June 2024, 12:00:00. *)
Definition mid_june_2024 : Z := JsDate.newDate 2024 5 15 12 0 0.

(** Alice's Food budget of 1000.00 for June 2024. *)
Definition food_budget : Budget.t :=
  Budget.mk 10%N alice Food 100000 6 2024 (JsDate.newDate 2024 5 1 9 0 0).

Definition food_world : World :=
  mkWorld (mkStore [] [food_budget] [] [] 11%N) [] mid_june_2024 [].

(** An expense of 850.00 and one of 200.00 in Food, dated 10 and 12 June. *)
Definition expense_850 : InsertTransaction.t :=
  InsertTransaction.mk 85000 "weekly shop" Food expense (JsDate.newDate 2024 5 10 18 30 0).

Definition expense_200 : InsertTransaction.t :=
  InsertTransaction.mk 20000 "dinner" Food expense (JsDate.newDate 2024 5 12 20 0 0).

(** A store holding the budget [b] and one Food expense of [spent] hundredths
    dated 10 June 2024. *)
Definition spent_world (b : Budget.t) (spent : Decimal2) : World :=
  mkWorld
    (mkStore
       [Transaction.mk 11%N alice spent "weekly shop" Food expense
          (JsDate.newDate 2024 5 10 18 30 0) (JsDate.newDate 2024 5 10 18 31 0)]
       [b] [] [] 12%N)
    [] mid_june_2024 [].

(** Bob's rows, for the ownership examples. *)
Definition bob_transaction : Transaction.t :=
  Transaction.mk 21%N bob 4200 "books" Education expense
    (JsDate.newDate 2024 5 3 10 0 0) (JsDate.newDate 2024 5 3 10 0 5).

Definition bob_budget : Budget.t :=
  Budget.mk 22%N bob Travel 500000 6 2024 (JsDate.newDate 2024 5 1 8 0 0).

Definition bob_goal : Goal.t :=
  Goal.mk 23%N bob "New laptop" 9000000 1500000 None false
    (JsDate.newDate 2024 0 2 8 0 0).

Definition bob_world : World :=
  mkWorld (mkStore [bob_transaction] [bob_budget] [bob_goal] [] 24%N)
    [] mid_june_2024 [].



(** Alice's rows of June 2024 next to rows that must not count: a Food
    expense of May, Bob's Food expense, a Food income, a Travel expense. *)
Definition mixed_rows : list Transaction.t :=
  [Transaction.mk 41%N alice 30000 "market" Food expense
     (JsDate.newDate 2024 5 1 0 0 0) (JsDate.newDate 2024 5 1 0 0 1);
   Transaction.mk 42%N alice 9900 "bakery" Food expense
     (JsDate.newDate 2024 4 31 23 59 59) (JsDate.newDate 2024 5 1 0 0 2);
   Transaction.mk 43%N bob 70000 "catering" Food expense
     (JsDate.newDate 2024 5 5 12 0 0) (JsDate.newDate 2024 5 5 12 0 1);
   Transaction.mk 44%N alice 50000 "refund" Food income
     (JsDate.newDate 2024 5 6 12 0 0) (JsDate.newDate 2024 5 6 12 0 1);
   Transaction.mk 45%N alice 120000 "flight" Travel expense
     (JsDate.newDate 2024 5 7 12 0 0) (JsDate.newDate 2024 5 7 12 0 1);
   Transaction.mk 46%N alice 45000 "restaurant" Food expense
     (JsDate.newDate 2024 5 30 23 59 59) (JsDate.newDate 2024 5 30 23 59 59)].

Definition mixed_world : World :=
  mkWorld (mkStore mixed_rows [food_budget] [] [] 47%N) [] mid_june_2024 [].

(** A Food budget of 0.00 for June 2024. *)
Definition zero_budget : Budget.t :=
  Budget.mk 10%N alice Food 0 6 2024 (JsDate.newDate 2024 5 1 9 0 0).

(** A Food expense of 850.00 dated 25 December 2023, and a Travel expense. *)
Definition backdated_expense : InsertTransaction.t :=
  InsertTransaction.mk 85000 "holiday dinner" Food expense
    (JsDate.newDate 2023 11 25 19 0 0).

Definition travel_expense : InsertTransaction.t :=
  InsertTransaction.mk 85000 "train" Travel expense (JsDate.newDate 2024 5 10 8 0 0).

(** A database that rejects every insert into notifications. *)
Definition reject_notifications (q : Query) : bool :=
  match q with InsertIntoNotifications _ => true | _ => false end.




(** ** The month range of the evaluator and of spending-by-category *)

(** [startDate] and [endDate] of [checkBudgetAlerts] and of
    [getSpendingByCategory] for (month, year). *)
Definition monthStart (year month : Z) : Z := JsDate.newDate year (month - 1) 1 0 0 0.

Definition monthEnd (year month : Z) : Z := JsDate.newDate year month 0 23 59 59.

(** The rows of the table that a run of the evaluator for [userId],
    [category] and (month, year) sums. *)
Definition counted (userId : Uuid) (category : Category) (month year : Z)
    (t : Transaction.t) : bool :=
  in_range userId (monthStart year month) (monthEnd year month) t
  && (has_category category t && is_expense t).

(** ** The remaining methods of [DatabaseStorage] *)

(** The statements among these that the database rejects. *)
Variable rejects : Statement -> bool.

(** Sending a statement: if the database rejects it nothing is written and
    the promise rejects; otherwise it runs on the store. *)
Definition execute {A} (st : Statement) (run : Store -> A * Store) : Task A :=
  fun w =>
    if rejects st then (inr (StatementFault st), w)
    else let (a, s) := run (db w) in
         (inl a, mkWorld s (console w) (clock w) (queries w)).

(** [getTransactions(userId, limit = 50)] for an integer [limit];
    PostgreSQL refuses a negative [LIMIT] and one that is no [bigint]. *)
Definition getTransactions (userId : Uuid) (limit : option Z)
    : Task (list Transaction.t) :=
  let limit := or_else limit 50 in
  if (limit <? 0) || (9223372036854775807 <? limit)
  then raise (StatementFault (SelectTransactions userId limit))
  else
    execute (SelectTransactions userId limit) (fun s =>
      (firstn (Z.to_nat limit)
         (order_by (fun x y => Transaction.date y <=? Transaction.date x)
            (filter (fun t => (Transaction.userId t =? userId)%N) (transactions s))),
       s)).

(** [getBudgets(userId, month?, year?)]: the month and the year restrict the
    rows only when both are given. *)
Definition getBudgets (userId : Uuid) (month year : option Z)
    : Task (list Budget.t) :=
  match month, year with
  | Some month, Some year =>
      execute (SelectBudgets userId (Some (month, year))) (fun s =>
        (filter (fun b => (Budget.userId b =? userId)%N
                          && (Budget.month b =? month) && (Budget.year b =? year))
                (budgets s),
         s))
  | _, _ =>
      execute (SelectBudgets userId None) (fun s =>
        (filter (fun b => (Budget.userId b =? userId)%N) (budgets s), s))
  end.

Definition createBudget (userId : Uuid) (budget : InsertBudget.t) : Task Budget.t :=
  createdAt <~ today ;;
  execute (InsertIntoBudgets userId budget) (insert_into_budgets createdAt userId budget).

Definition getGoals (userId : Uuid) : Task (list Goal.t) :=
  execute (SelectGoals userId) (fun s =>
    (order_by (fun x y => Goal.createdAt y <=? Goal.createdAt x)
       (filter (fun g => (Goal.userId g =? userId)%N) (goals s)),
     s)).

Definition createGoal (userId : Uuid) (goal : InsertGoal.t) : Task Goal.t :=
  createdAt <~ today ;;
  execute (InsertIntoGoals userId goal) (insert_into_goals createdAt userId goal).

Definition getNotifications (userId : Uuid) : Task (list Notification.t) :=
  execute (SelectNotifications userId) (fun s =>
    (order_by (fun x y => Notification.createdAt y <=? Notification.createdAt x)
       (filter (fun n => (Notification.userId n =? userId)%N) (notifications s)),
     s)).

Definition markNotificationAsRead (id : Uuid) : Task bool :=
  execute (UpdateNotificationsSetRead id) (fun s =>
    let (returning, table) :=
      update_where (fun r => (Notification.id r =? id)%N) set_read (notifications s) in
    ((0 <? List.length returning)%nat,
     mkStore (transactions s) (budgets s) (goals s) table (next_uuid s))).

(** ** The remaining routes *)

(** What a route sends: a response as above, or [res.json(rows)]. *)
Inductive Sent : Set :=
  | Send (r : Response)
  | SendGoals (rows : list Goal.t)
  | SendNotifications (rows : list Notification.t).

(** [app.post("/api/budgets", ...)] *)
Definition post_budgets (user : option Uuid) (body : option InsertBudget.t)
    : Task Sent :=
  match user with
  | None => done (Send (SendStatus 401))
  | Some userId =>
      attempt
        (validatedData <~ validate body ;;
         budget <~ createBudget userId validatedData ;;
         done (Send (StatusJson 201 (JsonBudget budget))))
        (fun error =>
           match error with
           | ValidationFault =>
               done (Send (StatusJson 400 (JsonInvalid "Invalid budget data")))
           | _ => done (Send (StatusJson 500 (JsonMessage "Failed to create budget")))
           end)
  end.

(** [app.get("/api/goals", ...)] *)
Definition get_goals (user : option Uuid) : Task Sent :=
  match user with
  | None => done (Send (SendStatus 401))
  | Some userId =>
      attempt
        (goals <~ getGoals userId ;;
         done (SendGoals goals))
        (fun _ => done (Send (StatusJson 500 (JsonMessage "Failed to fetch goals"))))
  end.

(** [app.post("/api/goals", ...)] *)
Definition post_goals (user : option Uuid) (body : option InsertGoal.t)
    : Task Sent :=
  match user with
  | None => done (Send (SendStatus 401))
  | Some userId =>
      attempt
        (validatedData <~ validate body ;;
         goal <~ createGoal userId validatedData ;;
         done (Send (StatusJson 201 (JsonGoal goal))))
        (fun error =>
           match error with
           | ValidationFault =>
               done (Send (StatusJson 400 (JsonInvalid "Invalid goal data")))
           | _ => done (Send (StatusJson 500 (JsonMessage "Failed to create goal")))
           end)
  end.

(** [app.get("/api/notifications", ...)] *)
Definition get_notifications (user : option Uuid) : Task Sent :=
  match user with
  | None => done (Send (SendStatus 401))
  | Some userId =>
      attempt
        (notifications <~ getNotifications userId ;;
         done (SendNotifications notifications))
        (fun _ =>
           done (Send (StatusJson 500 (JsonMessage "Failed to fetch notifications"))))
  end.

(** [app.put("/api/notifications/:id/read", ...)] *)
Definition put_notifications_read (user : option Uuid) (id : Uuid) : Task Sent :=
  match user with
  | None => done (Send (SendStatus 401))
  | Some _ =>
      attempt
        (success <~ markNotificationAsRead id ;;
         if negb success
         then done (Send (StatusJson 404 (JsonMessage "Notification not found")))
         else done (Send (SendStatus 204)))
        (fun _ =>
           done (Send (StatusJson 500
                         (JsonMessage "Failed to mark notification as read"))))
  end.

(** ** The routes as [registerRoutes] installs them *)

Inductive Request : Set :=
  | PostTransactions (body : option InsertTransaction.t)
  | PutTransactions (id : Uuid) (body : option PartialTransaction.t)
  | DeleteTransactions (id : Uuid)
  | PostBudgets (body : option InsertBudget.t)
  | PutBudgets (id : Uuid) (body : option PartialBudget.t)
  | DeleteBudgets (id : Uuid)
  | GetGoals
  | PostGoals (body : option InsertGoal.t)
  | PutGoals (id : Uuid) (body : option PartialGoal.t)
  | DeleteGoals (id : Uuid)
  | GetNotifications
  | PutNotificationsRead (id : Uuid).

(** What the client receives; [None] stands for a handler that threw and
    sent nothing. *)
Definition responded (r : Outcome Response * World) : option Sent * World :=
  match r with
  | (Returned r, w) => (Some (Send r), w)
  | (Thrown _, w) => (None, w)
  end.

Definition delivered (r : (Sent + Fault) * World) : option Sent * World :=
  match r with
  | (inl r, w) => (Some r, w)
  | (inr _, w) => (None, w)
  end.

(** A request of the session [user] ([None]: not authenticated). *)
Definition handle (user : option Uuid) (req : Request) (w : World)
    : option Sent * World :=
  match req with
  | PostTransactions body => responded (post_transactions user body w)
  | PutTransactions id body => responded (put_transactions user id body w)
  | DeleteTransactions id => responded (delete_transactions user id w)
  | PostBudgets body => delivered (post_budgets user body w)
  | PutBudgets id body => responded (put_budgets user id body w)
  | DeleteBudgets id => responded (delete_budgets user id w)
  | GetGoals => delivered (get_goals user w)
  | PostGoals body => delivered (post_goals user body w)
  | PutGoals id body => responded (put_goals user id body w)
  | DeleteGoals id => responded (delete_goals user id w)
  | GetNotifications => delivered (get_notifications user w)
  | PutNotificationsRead id => delivered (put_notifications_read user id w)
  end.

(** The status code of what was sent; [res.json] sends 200. *)
Definition statusCode (r : Sent) : Z :=
  match r with
  | Send (SendStatus code) => code
  | Send (StatusJson code _) => code
  | SendGoals _ | SendNotifications _ => 200
  end.

(** ** What requests do to the store *)

(** The notifications the evaluator creates for [userId]. *)
Definition is_alert (userId : Uuid) (n : InsertNotification.t) : Prop :=
  exists category percentage totalSpent budgetAmount,
    n = budgetAlert userId category percentage totalSpent budgetAmount
    \/ n = budgetExceeded userId category totalSpent budgetAmount.

(** The writes a request of [caller], handled at time [now], can make. *)
Inductive Write (caller : Uuid) (now : Z) (s : Store) : Store -> Prop :=
  | write_nothing :
      Write caller now s s
  | write_transaction body :
      Write caller now s (snd (insert_into_transactions now caller body s))
  | write_transaction_and_alert body n :
      is_alert caller n ->
      Write caller now s
        (snd (insert_into_notifications now n
                (snd (insert_into_transactions now caller body s))))
  | write_update_transactions id patch :
      Write caller now s
        (mkStore (map (fun r => if (Transaction.id r =? id)%N
                                then set_transaction patch r else r) (transactions s))
                 (budgets s) (goals s) (notifications s) (next_uuid s))
  | write_delete_transactions id :
      Write caller now s
        (mkStore (filter (fun r => negb (Transaction.id r =? id)%N) (transactions s))
                 (budgets s) (goals s) (notifications s) (next_uuid s))
  | write_budget body :
      Write caller now s (snd (insert_into_budgets now caller body s))
  | write_update_budgets id patch :
      Write caller now s
        (mkStore (transactions s)
                 (map (fun r => if (Budget.id r =? id)%N
                                then set_budget patch r else r) (budgets s))
                 (goals s) (notifications s) (next_uuid s))
  | write_delete_budgets id :
      Write caller now s
        (mkStore (transactions s)
                 (filter (fun r => negb (Budget.id r =? id)%N) (budgets s))
                 (goals s) (notifications s) (next_uuid s))
  | write_goal body :
      Write caller now s (snd (insert_into_goals now caller body s))
  | write_update_goals id patch :
      Write caller now s
        (mkStore (transactions s) (budgets s)
                 (map (fun r => if (Goal.id r =? id)%N
                                then set_goal patch r else r) (goals s))
                 (notifications s) (next_uuid s))
  | write_delete_goals id :
      Write caller now s
        (mkStore (transactions s) (budgets s)
                 (filter (fun r => negb (Goal.id r =? id)%N) (goals s))
                 (notifications s) (next_uuid s))
  | write_read id :
      Write caller now s
        (mkStore (transactions s) (budgets s) (goals s)
                 (map (fun r => if (Notification.id r =? id)%N then set_read r else r)
                      (notifications s))
                 (next_uuid s)).

(** ** Sequences of requests *)

Inductive Event : Set :=
  (** a request of the session [user] *)
  | Call (user : option Uuid) (req : Request)
  (** the wall clock moves to [time] *)
  | Tick (time : Z).

Definition occur (w : World) (e : Event) : World :=
  match e with
  | Call user req => snd (handle user req w)
  | Tick time => mkWorld (db w) (console w) time (queries w)
  end.

Definition serve (events : list Event) (w : World) : World :=
  fold_left occur events w.

(** The notifications [GET /api/notifications] returns to [userId]. *)
Definition inbox (userId : Uuid) (s : Store) : list Notification.t :=
  order_by (fun x y => Notification.createdAt y <=? Notification.createdAt x)
    (filter (fun n => (Notification.userId n =? userId)%N) (notifications s)).

(** The authenticated callers of a sequence of events. *)
Definition callers (events : list Event) : list Uuid :=
  flat_map (fun e => match e with Call (Some userId) _ => [userId] | _ => [] end)
           events.

(** The rows of a table have distinct ids, all below the next
    [gen_random_uuid()]. *)
Definition identified {A} (id : A -> Uuid) (next : Uuid) (rows : list A) : Prop :=
  NoDup (map id rows) /\ Forall (fun r => (id r < next)%N) rows.

Definition well_identified (s : Store) : Prop :=
  identified Transaction.id (next_uuid s) (transactions s)
  /\ identified Budget.id (next_uuid s) (budgets s)
  /\ identified Goal.id (next_uuid s) (goals s)
  /\ identified Notification.id (next_uuid s) (notifications s).

(** A goal as [INSERT INTO goals] leaves it: nothing saved, not completed. *)
Definition no_progress (g : Goal.t) : Prop :=
  Goal.currentAmount g = 0 /\ Goal.isCompleted g = false.

(** A notification the evaluator wrote. *)
Definition alert_row (n : Notification.t) : Prop :=
  Notification.type n = "warning"
  /\ exists category,
       Notification.title n = "Budget Alert - " ++ categoryName category
       \/ Notification.title n = "Budget Exceeded - " ++ categoryName category.

(** The ids of the rows of [userId], table by table. *)
Definition ownTransactions (userId : Uuid) (s : Store) : list Uuid :=
  map Transaction.id
    (filter (fun r => (Transaction.userId r =? userId)%N) (transactions s)).

Definition ownBudgets (userId : Uuid) (s : Store) : list Uuid :=
  map Budget.id (filter (fun r => (Budget.userId r =? userId)%N) (budgets s)).

Definition ownGoals (userId : Uuid) (s : Store) : list Uuid :=
  map Goal.id (filter (fun r => (Goal.userId r =? userId)%N) (goals s)).

Definition ownNotifications (userId : Uuid) (s : Store) : list Uuid :=
  map Notification.id
    (filter (fun r => (Notification.userId r =? userId)%N) (notifications s)).

(** ** Further example data *)

Definition no_rejects (st : Statement) : bool := false.

(** A Food expense of Alice dated 30 June 2024, 23:59:59.500. *)
Definition last_second_expense : Transaction.t :=
  Transaction.mk 51%N alice 85000 "late dinner" Food expense
    (JsDate.newDate 2024 5 30 23 59 59 + 500) (JsDate.newDate 2024 6 1 9 0 0).

(** A second Food budget of Alice for June 2024, of 500.00. *)
Definition second_food_budget : InsertBudget.t := InsertBudget.mk Food 50000 6 2024.

Definition laptop_goal : InsertGoal.t :=
  InsertGoal.mk "New laptop" 9000000 (Some (JsDate.newDate 2025 0 1 0 0 0)).

(** A patch that renames a goal and nothing else. *)
Definition rename_goal : PartialGoal.t :=
  PartialGoal.mk (Some "Used laptop") None None.

(** Alice's Food budget and one unread alert of hers. *)
Definition food_alert : Notification.t :=
  Notification.mk 12%N alice "Budget Alert - Food"
    "You've spent 85.0% of your Food budget this month (₹850.0 of ₹1000.0)"
    "warning" false mid_june_2024.

Definition alerted_world : World :=
  mkWorld (mkStore [] [food_budget] [] [food_alert] 13%N) [] mid_june_2024 [].

(** Alice creates a goal, Bob renames it, Alice records two Food expenses,
    the clock moves on a day, Bob marks Alice's first alert as read and
    deletes her goal. *)
Definition busy_day : list Event :=
  [Call (Some alice) (PostGoals (Some laptop_goal));
   Call (Some bob) (PutGoals 11%N (Some rename_goal));
   Call (Some alice) (PostTransactions (Some expense_850));
   Call (Some alice) (PostTransactions (Some expense_200));
   Tick (JsDate.newDate 2024 5 16 12 0 0);
   Call None GetNotifications;
   Call (Some bob) (PutNotificationsRead 13%N);
   Call (Some bob) (DeleteGoals 11%N)].

(** Alice alone is active on Bob's store. *)
Definition alice_only : list Event :=
  [Call (Some alice) (PostTransactions (Some expense_850));
   Call (Some alice) (PostBudgets (Some second_food_budget));
   Call (Some alice) (PostGoals (Some laptop_goal));
   Call (Some alice) (DeleteTransactions 21%N);
   Call (Some alice) (PutGoals 23%N (Some rename_goal))].

(** A patch that raises the amount to 2000.00. *)
Definition raise_amount : PartialTransaction.t :=
  PartialTransaction.mk (Some 200000) None None None None.
(** * Properties *)

(** ** Binary64 comparisons *)

Lemma SFcompare_antisym (a b : spec_float) :
  SFcompare b a = option_map CompOpp (SFcompare a b).
Proof.
  destruct a as [sa|sa| |sa ma ea], b as [sb|sb| |sb mb eb]; simpl;
    try destruct sa; try destruct sb; try reflexivity;
    rewrite (Z.compare_antisym ea eb);
    destruct (ea ?= eb); simpl; try reflexivity;
    rewrite (Pos.compare_cont_antisym ma mb Eq); reflexivity.
Qed.



Lemma Prim2SF_80 : Prim2SF 80%float = S754_finite false 5629499534213120 (-46).
Proof. reflexivity. Qed.

Lemma Prim2SF_100 : Prim2SF 100%float = S754_finite false 7036874417766400 (-46).
Proof. reflexivity. Qed.


(** A number comparable with 80 is comparable with 100: at or above 80 and
    not below 100 means at or above 100. *)
Lemma leb_80_not_ltb_100 (p : float) :
  (80 <=? p)%float = true -> (p <? 100)%float = false -> (100 <=? p)%float = true.
Proof.
  rewrite !FloatAxioms.leb_spec, FloatAxioms.ltb_spec, Prim2SF_80, Prim2SF_100.
  unfold SFleb, SFltb.
  rewrite (SFcompare_antisym (Prim2SF p) (S754_finite false 7036874417766400 (-46))).
  destruct (Prim2SF p) as [s|s| |s m e]; cbn [SFcompare option_map CompOpp];
    try destruct s; try congruence; [reflexivity|].
  intros _. destruct (e ?= -46); cbn [CompOpp]; try congruence.
  destruct (Pos.compare_cont Eq m 7036874417766400); cbn [CompOpp]; congruence.
Qed.

(** Division of a positive number by zero: the percentage is +infinity. *)
Lemma percentage_zero_budget_pos (x : float) :
  (0 <? x)%float = true -> percentage x 0%float = infinity.
Proof.
  intros H. unfold percentage.
  assert (E : (x / 0)%float = infinity).
  { rewrite <- (SF2Prim_Prim2SF (x / 0)), div_spec.
    rewrite FloatAxioms.ltb_spec in H. unfold SFltb in H.
    change (Prim2SF 0) with (S754_zero false) in *.
    destruct (Prim2SF x) as [s|s| |s m e]; cbn [SFcompare] in H; try destruct s;
      try discriminate; reflexivity. }
  rewrite E. reflexivity.
Qed.

(** Division of zero by zero: the percentage is NaN. *)
Lemma percentage_zero_budget_zero (x : float) :
  (x =? 0)%float = true -> is_nan (percentage x 0%float) = true.
Proof.
  intros H. unfold percentage.
  assert (E : (x / 0)%float = nan).
  { rewrite <- (SF2Prim_Prim2SF (x / 0)), div_spec.
    rewrite FloatAxioms.eqb_spec in H. unfold SFeqb in H.
    change (Prim2SF 0) with (S754_zero false) in *.
    destruct (Prim2SF x) as [s|s| |s m e]; cbn [SFcompare] in H; try destruct s;
      try discriminate; reflexivity. }
  rewrite E. reflexivity.
Qed.

(** NaN fails every threshold comparison. *)
Lemma is_nan_thresholds (p : float) :
  is_nan p = true ->
  (80 <=? p)%float = false /\ (p <? 100)%float = false
  /\ (100 <=? p)%float = false /\ (p <? 80)%float = false.
Proof.
  unfold is_nan.
  rewrite !FloatAxioms.leb_spec, !FloatAxioms.ltb_spec, FloatAxioms.eqb_spec.
  unfold SFleb, SFltb, SFeqb. rewrite Prim2SF_80, Prim2SF_100.
  destruct (Prim2SF p) as [s|s| |s m e]; cbn [SFcompare negb]; try destruct s;
    try discriminate; try (intros _; repeat split; reflexivity);
    rewrite Z.compare_refl, Pos.compare_cont_refl; discriminate.
Qed.

(** [toFixed(1)] shows the nearest tenth: for a finite [x] of magnitude
    [m * 2^e], [tenths x] is [10 * m * 2^e] when that is an integer, and
    otherwise the integer [n] with [n - 1/2 <= 10 * m * 2^e < n + 1/2]. *)
Lemma tenths_nearest (x : float) (s : bool) (m : positive) (e : Z) :
  Prim2SF x = S754_finite s m e ->
  let n := Num.tenths x in
  (0 <= e -> n = 10 * Z.pos m * 2 ^ e)
  /\ (e < 0 ->
      2 ^ (- e + 1) * n <= 20 * Z.pos m + 2 ^ (- e) < 2 ^ (- e + 1) * (n + 1)).
Proof.
  intros E. cbv zeta. unfold Num.tenths. rewrite E. split; intros He.
  - replace (0 <=? e) with true by (symmetry; apply Z.leb_le; exact He). lia.
  - replace (0 <=? e) with false by (symmetry; apply Z.leb_gt; exact He).
    assert (P : 0 < 2 ^ (- e + 1)) by (apply Z.pow_pos_nonneg; lia).
    replace (2 * (Z.pos m * 10)) with (20 * Z.pos m) by lia.
    split.
    + apply Z.mul_div_le. exact P.
    + rewrite Z.mul_add_distr_l, Z.mul_1_r.
      pose proof (Z.mod_pos_bound (20 * Z.pos m + 2 ^ (- e)) (2 ^ (- e + 1)) P).
      pose proof (Z.div_mod (20 * Z.pos m + 2 ^ (- e)) (2 ^ (- e + 1))). lia.
Qed.

(** ** Calendar arithmetic *)

Ltac div_step :=
  match goal with
  | |- context [?y mod ?d =? 0] =>
      destruct (y mod d =? 0) eqn:E; rewrite ?Z.eqb_eq, ?Z.eqb_neq in E;
      Z.to_euclidean_division_equations; lia
  end.

Lemma div_step_4 (y : Z) :
  (y - 1968) / 4 - (y - 1969) / 4 = if y mod 4 =? 0 then 1 else 0.
Proof. div_step. Qed.

Lemma div_step_100 (y : Z) :
  (y - 1900) / 100 - (y - 1901) / 100 = if y mod 100 =? 0 then 1 else 0.
Proof. div_step. Qed.

Lemma div_step_400 (y : Z) :
  (y - 1600) / 400 - (y - 1601) / 400 = if y mod 400 =? 0 then 1 else 0.
Proof. div_step. Qed.

(** A year has 365 days, a leap year 366. *)
Lemma DayFromYear_succ (y : Z) :
  JsDate.DayFromYear (y + 1) =
  JsDate.DayFromYear y + (if JsDate.InLeapYear y then 366 else 365).
Proof.
  unfold JsDate.DayFromYear, JsDate.InLeapYear.
  pose proof (div_step_4 y) as H4.
  pose proof (div_step_100 y) as H100.
  pose proof (div_step_400 y) as H400.
  replace (y + 1 - 1969) with (y - 1968) by lia.
  replace (y + 1 - 1901) with (y - 1900) by lia.
  replace (y + 1 - 1601) with (y - 1600) by lia.
  assert (M1 : y mod 400 = 0 -> y mod 100 = 0)
    by (Z.to_euclidean_division_equations; lia).
  assert (M2 : y mod 100 = 0 -> y mod 4 = 0)
    by (Z.to_euclidean_division_equations; lia).
  destruct (y mod 4 =? 0) eqn:E4; destruct (y mod 100 =? 0) eqn:E100;
    destruct (y mod 400 =? 0) eqn:E400; cbn [andb orb negb] in *;
    rewrite ?Z.eqb_eq, ?Z.eqb_neq in *; lia.
Qed.

(** Day 0 of the next month is the last day of the month. *)
Lemma MakeDay_last_of_month (y month : Z) :
  1 <= month <= 12 ->
  JsDate.MakeDay y month 0 =
  JsDate.MakeDay y (month - 1) (JsDate.DaysInMonth y (month - 1)).
Proof.
  intros H.
  assert (C : month = 1 \/ month = 2 \/ month = 3 \/ month = 4 \/ month = 5 \/
              month = 6 \/ month = 7 \/ month = 8 \/ month = 9 \/ month = 10 \/
              month = 11 \/ month = 12) by lia.
  unfold JsDate.MakeDay.
  repeat (destruct C as [C|C]); subst month; simpl;
    rewrite ?Z.add_0_r; try (destruct (JsDate.InLeapYear y); simpl; lia).
  rewrite DayFromYear_succ. destruct (JsDate.InLeapYear y); simpl; lia.
Qed.

(** From 1 January 1900 to 31 December 2099, [civil] inverts [MakeDay]. *)
Example civil_agrees_1900_2099 :
  JsDate.MakeDay 1900 0 1 = -25567
  /\ JsDate.MakeDay 2100 0 1 = -25567 + 73049
  /\ JsDate.civil_agrees_from (-25567) 73049 = true.
Proof. vm_compute. repeat split. Qed.

(** The range the queries use is the calendar month. *)
Lemma month_range (year month : Z) :
  1 <= month <= 12 -> 100 <= year ->
  JsDate.newDate year (month - 1) 1 0 0 0 = first_of_month year month /\
  JsDate.newDate year month 0 23 59 59 = last_of_month year month.
Proof.
  intros Hm Hy. unfold JsDate.newDate, first_of_month, last_of_month, JsDate.fullYear.
  replace (year <=? 99) with false by (symmetry; apply Z.leb_gt; lia).
  rewrite andb_false_r, MakeDay_last_of_month by exact Hm. split; reflexivity.
Qed.

(** ** [ORDER BY], [GROUP BY] and [SUM] *)

Lemma insert_by_perm {A} (before : A -> A -> bool) (x : A) (l : list A) :
  Permutation (insert_by before x l) (x :: l).
Proof.
  induction l as [|y l IH]; cbn [insert_by].
  - apply Permutation_refl.
  - destruct (before x y).
    + apply Permutation_refl.
    + apply Permutation_trans with (y :: x :: l).
      * apply perm_skip, IH.
      * apply perm_swap.
Qed.

Lemma order_by_perm {A} (before : A -> A -> bool) (l : list A) :
  Permutation (order_by before l) l.
Proof.
  induction l as [|x l IH]; cbn [order_by fold_right].
  - apply perm_nil.
  - apply Permutation_trans with (x :: order_by before l).
    + apply insert_by_perm.
    + apply perm_skip, IH.
Qed.


Section Sorting.

Context {A : Type} (before : A -> A -> bool).
Hypothesis before_total : forall x y, before x y = false -> before y x = true.

Lemma insert_by_HdRel (a x : A) (l : list A) :
  before a x = true ->
  HdRel (fun u v => before u v = true) a l ->
  HdRel (fun u v => before u v = true) a (insert_by before x l).
Proof.
  intros Hax Hl. destruct l as [|y l]; cbn [insert_by].
  - constructor. exact Hax.
  - destruct (before x y); constructor.
    + exact Hax.
    + inversion Hl; assumption.
Qed.

Lemma insert_by_sorted (x : A) (l : list A) :
  Sorted (fun u v => before u v = true) l ->
  Sorted (fun u v => before u v = true) (insert_by before x l).
Proof.
  induction l as [|y l IH]; intros Hs; cbn [insert_by].
  - repeat constructor.
  - destruct (before x y) eqn:E.
    + constructor; [exact Hs | constructor; exact E].
    + inversion Hs as [|? ? Hl Hy]; subst. constructor.
      * apply IH, Hl.
      * apply insert_by_HdRel; [apply before_total, E | exact Hy].
Qed.

Lemma order_by_sorted (l : list A) :
  Sorted (fun u v => before u v = true) (order_by before l).
Proof.
  induction l as [|x l IH]; cbn [order_by fold_right].
  - constructor.
  - apply insert_by_sorted, IH.
Qed.

End Sorting.


Lemma SUM_app (l l' : list Decimal2) : SUM (l ++ l') = SUM l + SUM l'.
Proof.
  induction l as [|x l IH]; cbn [SUM fold_right app] in *; unfold SUM in *; lia.
Qed.







(** ** Runs of the storage methods and of the evaluator *)

Lemma query_ok {A} (q : Query) (run : Store -> A * Store) (w : World) :
  fails q = false ->
  query q run w =
  (Returned (fst (run (db w))),
   mkWorld (snd (run (db w))) (console w) (clock w) (queries w ++ [q])%list).
Proof. intros H. unfold query. rewrite H. destruct (run (db w)); reflexivity. Qed.

Lemma query_fail {A} (q : Query) (run : Store -> A * Store) (w : World) :
  fails q = true ->
  query q run w =
  (Thrown (DatabaseError q),
   mkWorld (db w) (console w) (clock w) (queries w ++ [q])%list).
Proof. intros H. unfold query. rewrite H. reflexivity. Qed.

Ltac run_query :=
  match goal with
  | H : fails ?q = false |- context [query ?q ?r ?w] => rewrite (query_ok q r w H)
  | H : fails ?q = true |- context [query ?q ?r ?w] => rewrite (query_fail q r w H)
  | H : forall q, fails q = false |- context [query ?q ?r ?w] =>
      rewrite (query_ok q r w (H q))
  end;
  cbn [fst snd db console clock queries].

(** Every run of the evaluator returns; what it leaves behind depends on the
    statements the database rejects, on the budget row and on the alert. *)
Lemma checkBudgetAlerts_run userId category month year w :
  checkBudgetAlerts userId category month year w =
  (Returned tt,
   let q1 := budgetLookup userId category month year in
   let q2 := monthSelect userId month year in
   if fails q1 then logged [q1] q1 w
   else match budgetFor userId category month year (db w) with
        | None => sent [q1] w
        | Some budget =>
            if fails q2 then logged [q1; q2] q2 w
            else match alertFor userId category month year budget (db w) with
                 | None => sent [q1; q2] w
                 | Some n =>
                     let q3 := InsertIntoNotifications n in
                     if fails q3 then logged [q1; q2; q3] q3 w
                     else notified [q1; q2; q3] n w
                 end
        end).
Proof.
  cbv zeta. unfold checkBudgetAlerts, try_catch, bind, getBudgetByCategory, budgetLookup.
  destruct (fails (SelectBudgetByCategory userId category month year)) eqn:F1;
    run_query; [reflexivity|].
  unfold budgetFor.
  destruct (hd_error (filter (budget_matches userId category month year) (budgets (db w))))
    as [budget|]; [|reflexivity].
  unfold getTransactionsByDateRange, monthSelect.
  destruct (fails (SelectTransactionsByDateRange userId
                     (JsDate.newDate year (month - 1) 1 0 0 0)
                     (JsDate.newDate year month 0 23 59 59))) eqn:F2;
    run_query; [unfold logged; cbn [console_error]; rewrite <- !app_assoc; reflexivity|].
  unfold alertFor, monthRows.
  set (rows := categoryTransactions category _).
  set (p := percentage _ _).
  unfold createNotification, bind, now, ret.
  destruct ((80 <=? p)%float && (p <? 100)%float).
  - cbn [fst snd db console clock queries].
    destruct (fails (InsertIntoNotifications
                (budgetAlert userId category p (totalSpent rows)
                   (Num.parseFloat (Budget.amount budget))))) eqn:F3; run_query;
      unfold logged, notified, console_error;
      cbn [fst snd db console clock queries]; rewrite <- !app_assoc; reflexivity.
  - destruct (100 <=? p)%float.
    + cbn [fst snd db console clock queries].
      destruct (fails (InsertIntoNotifications
                  (budgetExceeded userId category (totalSpent rows)
                     (Num.parseFloat (Budget.amount budget))))) eqn:F3; run_query;
        unfold logged, notified, console_error;
        cbn [fst snd db console clock queries]; rewrite <- !app_assoc; reflexivity.
    + unfold sent. rewrite <- !app_assoc. reflexivity.
Qed.

(** The evaluator never throws and never touches the transactions, budgets
    and goals. *)
Lemma checkBudgetAlerts_frame userId category month year w :
  let r := checkBudgetAlerts userId category month year w in
  fst r = Returned tt /\
  transactions (db (snd r)) = transactions (db w) /\
  budgets (db (snd r)) = budgets (db w) /\
  goals (db (snd r)) = goals (db w) /\
  clock (snd r) = clock w.
Proof.
  cbv zeta. rewrite checkBudgetAlerts_run. cbv zeta. cbn [fst snd].
  split; [reflexivity|].
  repeat match goal with
         | |- context [if ?b then _ else _] => destruct b
         | |- context [match ?o with Some _ => _ | None => _ end] => destruct o
         end; repeat split; reflexivity.
Qed.

(** The create route, for an authenticated caller and a body the schema
    accepts. *)
Lemma post_transactions_run userId body w :
  post_transactions (Some userId) (Some body) w =
  let q := InsertIntoTransactions userId body in
  let inserted := insert_into_transactions (clock w) userId body (db w) in
  let persisted := mkWorld (snd inserted) (console w) (clock w) (queries w ++ [q])%list in
  if fails q
  then (Returned (StatusJson 500 (JsonMessage "Failed to create transaction")), sent [q] w)
  else (Returned (StatusJson 201 (JsonTransaction (fst inserted))),
        if TransactionType_eq_dec (InsertTransaction.type body) expense
        then snd (checkBudgetAlerts userId (InsertTransaction.category body)
                    (JsDate.getMonth (clock w) + 1) (JsDate.getFullYear (clock w))
                    persisted)
        else persisted).
Proof.
  cbv zeta. unfold post_transactions, createTransaction, try_catch, bind, parse, ret, now.
  destruct (fails (InsertIntoTransactions userId body)) eqn:F; run_query;
    [reflexivity|].
  destruct (TransactionType_eq_dec (InsertTransaction.type body) expense); [|reflexivity].
  cbn [fst snd db console clock queries].
  match goal with
  | |- context [checkBudgetAlerts ?u ?c ?m ?y ?w1] =>
      destruct (checkBudgetAlerts_frame u c m y w1) as (Hf & _);
      rewrite (surjective_pairing (checkBudgetAlerts u c m y w1)), Hf
  end.
  reflexivity.
Qed.

(** The budget lookup reads the budgets only, the month's rows the
    transactions only. *)
Lemma budgetFor_ext userId category month year (s s' : Store) :
  budgets s' = budgets s ->
  budgetFor userId category month year s' = budgetFor userId category month year s.
Proof. intros E. unfold budgetFor. rewrite E. reflexivity. Qed.

Lemma alertFor_ext userId category month year budget (s s' : Store) :
  transactions s' = transactions s ->
  alertFor userId category month year budget s' =
  alertFor userId category month year budget s.
Proof. intros E. unfold alertFor, monthRows. rewrite E. reflexivity. Qed.

(** From 80 percent on there is an alert. *)
Lemma alertFor_from_80 userId category month year budget s :
  (80 <=? spentPercentage userId category month year budget s)%float = true ->
  exists n, alertFor userId category month year budget s = Some n.
Proof.
  unfold spentPercentage, alertFor. cbv zeta.
  set (p := percentage _ _). intros H. rewrite H. cbn [andb].
  destruct (p <? 100)%float eqn:L; [eauto|].
  rewrite (leb_80_not_ltb_100 p H L). eauto.
Qed.

Lemma filter_lookup_app (qs qs' : list Query) :
  filter is_budget_lookup (qs ++ qs') =
  (filter is_budget_lookup qs ++ filter is_budget_lookup qs')%list.
Proof. apply filter_app. Qed.

(** A run of the evaluator sends exactly one budget lookup. *)
Lemma checkBudgetAlerts_one_lookup userId category month year w :
  filter is_budget_lookup (queries (snd (checkBudgetAlerts userId category month year w))) =
  (filter is_budget_lookup (queries w) ++ [budgetLookup userId category month year])%list.
Proof.
  rewrite checkBudgetAlerts_run. cbv zeta. cbn [snd].
  repeat match goal with
         | |- context [if ?b then _ else _] => destruct b
         | |- context [match ?o with Some _ => _ | None => _ end] => destruct o
         end;
    unfold logged, sent, notified; cbn [queries]; rewrite filter_lookup_app;
    reflexivity.
Qed.

(** ** The budget-alert evaluator *)


(** C10.  When the budget row's amount parses to zero the division is not
    guarded.  If [totalSpent > 0] the percentage is +infinity and the
    evaluator inserts the "Budget Exceeded" notification; if [totalSpent = 0]
    the percentage is NaN, every comparison fails and nothing is inserted.
    In both cases the evaluator returns normally and logs no error. *)
Theorem C10_zero_budget userId category month year budget w :
  (forall q, fails q = false) ->
  budgetFor userId category month year (db w) = Some budget ->
  Num.parseFloat (Budget.amount budget) = 0%float ->
  let total := totalSpent (monthRows userId category month year (db w)) in
  let p := percentage total (Num.parseFloat (Budget.amount budget)) in
  let r := checkBudgetAlerts userId category month year w in
  fst r = Returned tt /\ console (snd r) = console w
  /\ ((0 <? total)%float = true ->
      p = infinity /\
      notifications (db (snd r)) =
      (notifications (db w) ++
       [Notification.mk (next_uuid (db w)) userId
          ("Budget Exceeded - " ++ categoryName category)
          ("You've exceeded your " ++ categoryName category ++ " budget by ₹"
             ++ toLocaleString (total - 0)%float)
          "warning" false (clock w)])%list)
  /\ ((total =? 0)%float = true ->
      is_nan p = true
      /\ (80 <=? p)%float = false /\ (p <? 100)%float = false
      /\ (100 <=? p)%float = false
      /\ notifications (db (snd r)) = notifications (db w)).
Proof.
  intros F B Z. cbv zeta. rewrite checkBudgetAlerts_run. cbv zeta. cbn [fst snd].
  rewrite !F, B. unfold alertFor. cbv zeta. rewrite Z.
  set (total := totalSpent _).
  split; [reflexivity|]. split.
  { destruct ((80 <=? percentage total 0)%float && (percentage total 0 <? 100)%float);
      [rewrite F; reflexivity|].
    destruct (100 <=? percentage total 0)%float; [rewrite F|]; reflexivity. }
  split.
  - intros H. rewrite (percentage_zero_budget_pos total H).
    split; [reflexivity|].
    change ((80 <=? infinity)%float && (infinity <? 100)%float) with false.
    change (100 <=? infinity)%float with true. cbv iota. rewrite F. reflexivity.
  - intros H. pose proof (percentage_zero_budget_zero total H) as N.
    split; [exact N|].
    destruct (is_nan_thresholds _ N) as (H80 & L100 & H100 & _).
    rewrite H80, H100. repeat split; assumption || reflexivity.
Qed.

(** C3.  When no budget row exists for (userId, category, month, year) the
    evaluator is a no-op: it returns normally, sends the lookup and nothing
    else, leaves every table as it was and, unless the lookup itself was
    rejected, logs nothing.  So creating an expense in a category that has no
    budget for the current month creates no notification. *)
Theorem C3_no_budget_is_no_op userId category month year w :
  budgetFor userId category month year (db w) = None ->
  let r := checkBudgetAlerts userId category month year w in
  fst r = Returned tt
  /\ db (snd r) = db w
  /\ queries (snd r) = (queries w ++ [budgetLookup userId category month year])%list
  /\ (fails (budgetLookup userId category month year) = false ->
      console (snd r) = console w)
  /\ (forall body,
        InsertTransaction.category body = category ->
        InsertTransaction.type body = expense ->
        JsDate.getMonth (clock w) + 1 = month ->
        JsDate.getFullYear (clock w) = year ->
        notifications (db (snd (post_transactions (Some userId) (Some body) w))) =
        notifications (db w)).
Proof.
  intros B. cbv zeta. rewrite checkBudgetAlerts_run. cbv zeta. cbn [fst snd].
  rewrite B. split; [reflexivity|].
  split; [destruct (fails _); reflexivity|].
  split; [destruct (fails _); reflexivity|].
  split; [intros ->; reflexivity|].
  intros body Hc Ht Hm Hy. rewrite post_transactions_run. cbv zeta.
  destruct (fails (InsertIntoTransactions userId body)); [reflexivity|].
  cbn [snd]. destruct (TransactionType_eq_dec _ _) as [_|N]; [|contradiction].
  rewrite checkBudgetAlerts_run. cbv zeta. cbn [snd db].
  rewrite Hc, Hm, Hy.
  rewrite (budgetFor_ext _ _ _ _ (db w)) by reflexivity. rewrite B.
  destruct (fails _); reflexivity.
Qed.

(** C4.  After a new transaction is persisted, the create route runs the
    evaluator exactly once if the transaction is an expense and not at all if
    it is an income: the route's result is the 201 response together with the
    world one run of the evaluator leaves, and exactly one budget lookup is
    sent.  The month and year evaluated are those of the wall clock, whatever
    the date of the transaction. *)
Theorem C4_evaluator_runs_once_for_expenses userId body w :
  fails (InsertIntoTransactions userId body) = false ->
  let inserted := insert_into_transactions (clock w) userId body (db w) in
  let persisted :=
    mkWorld (snd inserted) (console w) (clock w)
      (queries w ++ [InsertIntoTransactions userId body])%list in
  let month := JsDate.getMonth (clock w) + 1 in
  let year := JsDate.getFullYear (clock w) in
  let r := post_transactions (Some userId) (Some body) w in
  (InsertTransaction.type body = expense ->
   r = (Returned (StatusJson 201 (JsonTransaction (fst inserted))),
        snd (checkBudgetAlerts userId (InsertTransaction.category body) month year
               persisted))
   /\ filter is_budget_lookup (queries (snd r)) =
      (filter is_budget_lookup (queries w)
       ++ [budgetLookup userId (InsertTransaction.category body) month year])%list)
  /\ (InsertTransaction.type body = income ->
      r = (Returned (StatusJson 201 (JsonTransaction (fst inserted))), persisted)
      /\ filter is_budget_lookup (queries (snd r)) =
         filter is_budget_lookup (queries w)).
Proof.
  intros F. cbv zeta. rewrite post_transactions_run. cbv zeta. rewrite F.
  split; intros T; rewrite T;
    destruct (TransactionType_eq_dec _ expense) as [E|E];
    try discriminate; try contradiction; (split; [reflexivity|]); cbn [snd].
  - rewrite checkBudgetAlerts_one_lookup. cbn [queries].
    rewrite filter_lookup_app, app_nil_r. reflexivity.
  - cbn [queries]. rewrite filter_lookup_app. apply app_nil_r.
Qed.

(** C5.  Whatever the database rejects inside the evaluator (the budget
    lookup, the fetch of the month's transactions, or the insert of the
    notification), the error is caught and logged and does not reach the
    create route: the expense stays persisted and the route answers 201 with
    the created transaction. *)
Theorem C5_evaluator_failures_do_not_surface userId body w :
  fails (InsertIntoTransactions userId body) = false ->
  InsertTransaction.type body = expense ->
  let inserted := insert_into_transactions (clock w) userId body (db w) in
  let category := InsertTransaction.category body in
  let month := JsDate.getMonth (clock w) + 1 in
  let year := JsDate.getFullYear (clock w) in
  let q1 := budgetLookup userId category month year in
  let q2 := monthSelect userId month year in
  let r := post_transactions (Some userId) (Some body) w in
  let error_logged q :=
    console (snd r) =
      (console w ++ [("Error checking budget alerts:", DatabaseError q)])%list
    /\ notifications (db (snd r)) = notifications (db w) in
  fst r = Returned (StatusJson 201 (JsonTransaction (fst inserted)))
  /\ transactions (db (snd r)) = (transactions (db w) ++ [fst inserted])%list
  /\ (fails q1 = true -> error_logged q1)
  /\ (forall budget,
        fails q1 = false ->
        budgetFor userId category month year (snd inserted) = Some budget ->
        fails q2 = true -> error_logged q2)
  /\ (forall budget n,
        fails q1 = false ->
        budgetFor userId category month year (snd inserted) = Some budget ->
        fails q2 = false ->
        alertFor userId category month year budget (snd inserted) = Some n ->
        fails (InsertIntoNotifications n) = true ->
        error_logged (InsertIntoNotifications n)).
Proof.
  intros F T. cbv zeta. rewrite post_transactions_run. cbv zeta. rewrite F.
  destruct (TransactionType_eq_dec _ expense) as [_|N]; [|contradiction].
  cbn [fst snd]. split; [reflexivity|]. split.
  { match goal with
    | |- context [checkBudgetAlerts ?u ?c ?m ?y ?w1] =>
        destruct (checkBudgetAlerts_frame u c m y w1) as (_ & Ht & _)
    end.
    rewrite Ht. reflexivity. }
  rewrite checkBudgetAlerts_run. cbv zeta. cbn [snd db].
  split; [intros ->; split; reflexivity|].
  split.
  - intros budget -> -> ->. split; reflexivity.
  - intros budget n -> -> -> -> ->. split; reflexivity.
Qed.

(** C7.  Alerts are not deduplicated.  Whether and what the evaluator inserts
    does not depend on the notifications already stored; and when two
    expenses of one category are created back to back, each leaving the
    month's spending at 80 percent of the budget or more, the two requests
    insert two separate notifications. *)
Theorem C7_alerts_are_not_idempotent userId category body1 body2 budget w :
  (forall q, fails q = false) ->
  InsertTransaction.type body1 = expense ->
  InsertTransaction.type body2 = expense ->
  InsertTransaction.category body1 = category ->
  InsertTransaction.category body2 = category ->
  let month := JsDate.getMonth (clock w) + 1 in
  let year := JsDate.getFullYear (clock w) in
  budgetFor userId category month year (db w) = Some budget ->
  let w1 := snd (post_transactions (Some userId) (Some body1) w) in
  let w2 := snd (post_transactions (Some userId) (Some body2) w1) in
  let s1 := snd (insert_into_transactions (clock w) userId body1 (db w)) in
  let s2 := snd (insert_into_transactions (clock w1) userId body2 (db w1)) in
  (80 <=? spentPercentage userId category month year budget s1)%float = true ->
  (80 <=? spentPercentage userId category month year budget s2)%float = true ->
  (forall s ns,
      alertFor userId category month year budget
        (mkStore (transactions s) (budgets s) (goals s) ns (next_uuid s)) =
      alertFor userId category month year budget s)
  /\ exists n1 n2,
      alertFor userId category month year budget s1 = Some n1
      /\ alertFor userId category month year budget s2 = Some n2
      /\ notifications (db w2) =
         (notifications (db w) ++
          [Notification.mk (N.succ (next_uuid (db w)))
             (InsertNotification.userId n1) (InsertNotification.title n1)
             (InsertNotification.message n1) (InsertNotification.type n1)
             false (clock w);
           Notification.mk (N.succ (N.succ (N.succ (next_uuid (db w)))))
             (InsertNotification.userId n2) (InsertNotification.title n2)
             (InsertNotification.message n2) (InsertNotification.type n2)
             false (clock w)])%list.
Proof.
  intros F T1 T2 C1 C2. cbv zeta. intros B.
  rewrite !post_transactions_run. cbv zeta. rewrite !F, T1, T2, C1, C2.
  destruct (TransactionType_eq_dec expense expense) as [_|N]; [|contradiction].
  cbn [snd].
  rewrite (checkBudgetAlerts_run userId category _ _
             (mkWorld (snd (insert_into_transactions (clock w) userId body1 (db w))) _ _ _)).
  cbv zeta. cbn [snd db clock]. rewrite !F.
  rewrite (budgetFor_ext _ _ _ _ (db w)
             (snd (insert_into_transactions (clock w) userId body1 (db w))))
    by reflexivity.
  rewrite B. intros P1.
  destruct (alertFor_from_80 _ _ _ _ _ _ P1) as (n1 & A1). rewrite A1, F.
  cbn [notified db clock console queries].
  rewrite checkBudgetAlerts_run. cbv zeta. cbn [snd db clock]. rewrite !F.
  rewrite (budgetFor_ext _ _ _ _ (db w)) by reflexivity. rewrite B.
  intros P2.
  destruct (alertFor_from_80 _ _ _ _ _ _ P2) as (n2 & A2). rewrite A2, F.
  split.
  - intros s ns. apply alertFor_ext. reflexivity.
  - exists n1, n2. split; [reflexivity|]. split; [reflexivity|].
    cbn. rewrite <- app_assoc. reflexivity.
Qed.

Lemma Permutation_filter {A} (p : A -> bool) (l l' : list A) :
  Permutation l l' -> Permutation (filter p l) (filter p l').
Proof.
  induction 1 as [|x l l' _ IH|x y l|l l' l'' _ IH1 _ IH2]; cbn [filter].
  - apply perm_nil.
  - destruct (p x); [apply perm_skip|]; exact IH.
  - destruct (p x), (p y); try apply Permutation_refl. apply perm_swap.
  - apply Permutation_trans with (filter p l'); assumption.
Qed.

Lemma filter_and {A} (p q : A -> bool) (l : list A) :
  filter q (filter p l) = filter (fun x => p x && q x) l.
Proof.
  induction l as [|x l IH]; [reflexivity|].
  cbn [filter]. destruct (p x); cbn [andb filter]; [destruct (q x)|];
    rewrite IH; reflexivity.
Qed.

(** The month's rows are the rows that count towards the budget. *)
Lemma month_rows_scope userId category month year (t : Transaction.t) :
  1 <= month <= 12 -> 100 <= year ->
  in_range userId (JsDate.newDate year (month - 1) 1 0 0 0)
                  (JsDate.newDate year month 0 23 59 59) t
  && (has_category category t && is_expense t) =
  counts_towards userId category month year t.
Proof.
  intros Hm Hy. destruct (month_range year month Hm Hy) as (-> & ->).
  unfold in_range, counts_towards.
  destruct (Transaction.userId t =? userId)%N, (first_of_month year month <=? Transaction.date t),
    (Transaction.date t <=? last_of_month year month), (has_category category t),
    (is_expense t); reflexivity.
Qed.

Lemma counts_towards_spec userId category month year (t : Transaction.t) :
  counts_towards userId category month year t = true <->
  Transaction.userId t = userId
  /\ first_of_month year month <= Transaction.date t <= last_of_month year month
  /\ Transaction.type t = expense
  /\ Transaction.category t = category.
Proof.
  unfold counts_towards, is_expense, has_category.
  rewrite !andb_true_iff, N.eqb_eq, !Z.leb_le.
  destruct (TransactionType_eq_dec (Transaction.type t) expense),
    (Category_eq_dec (Transaction.category t) category); intuition congruence.
Qed.

(** C2.  In a run of the evaluator for a calendar month, [totalSpent] is the
    sum, in the order the rows are fetched, of the amounts of exactly those
    transactions that belong to the given user, are dated from the first of
    the month at 00:00:00 to the last of the month at 23:59:59, are of type
    expense and are in the evaluated category: each of them is summed once,
    and no transaction of another user, month, category or of type income is
    summed. *)
Theorem C2_total_spent_scope userId category month year budget w :
  (forall q, fails q = false) ->
  1 <= month <= 12 -> 100 <= year ->
  budgetFor userId category month year (db w) = Some budget ->
  let rows := monthRows userId category month year (db w) in
  let total :=
    fold_left (fun sum t => (sum + Num.parseFloat (Transaction.amount t))%float)
              rows 0%float in
  let budgetAmount := Num.parseFloat (Budget.amount budget) in
  let p := percentage total budgetAmount in
  let qs := [budgetLookup userId category month year; monthSelect userId month year] in
  checkBudgetAlerts userId category month year w =
    (Returned tt,
     if ((80 <=? p) && (p <? 100))%float
     then let n := budgetAlert userId category p total budgetAmount in
          notified (qs ++ [InsertIntoNotifications n]) n w
     else if (100 <=? p)%float
     then let n := budgetExceeded userId category total budgetAmount in
          notified (qs ++ [InsertIntoNotifications n]) n w
     else sent qs w)
  /\ Permutation rows
       (filter (counts_towards userId category month year) (transactions (db w)))
  /\ (forall t, In t rows <->
        In t (transactions (db w))
        /\ Transaction.userId t = userId
        /\ first_of_month year month <= Transaction.date t <= last_of_month year month
        /\ Transaction.type t = expense
        /\ Transaction.category t = category).
Proof.
  intros F Hm Hy B. cbv zeta.
  assert (P : Permutation (monthRows userId category month year (db w))
                (filter (counts_towards userId category month year)
                        (transactions (db w)))).
  { unfold monthRows, categoryTransactions.
    eapply Permutation_trans.
    - apply Permutation_filter, order_by_perm.
    - rewrite filter_and. erewrite filter_ext; [apply Permutation_refl|].
      intros t. apply month_rows_scope; assumption. }
  split; [|split; [exact P|]].
  - rewrite checkBudgetAlerts_run. cbv zeta. rewrite !F, B.
    unfold alertFor, totalSpent. cbv zeta.
    destruct (_ && _)%bool; [rewrite F; reflexivity|].
    destruct (100 <=? _)%float; [rewrite F|]; reflexivity.
  - intros t. rewrite <- counts_towards_spec, <- filter_In.
    split; apply Permutation_in; [exact P | apply Permutation_sym, P].
Qed.

(** ** The aggregation queries *)











(** ** Update and delete *)

Lemma hd_error_updated {A} (where_ : A -> bool) (set : A -> A) (rows : list A) :
  hd_error (map set (filter where_ rows)) = option_map set (find where_ rows).
Proof.
  induction rows as [|r rows IH]; [reflexivity|].
  cbn [filter find]. destruct (where_ r); [reflexivity|exact IH].
Qed.

Lemma rowCount_positive {A} (where_ : A -> bool) (rows : list A) :
  (0 <? List.length (filter where_ rows))%nat = existsb where_ rows.
Proof.
  induction rows as [|r rows IH]; [reflexivity|].
  cbn [filter existsb]. destruct (where_ r); [reflexivity|exact IH].
Qed.




(** * Further properties of the routes and of the storage *)

(** ** The rows the evaluator sums, in order *)

Section FilterOrder.

Context {A : Type} (before : A -> A -> bool) (p : A -> bool).
Hypothesis before_trans :
  forall x y z, before x y = true -> before y z = true -> before x z = true.

Lemma filter_insert_by (x : A) (l : list A) :
  Sorted (fun u v => before u v = true) l ->
  filter p (insert_by before x l) =
  if p x then insert_by before x (filter p l) else filter p l.
Proof.
  induction l as [|y l IH]; intros Hs.
  - cbn [insert_by filter]. destruct (p x); reflexivity.
  - assert (Hl : Sorted (fun u v => before u v = true) l) by (inversion Hs; assumption).
    assert (Hy : forall z, In z l -> before y z = true).
    { apply Sorted_StronglySorted in Hs.
      - inversion Hs as [|? ? _ Hall]; subst. apply Forall_forall. exact Hall.
      - intros a b c. apply before_trans. }
    cbn [insert_by]. destruct (before x y) eqn:B.
    + cbn [filter]. destruct (p x) eqn:Px; [|reflexivity].
      destruct (p y) eqn:Py.
      * cbn [insert_by]. rewrite B. reflexivity.
      * destruct (filter p l) as [|z f] eqn:F; [reflexivity|].
        cbn [insert_by].
        assert (Hz : In z l).
        { apply (proj1 (filter_In p z l)). rewrite F. left. reflexivity. }
        rewrite (before_trans x y z B (Hy z Hz)). reflexivity.
    + cbn [filter]. rewrite (IH Hl). destruct (p y) eqn:Py.
      * destruct (p x); [|reflexivity]. cbn [insert_by]. rewrite B. reflexivity.
      * reflexivity.
Qed.

Hypothesis before_total : forall x y, before x y = false -> before y x = true.

(** Filtering commutes with a stable [ORDER BY]. *)
Lemma filter_order_by (l : list A) :
  filter p (order_by before l) = order_by before (filter p l).
Proof.
  induction l as [|x l IH]; [reflexivity|].
  cbn [order_by fold_right filter].
  rewrite filter_insert_by by (apply order_by_sorted; exact before_total).
  unfold order_by in IH. rewrite IH.
  destruct (p x); reflexivity.
Qed.

End FilterOrder.

(** The rows the evaluator sums are the counted rows of the table, newest
    first, rows of equal date in table order. *)
Lemma monthRows_ordered userId category month year s :
  monthRows userId category month year s =
  order_by (fun x y => Transaction.date y <=? Transaction.date x)
    (filter (counted userId category month year) (transactions s)).
Proof.
  unfold monthRows, categoryTransactions, counted, monthStart, monthEnd.
  rewrite filter_order_by.
  - rewrite filter_and. reflexivity.
  - intros x y z H1 H2. apply Z.leb_le in H1, H2. apply Z.leb_le. lia.
  - intros x y H. apply Z.leb_gt in H. apply Z.leb_le. lia.
Qed.

(** X1.  A transaction that is not an expense of the user in the category and
    in the month, once created, leaves the evaluator's decision for that
    user, category and month as it was: the rows summed, the percentage and
    the alert are the same after the create request as before, whoever sends
    it and whatever the database rejects. *)
Theorem X1_other_transactions_keep_the_alert
    userId category month year budget caller body w :
  caller <> userId
  \/ InsertTransaction.category body <> category
  \/ InsertTransaction.type body = income
  \/ InsertTransaction.date body < monthStart year month
  \/ monthEnd year month < InsertTransaction.date body ->
  let after := db (snd (post_transactions (Some caller) (Some body) w)) in
  monthRows userId category month year after = monthRows userId category month year (db w)
  /\ spentPercentage userId category month year budget after =
     spentPercentage userId category month year budget (db w)
  /\ alertFor userId category month year budget after =
     alertFor userId category month year budget (db w).
Proof.
  intros H. cbv zeta.
  assert (R : monthRows userId category month year
                (db (snd (post_transactions (Some caller) (Some body) w))) =
              monthRows userId category month year (db w)).
  { rewrite post_transactions_run. cbv zeta.
    destruct (fails (InsertIntoTransactions caller body)); [reflexivity|].
    cbn [snd].
    assert (T : transactions
                  (db (if TransactionType_eq_dec (InsertTransaction.type body) expense
                       then snd (checkBudgetAlerts caller (InsertTransaction.category body)
                                   (JsDate.getMonth (clock w) + 1)
                                   (JsDate.getFullYear (clock w))
                                   (mkWorld
                                      (snd (insert_into_transactions (clock w) caller body (db w)))
                                      (console w) (clock w)
                                      (queries w ++ [InsertIntoTransactions caller body])%list))
                       else mkWorld
                              (snd (insert_into_transactions (clock w) caller body (db w)))
                              (console w) (clock w)
                              (queries w ++ [InsertIntoTransactions caller body])%list)) =
                (transactions (db w)
                 ++ [fst (insert_into_transactions (clock w) caller body (db w))])%list).
    { destruct (TransactionType_eq_dec _ _); [|reflexivity].
      match goal with
      | |- context [checkBudgetAlerts ?u ?c ?m ?y ?w1] =>
          destruct (checkBudgetAlerts_frame u c m y w1) as (_ & Ht & _)
      end.
      rewrite Ht. reflexivity. }
    rewrite !monthRows_ordered, T, filter_app. cbn [filter].
    replace (counted userId category month year
               (fst (insert_into_transactions (clock w) caller body (db w))))
      with false; [rewrite app_nil_r; reflexivity|].
    symmetry. unfold counted, in_range, has_category, is_expense.
    cbn [insert_into_transactions fst Transaction.userId Transaction.date
         Transaction.category Transaction.type].
    destruct H as [H|[H|[H|[H|H]]]].
    - apply N.eqb_neq in H. rewrite H. reflexivity.
    - destruct (Category_eq_dec (InsertTransaction.category body) category);
        [contradiction|]. rewrite andb_false_r. reflexivity.
    - rewrite H. destruct (TransactionType_eq_dec income expense); [discriminate|].
      rewrite !andb_false_r. reflexivity.
    - apply Z.leb_gt in H. rewrite H, andb_false_r. reflexivity.
    - apply Z.leb_gt in H. rewrite H, andb_false_r. reflexivity. }
  split; [exact R|].
  unfold spentPercentage, alertFor. cbv zeta. rewrite R. split; reflexivity.
Qed.

(** ** Month ranges *)

Lemma MakeDay_at (y c d : Z) :
  0 <= c < 12 ->
  JsDate.MakeDay 0 (12 * y + c) d =
  JsDate.DayFromYear y + JsDate.DaysBeforeMonth (JsDate.InLeapYear y) c + d - 1.
Proof.
  intros H. unfold JsDate.MakeDay. cbv zeta.
  replace ((12 * y + c) / 12) with y
    by (apply Z.div_unique with c; lia).
  replace ((12 * y + c) mod 12) with c
    by (apply Z.mod_unique with y; lia).
  reflexivity.
Qed.

(** The first of a month is at least 28 days before the first of the next. *)
Lemma first_day_step (k : Z) :
  JsDate.MakeDay 0 k 1 + 28 <= JsDate.MakeDay 0 (k + 1) 1.
Proof.
  pose proof (Z.div_mod k 12 ltac:(lia)) as E.
  pose proof (Z.mod_pos_bound k 12 ltac:(lia)) as B.
  set (y := k / 12) in *. set (c := k mod 12) in *.
  assert (C : c = 0 \/ c = 1 \/ c = 2 \/ c = 3 \/ c = 4 \/ c = 5 \/ c = 6 \/
              c = 7 \/ c = 8 \/ c = 9 \/ c = 10 \/ c = 11) by lia.
  rewrite E.
  destruct (Z.eq_dec c 11) as [c11|c11].
  - replace (12 * y + c + 1) with (12 * (y + 1) + 0) by lia.
    rewrite !MakeDay_at by lia. rewrite DayFromYear_succ, c11.
    destruct (JsDate.InLeapYear y), (JsDate.InLeapYear (y + 1)); cbn; lia.
  - replace (12 * y + c + 1) with (12 * y + (c + 1)) by lia.
    rewrite !MakeDay_at by lia.
    repeat (destruct C as [C|C]); try contradiction; rewrite C;
      destruct (JsDate.InLeapYear y); cbn; lia.
Qed.

Lemma first_day_mono (a b : Z) :
  a <= b -> JsDate.MakeDay 0 a 1 <= JsDate.MakeDay 0 b 1.
Proof.
  intros H. replace b with (a + Z.of_nat (Z.to_nat (b - a))) by lia.
  induction (Z.to_nat (b - a)) as [|n IH].
  - rewrite Z.add_0_r. lia.
  - pose proof (first_day_step (a + Z.of_nat n)).
    replace (a + Z.of_nat (S n)) with (a + Z.of_nat n + 1) by lia. lia.
Qed.

Lemma MakeDay_ordinal (y m d : Z) :
  JsDate.MakeDay y m d = JsDate.MakeDay 0 (12 * y + m) d.
Proof.
  unfold JsDate.MakeDay. cbv zeta.
  replace ((12 * y + m) / 12) with (y + m / 12)
    by (rewrite (Z.add_comm (12 * y) m), (Z.mul_comm 12 y), Z.div_add by lia; lia).
  replace ((12 * y + m) mod 12) with (m mod 12)
    by (rewrite (Z.add_comm (12 * y) m), (Z.mul_comm 12 y), Z.mod_add by lia;
        reflexivity).
  reflexivity.
Qed.

Lemma monthStart_ordinal (year month : Z) :
  100 <= year ->
  monthStart year month =
  JsDate.MakeDay 0 (12 * year + month - 1) 1 * 86400000.
Proof.
  intros Hy. unfold monthStart, JsDate.newDate, JsDate.fullYear.
  replace (year <=? 99) with false by (symmetry; apply Z.leb_gt; lia).
  rewrite andb_false_r, MakeDay_ordinal.
  replace (12 * year + (month - 1)) with (12 * year + month - 1) by lia.
  unfold JsDate.MakeDate, JsDate.MakeTime, JsDate.msPerDay. lia.
Qed.

Lemma monthEnd_ordinal (year month : Z) :
  100 <= year ->
  monthEnd year month =
  JsDate.MakeDay 0 (12 * year + month) 1 * 86400000 - 1000.
Proof.
  intros Hy. unfold monthEnd, JsDate.newDate, JsDate.fullYear.
  replace (year <=? 99) with false by (symmetry; apply Z.leb_gt; lia).
  rewrite andb_false_r, MakeDay_ordinal.
  unfold JsDate.MakeDate, JsDate.MakeTime, JsDate.msPerDay, JsDate.MakeDay.
  cbv zeta. lia.
Qed.

(** X2.  The ranges of two different months never share an instant: a
    transaction is counted by the evaluator, and by spending-by-category,
    for at most one (month, year). *)
Theorem X2_month_ranges_disjoint
    userId category userId' category' month year month' year' t :
  1 <= month <= 12 -> 100 <= year ->
  1 <= month' <= 12 -> 100 <= year' ->
  counted userId category month year t = true ->
  counted userId' category' month' year' t = true ->
  month = month' /\ year = year'.
Proof.
  intros Hm Hy Hm' Hy' H H'.
  unfold counted, in_range in H, H'.
  apply andb_prop in H as [H _]. apply andb_prop in H' as [H' _].
  apply andb_prop in H as [H He]. apply andb_prop in H as [_ Hs].
  apply andb_prop in H' as [H' He']. apply andb_prop in H' as [_ Hs'].
  apply Z.leb_le in Hs, He, Hs', He'.
  rewrite monthStart_ordinal in Hs, Hs' by assumption.
  rewrite monthEnd_ordinal in He, He' by assumption.
  assert (K : 12 * year + month = 12 * year' + month'); [|lia].
  destruct (Z.lt_trichotomy (12 * year + month) (12 * year' + month'))
    as [L|[L|L]]; [|exact L|].
  - pose proof (first_day_mono (12 * year + month) (12 * year' + month' - 1)
                  ltac:(lia)). lia.
  - pose proof (first_day_mono (12 * year' + month') (12 * year + month - 1)
                  ltac:(lia)). lia.
Qed.

(** X3.  The range of a month ends one second before the next month starts,
    and an instant strictly inside that second is in no month's range: a
    transaction dated there is counted for no user, category, month and
    year. *)
Theorem X3_last_second_of_a_month_is_in_no_range
    month year t :
  1 <= month <= 12 -> 100 <= year ->
  monthEnd year month < Transaction.date t < monthStart year (month + 1) ->
  monthStart year (month + 1) = monthEnd year month + 1000
  /\ forall userId category month' year',
       1 <= month' <= 12 -> 100 <= year' ->
       counted userId category month' year' t = false.
Proof.
  intros Hm Hy Ht.
  rewrite monthStart_ordinal in * by assumption.
  rewrite monthEnd_ordinal in * by assumption.
  replace (12 * year + (month + 1) - 1) with (12 * year + month) in * by lia.
  split; [lia|].
  intros userId category month' year' Hm' Hy'.
  unfold counted, in_range.
  rewrite monthStart_ordinal, monthEnd_ordinal by assumption.
  destruct (Z_le_gt_dec (12 * year' + month') (12 * year + month)) as [L|L].
  - pose proof (first_day_mono _ _ L).
    replace (Transaction.date t <=?
             JsDate.MakeDay 0 (12 * year' + month') 1 * 86400000 - 1000)
      with false by (symmetry; apply Z.leb_gt; lia).
    rewrite andb_false_r. reflexivity.
  - pose proof (first_day_mono (12 * year + month) (12 * year' + month' - 1)
                  ltac:(lia)).
    replace (JsDate.MakeDay 0 (12 * year' + month' - 1) 1 * 86400000 <=?
             Transaction.date t)
      with false by (symmetry; apply Z.leb_gt; lia).
    rewrite andb_false_r. reflexivity.
Qed.

(** ** Every route *)

Lemma execute_ok {A} (st : Statement) (run : Store -> A * Store) (w : World) :
  rejects st = false ->
  execute st run w =
  (inl (fst (run (db w))),
   mkWorld (snd (run (db w))) (console w) (clock w) (queries w)).
Proof. intros H. unfold execute. rewrite H. destruct (run (db w)); reflexivity. Qed.

Lemma execute_fail {A} (st : Statement) (run : Store -> A * Store) (w : World) :
  rejects st = true -> execute st run w = (inr (StatementFault st), w).
Proof. intros H. unfold execute. rewrite H. reflexivity. Qed.

Lemma same_world (w : World) :
  mkWorld (db w) (console w) (clock w) (queries w) = w.
Proof. destruct w; reflexivity. Qed.

Lemma same_store (s : Store) :
  mkStore (transactions s) (budgets s) (goals s) (notifications s) (next_uuid s) = s.
Proof. destruct s; reflexivity. Qed.

(** The routes that read or write through [execute], for an authenticated
    caller. *)
Lemma post_budgets_run userId body w :
  post_budgets (Some userId) (Some body) w =
  if rejects (InsertIntoBudgets userId body)
  then (inl (Send (StatusJson 500 (JsonMessage "Failed to create budget"))), w)
  else (inl (Send (StatusJson 201
                     (JsonBudget (fst (insert_into_budgets (clock w) userId body (db w)))))),
        mkWorld (snd (insert_into_budgets (clock w) userId body (db w)))
                (console w) (clock w) (queries w)).
Proof.
  unfold post_budgets, attempt, and_then, validate, createBudget, and_then, today, done.
  destruct (rejects (InsertIntoBudgets userId body)) eqn:R.
  - rewrite execute_fail by exact R. reflexivity.
  - rewrite execute_ok by exact R. reflexivity.
Qed.

Lemma post_goals_run userId body w :
  post_goals (Some userId) (Some body) w =
  if rejects (InsertIntoGoals userId body)
  then (inl (Send (StatusJson 500 (JsonMessage "Failed to create goal"))), w)
  else (inl (Send (StatusJson 201
                     (JsonGoal (fst (insert_into_goals (clock w) userId body (db w)))))),
        mkWorld (snd (insert_into_goals (clock w) userId body (db w)))
                (console w) (clock w) (queries w)).
Proof.
  unfold post_goals, attempt, and_then, validate, createGoal, and_then, today, done.
  destruct (rejects (InsertIntoGoals userId body)) eqn:R.
  - rewrite execute_fail by exact R. reflexivity.
  - rewrite execute_ok by exact R. reflexivity.
Qed.

Lemma get_goals_run userId w :
  get_goals (Some userId) w =
  (inl (if rejects (SelectGoals userId)
        then Send (StatusJson 500 (JsonMessage "Failed to fetch goals"))
        else SendGoals
               (order_by (fun x y => Goal.createdAt y <=? Goal.createdAt x)
                  (filter (fun g => (Goal.userId g =? userId)%N) (goals (db w))))),
   w).
Proof.
  unfold get_goals, attempt, and_then, getGoals, done.
  destruct (rejects (SelectGoals userId)) eqn:R.
  - rewrite execute_fail by exact R. reflexivity.
  - rewrite execute_ok by exact R. cbn [fst snd]. rewrite same_world. reflexivity.
Qed.

Lemma get_notifications_run userId w :
  get_notifications (Some userId) w =
  (inl (if rejects (SelectNotifications userId)
        then Send (StatusJson 500 (JsonMessage "Failed to fetch notifications"))
        else SendNotifications
               (order_by (fun x y => Notification.createdAt y <=? Notification.createdAt x)
                  (filter (fun n => (Notification.userId n =? userId)%N)
                          (notifications (db w))))),
   w).
Proof.
  unfold get_notifications, attempt, and_then, getNotifications, done.
  destruct (rejects (SelectNotifications userId)) eqn:R.
  - rewrite execute_fail by exact R. reflexivity.
  - rewrite execute_ok by exact R. cbn [fst snd]. rewrite same_world. reflexivity.
Qed.

Lemma put_notifications_read_run userId id w :
  put_notifications_read (Some userId) id w =
  if rejects (UpdateNotificationsSetRead id)
  then (inl (Send (StatusJson 500 (JsonMessage "Failed to mark notification as read"))), w)
  else (inl (Send (if existsb (fun r => (Notification.id r =? id)%N) (notifications (db w))
                   then SendStatus 204
                   else StatusJson 404 (JsonMessage "Notification not found"))),
        mkWorld (mkStore (transactions (db w)) (budgets (db w)) (goals (db w))
                   (map (fun r => if (Notification.id r =? id)%N then set_read r else r)
                        (notifications (db w)))
                   (next_uuid (db w)))
                (console w) (clock w) (queries w)).
Proof.
  unfold put_notifications_read, attempt, and_then, markNotificationAsRead, done.
  destruct (rejects (UpdateNotificationsSetRead id)) eqn:R.
  - rewrite execute_fail by exact R. reflexivity.
  - rewrite execute_ok by exact R. unfold update_where. cbn [fst snd].
    rewrite length_map, rowCount_positive.
    destruct (existsb _ _); reflexivity.
Qed.

(** The update and delete routes, for an authenticated caller, whatever the
    database rejects. *)
Ltac run_either :=
  intros;
  unfold put_transactions, delete_transactions, put_budgets, delete_budgets,
    put_goals, delete_goals, updateTransaction, deleteTransaction, updateBudget,
    deleteBudget, updateGoal, deleteGoal, try_catch, bind, parse, ret;
  match goal with
  | |- context [query ?q ?r ?w] =>
      let F := fresh "F" in
      destruct (fails q) eqn:F;
      [rewrite (query_fail q r w F); reflexivity
      |rewrite (query_ok q r w F)]
  end;
  unfold update_where, delete_where; cbn [fst snd];
  rewrite ?hd_error_updated, ?rowCount_positive;
  repeat match goal with
         | |- context [find ?f ?l] => destruct (find f l)
         | |- context [existsb ?f ?l] => destruct (existsb f l)
         end; reflexivity.

Lemma put_transactions_run userId id patch w :
  put_transactions (Some userId) id (Some patch) w =
  let q := UpdateTransactions id patch in
  if fails q
  then (Returned (StatusJson 500 (JsonMessage "Failed to update transaction")), sent [q] w)
  else (Returned
          match find (fun r => (Transaction.id r =? id)%N) (transactions (db w)) with
          | Some r => StatusJson 200 (JsonTransaction (set_transaction patch r))
          | None => StatusJson 404 (JsonMessage "Transaction not found")
          end,
        mkWorld (mkStore (map (fun r => if (Transaction.id r =? id)%N
                                        then set_transaction patch r else r)
                              (transactions (db w)))
                   (budgets (db w)) (goals (db w)) (notifications (db w))
                   (next_uuid (db w)))
                (console w) (clock w) (queries w ++ [q])%list).
Proof. cbv zeta. run_either. Qed.

Lemma delete_transactions_run userId id w :
  delete_transactions (Some userId) id w =
  let q := DeleteFromTransactions id in
  if fails q
  then (Returned (StatusJson 500 (JsonMessage "Failed to delete transaction")), sent [q] w)
  else (Returned
          (if existsb (fun r => (Transaction.id r =? id)%N) (transactions (db w))
           then SendStatus 204
           else StatusJson 404 (JsonMessage "Transaction not found")),
        mkWorld (mkStore (filter (fun r => negb (Transaction.id r =? id)%N)
                                 (transactions (db w)))
                   (budgets (db w)) (goals (db w)) (notifications (db w))
                   (next_uuid (db w)))
                (console w) (clock w) (queries w ++ [q])%list).
Proof. cbv zeta. run_either. Qed.

Lemma put_budgets_run userId id patch w :
  put_budgets (Some userId) id (Some patch) w =
  let q := UpdateBudgets id patch in
  if fails q
  then (Returned (StatusJson 500 (JsonMessage "Failed to update budget")), sent [q] w)
  else (Returned
          match find (fun r => (Budget.id r =? id)%N) (budgets (db w)) with
          | Some r => StatusJson 200 (JsonBudget (set_budget patch r))
          | None => StatusJson 404 (JsonMessage "Budget not found")
          end,
        mkWorld (mkStore (transactions (db w))
                   (map (fun r => if (Budget.id r =? id)%N
                                  then set_budget patch r else r) (budgets (db w)))
                   (goals (db w)) (notifications (db w)) (next_uuid (db w)))
                (console w) (clock w) (queries w ++ [q])%list).
Proof. cbv zeta. run_either. Qed.

Lemma delete_budgets_run userId id w :
  delete_budgets (Some userId) id w =
  let q := DeleteFromBudgets id in
  if fails q
  then (Returned (StatusJson 500 (JsonMessage "Failed to delete budget")), sent [q] w)
  else (Returned
          (if existsb (fun r => (Budget.id r =? id)%N) (budgets (db w))
           then SendStatus 204
           else StatusJson 404 (JsonMessage "Budget not found")),
        mkWorld (mkStore (transactions (db w))
                   (filter (fun r => negb (Budget.id r =? id)%N) (budgets (db w)))
                   (goals (db w)) (notifications (db w)) (next_uuid (db w)))
                (console w) (clock w) (queries w ++ [q])%list).
Proof. cbv zeta. run_either. Qed.

Lemma put_goals_run userId id patch w :
  put_goals (Some userId) id (Some patch) w =
  let q := UpdateGoals id patch in
  if fails q
  then (Returned (StatusJson 500 (JsonMessage "Failed to update goal")), sent [q] w)
  else (Returned
          match find (fun r => (Goal.id r =? id)%N) (goals (db w)) with
          | Some r => StatusJson 200 (JsonGoal (set_goal patch r))
          | None => StatusJson 404 (JsonMessage "Goal not found")
          end,
        mkWorld (mkStore (transactions (db w)) (budgets (db w))
                   (map (fun r => if (Goal.id r =? id)%N
                                  then set_goal patch r else r) (goals (db w)))
                   (notifications (db w)) (next_uuid (db w)))
                (console w) (clock w) (queries w ++ [q])%list).
Proof. cbv zeta. run_either. Qed.

Lemma delete_goals_run userId id w :
  delete_goals (Some userId) id w =
  let q := DeleteFromGoals id in
  if fails q
  then (Returned (StatusJson 500 (JsonMessage "Failed to delete goal")), sent [q] w)
  else (Returned
          (if existsb (fun r => (Goal.id r =? id)%N) (goals (db w))
           then SendStatus 204
           else StatusJson 404 (JsonMessage "Goal not found")),
        mkWorld (mkStore (transactions (db w)) (budgets (db w))
                   (filter (fun r => negb (Goal.id r =? id)%N) (goals (db w)))
                   (notifications (db w)) (next_uuid (db w)))
                (console w) (clock w) (queries w ++ [q])%list).
Proof. cbv zeta. run_either. Qed.

(** Rewrites a request of an authenticated caller into what it does. *)
Ltac run_handle :=
  unfold handle;
  rewrite ?post_transactions_run, ?put_transactions_run, ?delete_transactions_run,
    ?put_budgets_run, ?delete_budgets_run, ?put_goals_run, ?delete_goals_run,
    ?post_budgets_run, ?post_goals_run, ?get_goals_run, ?get_notifications_run,
    ?put_notifications_read_run;
  cbv zeta.

(** X4.  Without an authenticated session every route answers 401 and does
    nothing else: no statement is sent, nothing is written or logged. *)
Theorem X4_unauthenticated_requests_change_nothing req w :
  handle None req w = (Some (Send (SendStatus 401)), w).
Proof. destruct req; reflexivity. Qed.

(** X5.  Every route sends exactly one response, whatever the body, the
    store and the statements the database rejects: no handler throws, and
    the status is one of 200, 201, 204, 400, 401, 404 and 500. *)
Theorem X5_every_request_is_answered user req w :
  exists r, fst (handle user req w) = Some r
            /\ In (statusCode r) [200; 201; 204; 400; 401; 404; 500].
Proof.
  destruct user as [userId|];
    [|destruct req; eexists; (split; [reflexivity|cbn; tauto])].
  destruct req as [body|id body|id|body|id body|id|
                   |body|id body|id| |id];
    try destruct body as [body|];
    try (eexists; split; [reflexivity|cbn; tauto]);
    run_handle;
    repeat match goal with
           | |- context [if ?b then _ else _] => destruct b
           | |- context [match find ?f ?l with Some _ => _ | None => _ end] =>
               destruct (find f l)
           end;
    eexists; (split; [reflexivity|cbn; tauto]).
Qed.

(** ** What a request writes *)

Lemma handle_writes caller req w :
  Write caller (clock w) (db w) (db (snd (handle (Some caller) req w)))
  /\ clock (snd (handle (Some caller) req w)) = clock w.
Proof.
  destruct req as [body|id body|id|body|id body|id|
                   |body|id body|id| |id];
    try destruct body as [body|];
    try (split; [apply write_nothing|reflexivity]);
    run_handle.
  - (* POST /api/transactions *)
    destruct (fails (InsertIntoTransactions caller body));
      [split; [apply write_nothing|reflexivity]|].
    cbn [responded snd].
    destruct (TransactionType_eq_dec (InsertTransaction.type body) expense);
      [|split; [apply write_transaction|reflexivity]].
    rewrite checkBudgetAlerts_run. cbv zeta. cbn [snd].
    repeat match goal with
           | |- context [if ?b then _ else _] => destruct b
           | |- context [match ?o with Some _ => _ | None => _ end] =>
               destruct o eqn:?
           end;
      unfold logged, sent, notified; cbn [db clock];
      try (split; [apply write_transaction|reflexivity]).
    split; [|reflexivity].
    apply write_transaction_and_alert.
    match goal with
    | H : alertFor _ _ _ _ _ _ = Some _ |- _ =>
        unfold alertFor in H; cbv zeta in H;
        repeat match type of H with
               | context [if ?b then _ else _] => destruct b
               end; inversion H; subst
    end;
      match goal with
      | |- is_alert _ (budgetAlert _ ?c ?p ?t ?b) =>
          exists c, p, t, b; left; reflexivity
      | |- is_alert _ (budgetExceeded _ ?c ?t ?b) =>
          exists c, 0%float, t, b; right; reflexivity
      end.
  - destruct (fails _); cbn [responded snd sent db clock];
      (split; [|reflexivity]); [apply write_nothing|apply write_update_transactions].
  - destruct (fails _); cbn [responded snd sent db clock];
      (split; [|reflexivity]); [apply write_nothing|apply write_delete_transactions].
  - destruct (rejects _); cbn [delivered snd db clock];
      (split; [|reflexivity]); [apply write_nothing|apply write_budget].
  - destruct (fails _); cbn [responded snd sent db clock];
      (split; [|reflexivity]); [apply write_nothing|apply write_update_budgets].
  - destruct (fails _); cbn [responded snd sent db clock];
      (split; [|reflexivity]); [apply write_nothing|apply write_delete_budgets].
  - cbn [delivered snd]. split; [apply write_nothing|reflexivity].
  - destruct (rejects _); cbn [delivered snd db clock];
      (split; [|reflexivity]); [apply write_nothing|apply write_goal].
  - destruct (fails _); cbn [responded snd sent db clock];
      (split; [|reflexivity]); [apply write_nothing|apply write_update_goals].
  - destruct (fails _); cbn [responded snd sent db clock];
      (split; [|reflexivity]); [apply write_nothing|apply write_delete_goals].
  - cbn [delivered snd]. split; [apply write_nothing|reflexivity].
  - destruct (rejects _); cbn [delivered snd db clock];
      (split; [|reflexivity]); [apply write_nothing|apply write_read].
Qed.

Lemma map_unmatched {A} (p : A -> bool) (g : A -> A) (l : list A) :
  find p l = None -> map (fun r => if p r then g r else r) l = l.
Proof.
  induction l as [|x l IH]; [reflexivity|].
  cbn [find map]. destruct (p x); [discriminate|].
  intros H. rewrite (IH H). reflexivity.
Qed.

Lemma filter_unmatched {A} (p : A -> bool) (l : list A) :
  existsb p l = false -> filter (fun r => negb (p r)) l = l.
Proof.
  induction l as [|x l IH]; [reflexivity|].
  cbn [existsb filter]. destruct (p x); [discriminate|].
  cbn [orb negb]. intros H. rewrite (IH H). reflexivity.
Qed.

Lemma find_existsb {A} (p : A -> bool) (l : list A) :
  existsb p l = match find p l with Some _ => true | None => false end.
Proof.
  induction l as [|x l IH]; [reflexivity|].
  cbn [existsb find]. destruct (p x); [reflexivity|exact IH].
Qed.

(** X6.  A request that is answered with an error status (400, 401, 404 or
    500) has written nothing: the tables are as before, and nothing was
    logged on the console. *)
Theorem X6_error_responses_write_nothing user req w r :
  fst (handle user req w) = Some r ->
  400 <= statusCode r ->
  db (snd (handle user req w)) = db w
  /\ console (snd (handle user req w)) = console w.
Proof.
  destruct user as [userId|]; [|destruct req; intros _ _; split; reflexivity].
  destruct req as [body|id body|id|body|id body|id|
                   |body|id body|id| |id];
    try destruct body as [body|];
    try (intros _ _; split; reflexivity);
    run_handle;
    repeat match goal with
           | |- context [if fails ?q then _ else _] => destruct (fails q)
           | |- context [if rejects ?q then _ else _] => destruct (rejects q)
           end;
    cbn [responded delivered fst snd sent db console];
    try (intros _ _; split; reflexivity);
    try (intros E; inversion E; subst; cbn [statusCode]; lia).
  - (* PUT /api/transactions/:id *)
    destruct (find _ _) eqn:F; intros E; inversion E; subst; cbn [statusCode];
      [lia|intros _]. rewrite (map_unmatched _ _ _ F), same_store. split; reflexivity.
  - rewrite find_existsb.
    destruct (find _ _) eqn:F; intros E; inversion E; subst; cbn [statusCode];
      [lia|intros _].
    rewrite filter_unmatched, same_store by (rewrite find_existsb, F; reflexivity).
    split; reflexivity.
  - destruct (find _ _) eqn:F; intros E; inversion E; subst; cbn [statusCode];
      [lia|intros _]. rewrite (map_unmatched _ _ _ F), same_store. split; reflexivity.
  - rewrite find_existsb.
    destruct (find _ _) eqn:F; intros E; inversion E; subst; cbn [statusCode];
      [lia|intros _].
    rewrite filter_unmatched, same_store by (rewrite find_existsb, F; reflexivity).
    split; reflexivity.
  - destruct (find _ _) eqn:F; intros E; inversion E; subst; cbn [statusCode];
      [lia|intros _]. rewrite (map_unmatched _ _ _ F), same_store. split; reflexivity.
  - rewrite find_existsb.
    destruct (find _ _) eqn:F; intros E; inversion E; subst; cbn [statusCode];
      [lia|intros _].
    rewrite filter_unmatched, same_store by (rewrite find_existsb, F; reflexivity).
    split; reflexivity.
  - rewrite find_existsb.
    destruct (find _ _) eqn:F; intros E; inversion E; subst; cbn [statusCode];
      [lia|intros _].
    rewrite (map_unmatched _ _ _ F), same_store. split; reflexivity.
Qed.

(** ** Invariants of the store *)

Lemma handle_none req w : snd (handle None req w) = w.
Proof. destruct req; reflexivity. Qed.

(** What every write of an allowed caller preserves holds after every
    sequence of requests of allowed callers. *)
Lemma serve_invariant (allowed : Uuid -> Prop) (P : Store -> Prop) :
  (forall caller now s s', allowed caller -> Write caller now s s' -> P s -> P s') ->
  forall events w,
    Forall allowed (callers events) -> P (db w) -> P (db (serve events w)).
Proof.
  intros step events. unfold serve.
  induction events as [|e events IH]; intros w Ha Hw; [exact Hw|].
  cbn [fold_left]. apply IH.
  - unfold callers in *. cbn [flat_map] in Ha. apply Forall_app in Ha. apply Ha.
  - destruct e as [[caller|] req|time]; cbn [occur].
    + destruct (handle_writes caller req w) as (Hwrite & _).
      apply (step caller (clock w) (db w)); [|exact Hwrite|exact Hw].
      unfold callers in Ha. cbn [flat_map] in Ha. apply Forall_app in Ha.
      destruct Ha as (Ha & _). inversion Ha; assumption.
    + rewrite handle_none. exact Hw.
    + exact Hw.
Qed.

Lemma Forall_snoc {A} (P : A -> Prop) (l : list A) (x : A) :
  Forall P l -> P x -> Forall P (l ++ [x]).
Proof. intros Hl Hx. apply Forall_app. split; [exact Hl|repeat constructor; exact Hx]. Qed.

Lemma Forall_update {A} (P : A -> Prop) (p : A -> bool) (g : A -> A) (l : list A) :
  (forall r, P r -> P (g r)) ->
  Forall P l -> Forall P (map (fun r => if p r then g r else r) l).
Proof.
  intros Hg Hl. induction Hl as [|x l Hx _ IH]; cbn [map]; constructor; [|exact IH].
  destruct (p x); [apply Hg|]; exact Hx.
Qed.

Lemma Forall_filter {A} (P : A -> Prop) (p : A -> bool) (l : list A) :
  Forall P l -> Forall P (filter p l).
Proof.
  intros Hl. induction Hl as [|x l Hx _ IH]; cbn [filter]; [constructor|].
  destruct (p x); [constructor; assumption|exact IH].
Qed.

(** X7.  No route changes what a goal has saved or whether it is completed:
    a created goal starts at 0 and not completed, and an update sets the
    title, the target amount and the target date only.  So when no goal has
    progress, none has after any sequence of requests, whoever sends them
    and whatever the database rejects. *)
Theorem X7_goals_never_progress events w :
  Forall no_progress (goals (db w)) ->
  Forall no_progress (goals (db (serve events w))).
Proof.
  intros H.
  apply (serve_invariant (fun _ => True) (fun s => Forall no_progress (goals s)));
    [|apply Forall_forall; intros; exact I|exact H].
  clear. intros caller now s s' _ Hw Hs.
  destruct Hw; cbn [insert_into_transactions insert_into_notifications
                    insert_into_budgets insert_into_goals snd goals];
    try exact Hs.
  - apply Forall_snoc; [exact Hs|]. split; reflexivity.
  - apply Forall_update; [|exact Hs]. intros r Hr. exact Hr.
  - apply Forall_filter, Hs.
Qed.

(** X8.  The only notifications the routes write are the evaluator's: when
    every notification is a warning titled "Budget Alert - <category>" or
    "Budget Exceeded - <category>", that still holds after every sequence of
    requests. *)
Theorem X8_notifications_are_budget_alerts events w :
  Forall alert_row (notifications (db w)) ->
  Forall alert_row (notifications (db (serve events w))).
Proof.
  intros H.
  apply (serve_invariant (fun _ => True) (fun s => Forall alert_row (notifications s)));
    [|apply Forall_forall; intros; exact I|exact H].
  clear. intros caller now s s' _ Hw Hs.
  destruct Hw as [|body|body n Hn|id patch|id|body|id patch|id|body|id patch|id|id];
    cbn [insert_into_transactions insert_into_notifications
         insert_into_budgets insert_into_goals snd notifications];
    try exact Hs.
  - apply Forall_snoc; [exact Hs|].
    destruct Hn as (category & p & t & b & [Hn|Hn]); subst n;
      (split; [reflexivity|exists category]); [left|right]; reflexivity.
  - apply Forall_update; [|exact Hs]. intros r Hr. exact Hr.
Qed.

(** ** Row ids *)

Section Identified.

Context {A : Type} (id : A -> Uuid).

Lemma identified_weaken (next next' : Uuid) (rows : list A) :
  (next <= next')%N -> identified id next rows -> identified id next' rows.
Proof.
  intros Hn (Hd & Hb). split; [exact Hd|].
  apply Forall_forall. intros r Hr.
  apply (proj1 (Forall_forall _ _) Hb) in Hr. lia.
Qed.

Lemma identified_insert (next : Uuid) (rows : list A) (x : A) :
  id x = next -> identified id next rows -> identified id (N.succ next) (rows ++ [x]).
Proof.
  intros Hx (Hd & Hb). split.
  - rewrite map_app. cbn [map].
    apply (Permutation_NoDup (l := id x :: map id rows)).
    + apply Permutation_cons_append.
    + constructor; [|exact Hd]. intros Hin.
      apply in_map_iff in Hin as (r & Hr & Hin).
      apply (proj1 (Forall_forall _ _) Hb) in Hin. lia.
  - apply Forall_snoc.
    + apply Forall_forall. intros r Hr.
      apply (proj1 (Forall_forall _ _) Hb) in Hr. lia.
    + lia.
Qed.

Lemma map_id_update (p : A -> bool) (g : A -> A) (rows : list A) :
  (forall r, id (g r) = id r) ->
  map id (map (fun r => if p r then g r else r) rows) = map id rows.
Proof.
  intros Hg. rewrite map_map. apply map_ext. intros r.
  destruct (p r); [apply Hg|reflexivity].
Qed.

Lemma identified_update (next : Uuid) (p : A -> bool) (g : A -> A) (rows : list A) :
  (forall r, id (g r) = id r) ->
  identified id next rows ->
  identified id next (map (fun r => if p r then g r else r) rows).
Proof.
  intros Hg (Hd & Hb). split.
  - rewrite map_id_update by exact Hg. exact Hd.
  - apply Forall_update; [|exact Hb]. intros r Hr. rewrite Hg. exact Hr.
Qed.

Lemma NoDup_map_filter (p : A -> bool) (rows : list A) :
  NoDup (map id rows) -> NoDup (map id (filter p rows)).
Proof.
  induction rows as [|r rows IH]; cbn [map filter]; intros Hd; [constructor|].
  inversion Hd as [|? ? Hn Hd']; subst.
  destruct (p r); [|apply IH, Hd'].
  cbn [map]. constructor; [|apply IH, Hd'].
  intros Hin. apply Hn.
  apply in_map_iff in Hin as (x & Hx & Hin). apply filter_In in Hin as (Hin & _).
  apply in_map_iff. exists x. split; assumption.
Qed.

Lemma identified_delete (next : Uuid) (p : A -> bool) (rows : list A) :
  identified id next rows -> identified id next (filter p rows).
Proof.
  intros (Hd & Hb). split; [apply NoDup_map_filter, Hd|apply Forall_filter, Hb].
Qed.

(** With distinct ids at most one row has a given id. *)
Lemma identified_at_most_one (next : Uuid) (rows : list A) (i : Uuid) :
  identified id next rows ->
  (List.length (filter (fun r => (id r =? i)%N) rows) <= 1)%nat.
Proof.
  intros (Hd & _). induction rows as [|r rows IH]; cbn [filter]; [cbn; lia|].
  cbn [map] in Hd. inversion Hd as [|? ? Hn Hd']; subst.
  destruct (id r =? i)%N eqn:E; [|apply IH, Hd'].
  apply N.eqb_eq in E. cbn [List.length].
  replace (filter (fun r0 => (id r0 =? i)%N) rows) with (@nil A); [cbn; lia|].
  symmetry.
  clear IH Hd Hd'. induction rows as [|x rows IH]; [reflexivity|].
  cbn [filter]. destruct (id x =? i)%N eqn:Ex.
  - exfalso. apply Hn. apply N.eqb_eq in Ex. left. congruence.
  - apply IH. intros Hin. apply Hn. right. exact Hin.
Qed.

End Identified.

Lemma well_identified_step caller now s s' :
  Write caller now s s' -> well_identified s -> well_identified s'.
Proof.
  intros Hw (Ht & Hb & Hg & Hn).
  pose proof (N.le_succ_diag_r (next_uuid s)) as L1.
  assert (L2 : (next_uuid s <= N.succ (N.succ (next_uuid s)))%N) by lia.
  pose proof (N.le_succ_diag_r (N.succ (next_uuid s))) as L3.
  destruct Hw;
    cbn [insert_into_transactions insert_into_notifications insert_into_budgets
         insert_into_goals snd transactions budgets goals notifications next_uuid];
    unfold well_identified;
    cbn [transactions budgets goals notifications next_uuid];
    refine (conj _ (conj _ (conj _ _)));
    try assumption;
    try (apply identified_update; [intros; reflexivity|assumption]);
    try (apply identified_delete; assumption);
    try (apply identified_insert; [reflexivity|assumption]);
    try (apply (identified_weaken _ _ _ _ L1); assumption);
    try (apply (identified_weaken _ _ _ _ L2); assumption).
  - apply (identified_weaken _ _ _ _ L3).
    apply identified_insert; [reflexivity|assumption].
  - apply identified_insert; [reflexivity|].
    apply (identified_weaken _ _ _ _ L1); assumption.
Qed.

(** X9.  Row ids stay distinct.  When, in each table, the ids are distinct
    and below the next generated id, this still holds after every sequence
    of requests; an update, a delete or a mark-as-read by id then touches at
    most one row of its table. *)
Theorem X9_ids_stay_distinct events w :
  well_identified (db w) ->
  let s := db (serve events w) in
  well_identified s
  /\ forall id,
       (List.length (filter (fun r => (Transaction.id r =? id)%N) (transactions s)) <= 1
        /\ List.length (filter (fun r => (Budget.id r =? id)%N) (budgets s)) <= 1
        /\ List.length (filter (fun r => (Goal.id r =? id)%N) (goals s)) <= 1
        /\ List.length (filter (fun r => (Notification.id r =? id)%N) (notifications s)) <= 1)%nat.
Proof.
  intros H. cbv zeta.
  assert (W : well_identified (db (serve events w))).
  { apply (serve_invariant (fun _ => True) well_identified);
      [|apply Forall_forall; intros; exact I|exact H].
    intros caller now s s' _. apply well_identified_step. }
  split; [exact W|].
  destruct W as (Ht & Hb & Hg & Hn). intros id.
  refine (conj _ (conj _ (conj _ _))); eapply identified_at_most_one; eassumption.
Qed.

(** ** Whose rows a request creates *)

Section Owned.

Context {A : Type} (id owner : A -> Uuid).

Lemma own_update (u : Uuid) (p : A -> bool) (g : A -> A) (rows : list A) :
  (forall r, id (g r) = id r) -> (forall r, owner (g r) = owner r) ->
  map id (filter (fun r => (owner r =? u)%N)
            (map (fun r => if p r then g r else r) rows)) =
  map id (filter (fun r => (owner r =? u)%N) rows).
Proof.
  intros Hi Ho. induction rows as [|r rows IH]; [reflexivity|].
  cbn [map filter].
  assert (E : owner (if p r then g r else r) = owner r)
    by (destruct (p r); [apply Ho|reflexivity]).
  rewrite E. destruct (owner r =? u)%N; [|exact IH].
  cbn [map]. rewrite IH. f_equal. destruct (p r); [apply Hi|reflexivity].
Qed.

Lemma own_delete (u : Uuid) (p : A -> bool) (rows : list A) :
  incl (map id (filter (fun r => (owner r =? u)%N) (filter p rows)))
       (map id (filter (fun r => (owner r =? u)%N) rows)).
Proof.
  intros i Hi. apply in_map_iff in Hi as (r & Hr & Hin).
  apply filter_In in Hin as (Hin & Ho). apply filter_In in Hin as (Hin & _).
  apply in_map_iff. exists r. split; [exact Hr|]. apply filter_In. split; assumption.
Qed.

Lemma own_insert (u : Uuid) (rows : list A) (x : A) :
  owner x <> u ->
  map id (filter (fun r => (owner r =? u)%N) (rows ++ [x])) =
  map id (filter (fun r => (owner r =? u)%N) rows).
Proof.
  intros H. rewrite filter_app. cbn [filter].
  apply N.eqb_neq in H. rewrite H, app_nil_r. reflexivity.
Qed.

End Owned.

(** X10.  Rows appear under the id of the session user only.  When
    [userId] sends no request, then after every sequence of requests of
    others each transaction, budget, goal and notification of [userId] has
    the id of a row [userId] had before: others can change and delete these
    rows, they cannot add any. *)
Theorem X10_rows_are_created_for_the_caller_only userId events w :
  ~ In userId (callers events) ->
  let s := db w in
  let s' := db (serve events w) in
  incl (ownTransactions userId s') (ownTransactions userId s)
  /\ incl (ownBudgets userId s') (ownBudgets userId s)
  /\ incl (ownGoals userId s') (ownGoals userId s)
  /\ incl (ownNotifications userId s') (ownNotifications userId s).
Proof.
  intros H. cbv zeta.
  apply (serve_invariant (fun caller => caller <> userId)
           (fun s' => incl (ownTransactions userId s') (ownTransactions userId (db w))
                      /\ incl (ownBudgets userId s') (ownBudgets userId (db w))
                      /\ incl (ownGoals userId s') (ownGoals userId (db w))
                      /\ incl (ownNotifications userId s') (ownNotifications userId (db w)))).
  - clear H. intros caller now s s' Hc Hw (Ht & Hb & Hg & Hn).
    unfold ownTransactions, ownBudgets, ownGoals, ownNotifications in *.
    destruct Hw as [|body|body n Hal|id patch|id|body|id patch|id|body|id patch|id|id];
      cbn [insert_into_transactions insert_into_notifications insert_into_budgets
           insert_into_goals snd transactions budgets goals notifications];
      rewrite ?own_insert by (cbn; exact Hc);
      rewrite ?own_update by (intros; reflexivity);
      refine (conj _ (conj _ (conj _ _))); try assumption;
      try (eapply incl_tran; [apply own_delete|assumption]).
    rewrite own_insert; [assumption|].
    destruct Hal as (category & p & t & b & [Hal|Hal]); subst n; cbn; exact Hc.
  - apply Forall_forall. intros c Hin E. subst c. contradiction.
  - repeat split; apply incl_refl.
Qed.

(** ** Notifications as the client sees them *)

Lemma insert_by_map {A B} (before : B -> B -> bool) (before' : A -> A -> bool)
    (f : A -> B) (x : A) (l : list A) :
  (forall x y, before (f x) (f y) = before' x y) ->
  insert_by before (f x) (map f l) = map f (insert_by before' x l).
Proof.
  intros H. induction l as [|y l IH]; [reflexivity|].
  cbn [map insert_by]. rewrite H. destruct (before' x y); [reflexivity|].
  cbn [map]. rewrite IH. reflexivity.
Qed.

Lemma order_by_map {A B} (before : B -> B -> bool) (before' : A -> A -> bool)
    (f : A -> B) (l : list A) :
  (forall x y, before (f x) (f y) = before' x y) ->
  order_by before (map f l) = map f (order_by before' l).
Proof.
  intros H. induction l as [|x l IH]; [reflexivity|].
  cbn [map order_by fold_right]. fold (order_by before (map f l)).
  fold (order_by before' l). rewrite IH. apply insert_by_map, H.
Qed.

Lemma filter_map_same {A} (p : A -> bool) (f : A -> A) (l : list A) :
  (forall x, p (f x) = p x) -> filter p (map f l) = map f (filter p l).
Proof.
  intros H. induction l as [|x l IH]; [reflexivity|].
  cbn [map filter]. rewrite H. destruct (p x); cbn [map]; rewrite IH; reflexivity.
Qed.

Lemma inbox_marked (userId id : Uuid) (s s' : Store) :
  notifications s' =
  map (fun r => if (Notification.id r =? id)%N then set_read r else r) (notifications s) ->
  inbox userId s' =
  map (fun r => if (Notification.id r =? id)%N then set_read r else r) (inbox userId s).
Proof.
  intros E. unfold inbox. rewrite E.
  rewrite filter_map_same by (intros x; destruct (Notification.id x =? id)%N; reflexivity).
  apply order_by_map. intros x y.
  destruct (Notification.id x =? id)%N, (Notification.id y =? id)%N; reflexivity.
Qed.

Lemma unread_marked (id : Uuid) (l : list Notification.t) :
  unreadNotifications
    (map (fun r => if (Notification.id r =? id)%N then set_read r else r) l) =
  filter (fun r => negb (Notification.id r =? id)%N) (unreadNotifications l).
Proof.
  unfold unreadNotifications. induction l as [|n l IH]; [reflexivity|].
  cbn [map filter]. destruct (Notification.id n =? id)%N eqn:E.
  - cbn [set_read Notification.isRead negb]. rewrite IH.
    destruct (Notification.isRead n); cbn [negb filter]; [reflexivity|].
    rewrite E. reflexivity.
  - rewrite IH. destruct (Notification.isRead n); cbn [negb filter]; [reflexivity|].
    rewrite E. reflexivity.
Qed.

Lemma filter_length_le {A} (p : A -> bool) (l : list A) :
  (List.length (filter p l) <= List.length l)%nat.
Proof.
  induction l as [|x l IH]; [cbn; lia|].
  cbn [filter]. destruct (p x); cbn [List.length]; lia.
Qed.

Lemma existsb_id {A} (id : A -> Uuid) (i : Uuid) (l : list A) :
  existsb (fun r => (id r =? i)%N) l = true <-> exists r, In r l /\ id r = i.
Proof.
  rewrite existsb_exists. split; intros (r & Hr & E); exists r;
    (split; [exact Hr|]); apply N.eqb_eq; exact E.
Qed.

Lemma map_map_same {A} (f : A -> A) (l : list A) :
  (forall x, f (f x) = f x) -> map f (map f l) = map f l.
Proof. intros H. rewrite map_map. apply map_ext, H. Qed.

(** X11.  Marking a notification as read selects it by id alone: whoever
    the authenticated caller is, the answer is 204 exactly when a notification
    has that id and 404 otherwise; the rows with that id become read and
    nothing else changes; marking again changes nothing more. *)
Theorem X11_mark_as_read_by_id_alone caller id w :
  rejects (UpdateNotificationsSetRead id) = false ->
  let r := handle (Some caller) (PutNotificationsRead id) w in
  let s := db w in
  let s' := db (snd r) in
  (fst r = Some (Send (SendStatus 204)) <->
   exists n, In n (notifications s) /\ Notification.id n = id)
  /\ (fst r = Some (Send (StatusJson 404 (JsonMessage "Notification not found"))) <->
      ~ exists n, In n (notifications s) /\ Notification.id n = id)
  /\ s' = mkStore (transactions s) (budgets s) (goals s)
            (map (fun n => if (Notification.id n =? id)%N then set_read n else n)
                 (notifications s))
            (next_uuid s)
  /\ snd (handle (Some caller) (PutNotificationsRead id) (snd r)) = snd r.
Proof.
  intros R. cbv zeta. run_handle. rewrite R. cbn [delivered fst snd db].
  pose proof (existsb_id Notification.id id (notifications (db w))) as Ex.
  split; [|split; [|split]].
  - destruct (existsb _ _).
    + split; [intros _; apply Ex; reflexivity|reflexivity].
    + split; [discriminate|]. intros H. apply Ex in H. discriminate.
  - destruct (existsb _ _).
    + split; [discriminate|]. intros H. exfalso. apply H, Ex. reflexivity.
    + split; [|reflexivity]. intros _ H. apply Ex in H. discriminate.
  - reflexivity.
  - cbn [delivered snd db console clock queries
         transactions budgets goals notifications next_uuid].
    rewrite map_map_same; [reflexivity|].
    intros n. destruct (Notification.id n =? id)%N eqn:E; [|rewrite E; reflexivity].
    cbn [set_read Notification.id]. rewrite E. reflexivity.
Qed.

(** X12.  What marking as read does to the lists the client shows: for
    every user the list of [GET /api/notifications] keeps its rows and their
    order, with the rows of that id read; the unread notifications are the
    former ones without the rows of that id, so the unread count of no user
    grows. *)
Theorem X12_mark_as_read_seen_by_the_client caller id w userId :
  rejects (UpdateNotificationsSetRead id) = false ->
  let s' := db (snd (handle (Some caller) (PutNotificationsRead id) w)) in
  inbox userId s' =
  map (fun n => if (Notification.id n =? id)%N then set_read n else n)
      (inbox userId (db w))
  /\ unreadNotifications (inbox userId s') =
     filter (fun n => negb (Notification.id n =? id)%N)
            (unreadNotifications (inbox userId (db w)))
  /\ (unreadCount (inbox userId s') <= unreadCount (inbox userId (db w)))%nat.
Proof.
  intros R. cbv zeta.
  assert (E : inbox userId (db (snd (handle (Some caller) (PutNotificationsRead id) w))) =
              map (fun n => if (Notification.id n =? id)%N then set_read n else n)
                  (inbox userId (db w))).
  { apply inbox_marked. run_handle. rewrite R. reflexivity. }
  split; [exact E|].
  assert (U : unreadNotifications
                (inbox userId (db (snd (handle (Some caller) (PutNotificationsRead id) w)))) =
              filter (fun n => negb (Notification.id n =? id)%N)
                     (unreadNotifications (inbox userId (db w))))
    by (rewrite E; apply unread_marked).
  split; [exact U|].
  unfold unreadCount. rewrite U. apply filter_length_le.
Qed.

Lemma alertFor_is_warning userId category month year budget s n :
  alertFor userId category month year budget s = Some n ->
  InsertNotification.userId n = userId /\ InsertNotification.type n = "warning".
Proof.
  unfold alertFor. cbv zeta. intros H.
  repeat match type of H with
         | context [if ?b then _ else _] => destruct b
         end; inversion H; subst; split; reflexivity.
Qed.

Lemma inbox_other (userId : Uuid) (s s' : Store) (n : Notification.t) :
  notifications s' = (notifications s ++ [n])%list ->
  Notification.userId n <> userId ->
  inbox userId s' = inbox userId s.
Proof.
  intros E H. unfold inbox. rewrite E, filter_app. cbn [filter].
  apply N.eqb_neq in H. rewrite H, app_nil_r. reflexivity.
Qed.

Lemma inbox_own (userId : Uuid) (s s' : Store) (n : Notification.t) :
  notifications s' = (notifications s ++ [n])%list ->
  Notification.userId n = userId ->
  Permutation (inbox userId s') (n :: inbox userId s).
Proof.
  intros E H. unfold inbox. rewrite E, filter_app. cbn [filter].
  apply N.eqb_eq in H. rewrite H.
  eapply Permutation_trans; [apply order_by_perm|].
  eapply Permutation_trans; [apply Permutation_sym, Permutation_cons_append|].
  apply perm_skip, Permutation_sym, order_by_perm.
Qed.

(** X13.  An alert reaches its owner's notification list and nobody
    else's.  When a user records an expense, a budget row matches and the
    evaluator decides on an alert, then [GET /api/notifications] returns to
    that user the former rows and the new, unread one, the unread count
    grows by one, and the list of every other user is unchanged. *)
Theorem X13_alert_reaches_the_owner userId body w budget n :
  (forall q, fails q = false) ->
  InsertTransaction.type body = expense ->
  let category := InsertTransaction.category body in
  let month := JsDate.getMonth (clock w) + 1 in
  let year := JsDate.getFullYear (clock w) in
  let inserted := snd (insert_into_transactions (clock w) userId body (db w)) in
  budgetFor userId category month year (db w) = Some budget ->
  alertFor userId category month year budget inserted = Some n ->
  let s' := db (snd (handle (Some userId) (PostTransactions (Some body)) w)) in
  let row :=
    Notification.mk (N.succ (next_uuid (db w))) userId (InsertNotification.title n)
      (InsertNotification.message n) "warning" false (clock w) in
  Permutation (inbox userId s') (row :: inbox userId (db w))
  /\ unreadCount (inbox userId s') = S (unreadCount (inbox userId (db w)))
  /\ forall other, other <> userId -> inbox other s' = inbox other (db w).
Proof.
  intros F Hty. cbv zeta. intros Hb Ha.
  destruct (alertFor_is_warning _ _ _ _ _ _ _ Ha) as (Hu & Hw).
  assert (E : notifications
                (db (snd (handle (Some userId) (PostTransactions (Some body)) w))) =
              (notifications (db w)
               ++ [Notification.mk (N.succ (next_uuid (db w))) userId
                     (InsertNotification.title n) (InsertNotification.message n)
                     "warning" false (clock w)])%list).
  { run_handle. rewrite F. cbn [responded snd].
    destruct (TransactionType_eq_dec (InsertTransaction.type body) expense);
      [|contradiction].
    rewrite checkBudgetAlerts_run. cbv zeta. cbn [snd db clock].
    unfold budgetLookup, monthSelect. rewrite !F.
    rewrite (budgetFor_ext _ _ _ _ (db w)) by reflexivity.
    rewrite Hb, Ha, F. unfold notified.
    cbn [db clock insert_into_notifications insert_into_transactions snd
         notifications next_uuid].
    rewrite Hu, Hw. reflexivity. }
  pose proof (inbox_own userId _ _ _ E eq_refl) as P.
  split; [exact P|]. split.
  - unfold unreadCount, unreadNotifications.
    rewrite (Permutation_length (Permutation_filter _ _ _ P)). reflexivity.
  - intros other Ho. apply (inbox_other other _ _ _ E). cbn. congruence.
Qed.

(** ** Budgets *)

(** X14.  Creating a budget never fails for a duplicate: whatever the
    store holds, an accepted request is answered 201 with the new row, which
    is added for the caller, so the rows for that user, category, month and
    year become one more; and when none matched before, the evaluator finds
    the new row. *)
Theorem X14_budgets_are_not_unique caller body w :
  rejects (InsertIntoBudgets caller body) = false ->
  let category := InsertBudget.category body in
  let month := InsertBudget.month body in
  let year := InsertBudget.year body in
  let created :=
    Budget.mk (next_uuid (db w)) caller category (InsertBudget.amount body)
              month year (clock w) in
  let r := handle (Some caller) (PostBudgets (Some body)) w in
  let matching s :=
    List.length (filter (budget_matches caller category month year) (budgets s)) in
  fst r = Some (Send (StatusJson 201 (JsonBudget created)))
  /\ budgets (db (snd r)) = (budgets (db w) ++ [created])%list
  /\ matching (db (snd r)) = S (matching (db w))
  /\ (budgetFor caller category month year (db w) = None ->
      budgetFor caller category month year (db (snd r)) = Some created).
Proof.
  intros R. cbv zeta. run_handle. rewrite R.
  cbn [delivered fst snd db insert_into_budgets budgets].
  assert (M : budget_matches caller (InsertBudget.category body)
                (InsertBudget.month body) (InsertBudget.year body)
                (Budget.mk (next_uuid (db w)) caller (InsertBudget.category body)
                   (InsertBudget.amount body) (InsertBudget.month body)
                   (InsertBudget.year body) (clock w)) = true).
  { unfold budget_matches.
    cbn [Budget.userId Budget.category Budget.month Budget.year].
    rewrite N.eqb_refl, !Z.eqb_refl.
    destruct (Category_eq_dec _ _); [reflexivity|contradiction]. }
  split; [reflexivity|]. split; [reflexivity|]. split.
  - rewrite filter_app, length_app. cbn [filter]. rewrite M. cbn [List.length]. lia.
  - unfold budgetFor. cbn [budgets]. rewrite filter_app. cbn [filter]. rewrite M.
    destruct (filter _ (budgets (db w))); [reflexivity|discriminate].
Qed.

(** X15.  The budgets [getBudgets] returns for a month are the user's rows
    of that month and year, and the store is left alone; the evaluator finds
    a budget for a category exactly when one of these rows has the category,
    and the row it finds is one of them.  When the year is missing the month
    is ignored. *)
Theorem X15_budgets_of_the_month userId month year w :
  rejects (SelectBudgets userId (Some (month, year))) = false ->
  exists rows,
    getBudgets userId (Some month) (Some year) w = (inl rows, w)
    /\ (forall b, In b rows <->
                  In b (budgets (db w)) /\ Budget.userId b = userId
                  /\ Budget.month b = month /\ Budget.year b = year)
    /\ (forall category b,
          budgetFor userId category month year (db w) = Some b ->
          In b rows /\ Budget.category b = category)
    /\ (forall category,
          budgetFor userId category month year (db w) <> None <->
          exists b, In b rows /\ Budget.category b = category)
    /\ getBudgets userId (Some month) None w = getBudgets userId None None w.
Proof.
  intros R. eexists. split.
  { unfold getBudgets. rewrite execute_ok by exact R. cbn [fst snd].
    rewrite same_world. reflexivity. }
  assert (In_rows : forall b,
             In b (filter (fun b => (Budget.userId b =? userId)%N
                                    && (Budget.month b =? month)
                                    && (Budget.year b =? year)) (budgets (db w))) <->
             In b (budgets (db w)) /\ Budget.userId b = userId
             /\ Budget.month b = month /\ Budget.year b = year).
  { intros b. rewrite filter_In, !andb_true_iff, N.eqb_eq, !Z.eqb_eq. tauto. }
  assert (In_match : forall category b,
             In b (filter (budget_matches userId category month year) (budgets (db w))) <->
             In b (budgets (db w)) /\ Budget.userId b = userId
             /\ Budget.month b = month /\ Budget.year b = year
             /\ Budget.category b = category).
  { intros category b. unfold budget_matches.
    rewrite filter_In, !andb_true_iff, N.eqb_eq, !Z.eqb_eq.
    destruct (Category_eq_dec (Budget.category b) category); intuition congruence. }
  split; [exact In_rows|]. split; [|split; [|reflexivity]].
  - intros category b H. unfold budgetFor in H.
    assert (Hin : In b (filter (budget_matches userId category month year)
                               (budgets (db w)))).
    { destruct (filter (budget_matches userId category month year) (budgets (db w)))
        as [|x l]; [discriminate|].
      inversion H; subst. left. reflexivity. }
    apply In_match in Hin. split; [apply In_rows|]; tauto.
  - intros category. unfold budgetFor. split.
    + intros H.
      destruct (filter (budget_matches userId category month year) (budgets (db w)))
        as [|x l] eqn:E; [contradiction H; reflexivity|].
      assert (Hin : In x (filter (budget_matches userId category month year)
                                 (budgets (db w)))) by (rewrite E; left; reflexivity).
      apply In_match in Hin. exists x. split; [apply In_rows|]; tauto.
    + intros (b & Hin & Hc). apply In_rows in Hin.
      assert (Hm : In b (filter (budget_matches userId category month year)
                                (budgets (db w)))) by (apply In_match; tauto).
      destruct (filter (budget_matches userId category month year) (budgets (db w)));
        [contradiction|discriminate].
Qed.

(** ** The transaction list *)

Lemma StronglySorted_app_rel {A} (R : A -> A -> Prop) (l1 l2 : list A) :
  StronglySorted R (l1 ++ l2) ->
  forall x y, In x l1 -> In y l2 -> R x y.
Proof.
  induction l1 as [|a l1 IH]; intros Hs x y Hx Hy; [contradiction|].
  cbn [app] in Hs. inversion Hs as [|? ? Hs' Ha]; subst.
  destruct Hx as [Hx|Hx].
  - subst a. apply (proj1 (Forall_forall _ _) Ha). apply in_or_app. right. exact Hy.
  - apply IH; assumption.
Qed.

Lemma StronglySorted_app_l {A} (R : A -> A -> Prop) (l1 l2 : list A) :
  StronglySorted R (l1 ++ l2) -> StronglySorted R l1.
Proof.
  induction l1 as [|a l1 IH]; intros Hs; [constructor|].
  cbn [app] in Hs. inversion Hs as [|? ? Hs' Ha]; subst.
  constructor; [apply IH, Hs'|].
  apply Forall_forall. intros x Hx.
  apply (proj1 (Forall_forall _ _) Ha). apply in_or_app. left. exact Hx.
Qed.

(** X16.  [getTransactions] returns the newest transactions of the user
    and reads only: with a limit of [k] rows (50 when none is given) that the
    database accepts, the result has [min k n] of the user's [n] rows, newest
    first, every row left out is no newer than any row returned, and the
    store is as before. *)
Theorem X16_the_newest_transactions userId limit w :
  let k := or_else limit 50 in
  0 <= k <= 9223372036854775807 ->
  rejects (SelectTransactions userId k) = false ->
  let own := filter (fun t => (Transaction.userId t =? userId)%N) (transactions (db w)) in
  exists rows rest,
    getTransactions userId limit w = (inl rows, w)
    /\ Permutation (rows ++ rest) own
    /\ List.length rows = Nat.min (Z.to_nat k) (List.length own)
    /\ StronglySorted (fun x y => Transaction.date y <= Transaction.date x) rows
    /\ forall x y, In x rows -> In y rest -> Transaction.date y <= Transaction.date x.
Proof.
  cbv zeta. intros Hk R.
  set (own := filter (fun t => (Transaction.userId t =? userId)%N) (transactions (db w))).
  set (sorted := order_by (fun x y => Transaction.date y <=? Transaction.date x) own).
  exists (firstn (Z.to_nat (or_else limit 50)) sorted),
         (skipn (Z.to_nat (or_else limit 50)) sorted).
  assert (S : StronglySorted (fun x y => Transaction.date y <= Transaction.date x) sorted).
  { apply Sorted_StronglySorted; [intros x y z; lia|].
    assert (S0 : Sorted (fun u v => (Transaction.date v <=? Transaction.date u) = true)
                        sorted)
      by (apply order_by_sorted; intros x y H; apply Z.leb_gt in H; apply Z.leb_le; lia).
    clearbody sorted. clear - S0.
    induction S0 as [|a l _ IH Hd]; constructor; [exact IH|].
    destruct Hd as [|b l Hb]; constructor. apply Z.leb_le, Hb. }
  split; [|split; [|split; [|split]]].
  - unfold getTransactions. cbv zeta.
    replace (or_else limit 50 <? 0) with false
      by (symmetry; apply Z.ltb_ge; apply Hk).
    replace (9223372036854775807 <? or_else limit 50) with false
      by (symmetry; apply Z.ltb_ge; apply Hk).
    cbn [orb]. rewrite execute_ok by exact R. cbn [fst snd].
    rewrite same_world. reflexivity.
  - rewrite firstn_skipn. apply order_by_perm.
  - rewrite length_firstn. unfold sorted.
    rewrite (Permutation_length (order_by_perm _ own)). reflexivity.
  - rewrite <- (firstn_skipn (Z.to_nat (or_else limit 50)) sorted) in S.
    apply StronglySorted_app_l in S. exact S.
  - rewrite <- (firstn_skipn (Z.to_nat (or_else limit 50)) sorted) in S.
    apply (StronglySorted_app_rel _ _ _ S).
Qed.

(** X25.  The list routes read and show the caller's rows only: for an
    authenticated user, when the statement is accepted, [GET /api/goals] and
    [GET /api/notifications] leave the world as it is and send the goals,
    respectively the notifications, of that user and no others, each once,
    newest first. *)
Theorem X25_lists_are_scoped_to_the_caller userId w :
  rejects (SelectGoals userId) = false ->
  rejects (SelectNotifications userId) = false ->
  (exists rows,
      handle (Some userId) GetGoals w = (Some (SendGoals rows), w)
      /\ Permutation rows
           (filter (fun g => (Goal.userId g =? userId)%N) (goals (db w)))
      /\ StronglySorted (fun x y => Goal.createdAt y <= Goal.createdAt x) rows)
  /\ handle (Some userId) GetNotifications w =
     (Some (SendNotifications (inbox userId (db w))), w)
  /\ Permutation (inbox userId (db w))
       (filter (fun n => (Notification.userId n =? userId)%N) (notifications (db w)))
  /\ StronglySorted (fun x y => Notification.createdAt y <= Notification.createdAt x)
       (inbox userId (db w)).
Proof.
  intros Rg Rn.
  assert (sorted : forall A (key : A -> Z) (l : list A),
             StronglySorted (fun x y => key y <= key x)
               (order_by (fun x y => key y <=? key x) l)).
  { intros A key l.
    apply Sorted_StronglySorted; [intros x y z; lia|].
    assert (S0 : Sorted (fun u v => (key v <=? key u) = true)
                        (order_by (fun x y => key y <=? key x) l))
      by (apply order_by_sorted; intros x y H; apply Z.leb_gt in H; apply Z.leb_le; lia).
    induction S0 as [|a l' _ IH Hd]; constructor; [exact IH|].
    destruct Hd as [|b l'' Hb]; constructor. apply Z.leb_le, Hb. }
  split; [|split; [|split]].
  - eexists. split; [|split].
    + run_handle. rewrite Rg. reflexivity.
    + apply order_by_perm.
    + apply (sorted _ Goal.createdAt).
  - run_handle. rewrite Rn. reflexivity.
  - apply order_by_perm.
  - apply (sorted _ Notification.createdAt).
Qed.

(** X26.  Only a new expense is evaluated.  Every other request (an
    update or a delete of a transaction, a new income, any request on
    budgets, goals and notifications) sends no budget lookup and creates
    no notification: the notifications keep their ids, owners, titles and
    messages, so raising an expense above its budget by an update alerts
    nobody. *)
Theorem X26_only_new_expenses_are_evaluated user req w :
  (forall body, req = PostTransactions (Some body) ->
                InsertTransaction.type body = income) ->
  let w' := snd (handle user req w) in
  let shown n :=
    (Notification.id n, Notification.userId n, Notification.title n,
     Notification.message n, Notification.createdAt n) in
  filter is_budget_lookup (queries w') = filter is_budget_lookup (queries w)
  /\ map shown (notifications (db w')) = map shown (notifications (db w)).
Proof.
  intros H. cbv zeta.
  destruct user as [userId|]; [|rewrite handle_none; split; reflexivity].
  destruct req as [body|id body|id|body|id body|id|
                   |body|id body|id| |id];
    try destruct body as [body|];
    try (split; reflexivity);
    run_handle;
    repeat match goal with
           | |- context [if fails ?q then _ else _] => destruct (fails q)
           | |- context [if rejects ?q then _ else _] => destruct (rejects q)
           end;
    cbn [responded delivered fst snd sent db queries notifications];
    rewrite ?filter_app; cbn [filter is_budget_lookup]; rewrite ?app_nil_r;
    try (split; reflexivity).
  - rewrite (H body eq_refl).
    destruct (TransactionType_eq_dec income expense); [discriminate|].
    cbn [db queries notifications insert_into_transactions snd].
    rewrite filter_app. cbn [filter is_budget_lookup]. rewrite app_nil_r.
    split; reflexivity.
  - split; [reflexivity|].
    rewrite map_map. apply map_ext. intros n.
    destruct (Notification.id n =? id)%N; reflexivity.
Qed.

(** * Properties of the accounts *)

(** ** Hexadecimal text *)

Lemma hex_byte (b : Byte.byte) :
  unhex (hexDigit (Byte.to_N b / 16)) = Some (Byte.to_N b / 16)%N
  /\ unhex (hexDigit (Byte.to_N b mod 16)) = Some (Byte.to_N b mod 16)%N
  /\ byte_of_N (16 * (Byte.to_N b / 16) + Byte.to_N b mod 16) = b
  /\ Ascii.eqb (hexDigit (Byte.to_N b / 16)) "." = false
  /\ Ascii.eqb (hexDigit (Byte.to_N b mod 16)) "." = false.
Proof. destruct b; vm_compute; repeat split. Qed.

(** Decoding inverts encoding. *)
Lemma fromHex_toHex (buf : Buffer) : fromHex (toHex buf) = buf.
Proof.
  induction buf as [|b buf IH]; [reflexivity|].
  cbn [toHex fold_right fromHex]. fold (toHex buf).
  destruct (hex_byte b) as (H1 & H2 & H3 & _).
  rewrite H1, H2, H3, IH. reflexivity.
Qed.

Lemma toHex_lacks_dot (buf : Buffer) : lacks "." (toHex buf) = true.
Proof.
  induction buf as [|b buf IH]; [reflexivity|].
  cbn [toHex fold_right lacks]. fold (toHex buf).
  destruct (hex_byte b) as (_ & _ & _ & H4 & H5).
  rewrite H4, H5, IH. reflexivity.
Qed.

Lemma split_lacks (sep : ascii) (s : string) :
  lacks sep s = true -> split sep s = [s].
Proof.
  induction s as [|c s IH]; [reflexivity|].
  cbn [lacks split]. destruct (Ascii.eqb c sep); [discriminate|].
  cbn [negb andb]. intros H. rewrite (IH H). reflexivity.
Qed.

Lemma split_at_first (sep : ascii) (s t : string) :
  lacks sep s = true ->
  split sep (s ++ String sep t) = s :: split sep t.
Proof.
  induction s as [|c s IH]; cbn [lacks split append].
  - rewrite Ascii.eqb_refl. reflexivity.
  - destruct (Ascii.eqb c sep); [discriminate|].
    cbn [negb andb]. intros H. rewrite (IH H). reflexivity.
Qed.

Lemma split_nonempty (sep : ascii) (s : string) : split sep s <> [].
Proof.
  destruct s as [|c s]; cbn [split]; [discriminate|].
  destruct (Ascii.eqb c sep); [discriminate|].
  destruct (split sep s); discriminate.
Qed.

Lemma Buffer_eqb_eq (a b : Buffer) : Buffer_eqb a b = true <-> a = b.
Proof.
  unfold Buffer_eqb. revert b.
  induction a as [|x a IH]; intros [|y b]; cbn [List.length combine forallb fst snd];
    try (split; [discriminate|discriminate]); [split; reflexivity|].
  cbn [Nat.eqb]. split.
  - intros H. apply andb_prop in H as (Hl & H). apply andb_prop in H as (Hx & H).
    apply Byte.byte_dec_bl in Hx. subst y. f_equal. apply IH.
    rewrite Hl, H. reflexivity.
  - intros H. inversion H; subst.
    pose proof (proj2 (IH b) eq_refl) as H'.
    apply andb_prop in H' as (Hl & H'). rewrite Hl, H'.
    rewrite (Byte.byte_dec_lb (eq_refl _)). reflexivity.
Qed.

Section AccountProperties.

Variable scrypt : string -> string -> nat -> Buffer.
Variable refused : AccountStatement -> option PgError.t.

(** [scrypt] returns a key of the length asked for. *)
Hypothesis scrypt_length :
  forall password salt keylen, List.length (scrypt password salt keylen) = keylen.

(** A stored password [<hex of hashed>.<salt>] is compared to the key of the
    supplied password under that salt. *)
Lemma comparePasswords_well_formed (supplied salt : string) (hashed : Buffer) :
  List.length hashed = 64%nat ->
  comparePasswords scrypt supplied (toHex hashed ++ "." ++ salt) =
  inl (Buffer_eqb hashed (scrypt supplied (nth 0 (split "." salt) EmptyString) 64)).
Proof.
  intros L. unfold comparePasswords. cbv zeta.
  change (toHex hashed ++ "." ++ salt) with (toHex hashed ++ String "." salt).
  rewrite split_at_first by apply toHex_lacks_dot.
  cbn [nth nth_error]. rewrite fromHex_toHex.
  destruct (split "." salt) as [|s0 rest] eqn:E;
    [exfalso; exact (split_nonempty _ _ E)|].
  cbn [nth_error nth scryptAsync]. unfold timingSafeEqual.
  rewrite L, scrypt_length. reflexivity.
Qed.

(** A password is compared with a hash of [hashPassword] by the keys. *)
Lemma comparePasswords_hashed random password supplied :
  comparePasswords scrypt supplied (hashPassword scrypt random password) =
  inl (Buffer_eqb (scrypt password (toHex random) 64)
                  (scrypt supplied (toHex random) 64)).
Proof.
  unfold hashPassword. cbv zeta.
  rewrite comparePasswords_well_formed by apply scrypt_length.
  rewrite split_lacks by apply toHex_lacks_dot. reflexivity.
Qed.

(** X17.  A password is accepted against its own hash, and another
    password only when [scrypt] gives it the same key: for every salt
    [hashPassword] draws, [comparePasswords] returns, without throwing,
    whether the keys of the two passwords under that salt are equal. *)
Theorem X17_password_hash_round_trip random password supplied :
  comparePasswords scrypt password (hashPassword scrypt random password) = inl true
  /\ exists accepted,
       comparePasswords scrypt supplied (hashPassword scrypt random password) =
       inl accepted
       /\ (accepted = true <->
           scrypt supplied (toHex random) 64 = scrypt password (toHex random) 64).
Proof.
  split.
  - rewrite comparePasswords_hashed. f_equal. apply Buffer_eqb_eq. reflexivity.
  - eexists. split; [apply comparePasswords_hashed|].
    rewrite Buffer_eqb_eq. split; congruence.
Qed.

(** ** The constraint named by an error detail *)

Lemma until_close_step (c : ascii) (s : string) :
  Ascii.eqb c ")" = false -> Ascii.eqb c (ascii_of_N 10) = false ->
  Ascii.eqb c (ascii_of_N 13) = false -> Ascii.eqb c (ascii_of_N 226) = false ->
  until_close (String c s) = option_map (String c) (until_close s).
Proof.
  intros H1 H2 H3 H4. cbn [until_close]. rewrite H1, H2, H3, H4. cbn [orb andb].
  destruct s as [|c1 [|c2 r]]; reflexivity.
Qed.

Lemma until_close_plain (column rest : string) :
  plain column = true ->
  until_close (column ++ String ")" rest) = Some column.
Proof.
  unfold plain. induction column as [|c column IH]; [reflexivity|].
  cbn [lacks append]. rewrite !andb_true_iff, !negb_true_iff.
  intros ((((H1 & L1) & (H2 & L2)) & (H3 & L3)) & (H4 & L4)).
  rewrite until_close_step by assumption.
  rewrite IH by (rewrite L1, L2, L3, L4; reflexivity). reflexivity.
Qed.

(** The first group of [Key (column)=(value) already exists.] is the
    column, whatever the value. *)
Lemma first_group_key (column rest : string) :
  plain column = true ->
  first_group ("Key (" ++ column ++ String ")" rest) = Some column.
Proof.
  intros H. cbn [append first_group Ascii.eqb Bool.eqb].
  rewrite until_close_plain by exact H. reflexivity.
Qed.

Lemma unique_violation_detail (column value : string) :
  PgError.detail (unique_violation column value) =
  Some ("Key (" ++ column ++ String ")" ("=(" ++ value ++ ") already exists.")).
Proof.
  reflexivity.
Qed.

(** ** Registration and login *)

Lemma truthy_some (s : string) : s <> EmptyString -> truthy (Some s) = Some s.
Proof. intros H. cbn [truthy]. apply String.eqb_neq in H. rewrite H. reflexivity. Qed.

Lemma filter_none {A} (p : A -> bool) (l : list A) :
  existsb p l = false -> filter p l = [].
Proof.
  induction l as [|x l IH]; [reflexivity|].
  cbn [existsb filter]. destruct (p x); [discriminate|exact IH].
Qed.

Lemma createUser_created now insertUser a :
  refused (InsertIntoUsers insertUser) = None ->
  existsb (fun u => (User.username u =? InsertUser.username insertUser)%string)
          (users a) = false ->
  existsb (fun u => (User.email u =? InsertUser.email insertUser)%string)
          (users a) = false ->
  let user :=
    User.mk (next_user_id a) (InsertUser.username insertUser)
      (InsertUser.password insertUser) (InsertUser.email insertUser)
      (InsertUser.firstName insertUser) (InsertUser.lastName insertUser) now in
  createUser refused now insertUser a =
  (inl user,
   mkAccounts (users a ++ [user])%list (N.succ (next_user_id a))
     (output a ++ [InsertingUser insertUser] ++ [InsertedUser user])%list).
Proof.
  intros R U E. cbv zeta. unfold createUser, insert_into_users. cbv zeta.
  rewrite R. unfold console_log. cbn [users next_user_id output]. rewrite U, E.
  cbn [users next_user_id output]. rewrite <- app_assoc. reflexivity.
Qed.

Lemma createUser_duplicate now insertUser a :
  refused (InsertIntoUsers insertUser) = None ->
  (existsb (fun u => (User.username u =? InsertUser.username insertUser)%string)
           (users a) = true ->
   createUser refused now insertUser a =
   (inr (JsError "Username already exists."), console_log (InsertingUser insertUser) a))
  /\ (existsb (fun u => (User.username u =? InsertUser.username insertUser)%string)
              (users a) = false ->
      existsb (fun u => (User.email u =? InsertUser.email insertUser)%string)
              (users a) = true ->
      createUser refused now insertUser a =
      (inr (JsError "Email already exists."), console_log (InsertingUser insertUser) a)).
Proof.
  intros R. unfold createUser, insert_into_users. cbv zeta. rewrite R.
  cbn [console_log users next_user_id output].
  split; [intros U|intros U E]; rewrite U; [|rewrite E];
    cbn [unique_violation PgError.code PgError.detail String.eqb Ascii.eqb Bool.eqb];
    [change ("Key (" ++ "username" ++ ")=(" ++ InsertUser.username insertUser
             ++ ") already exists.")
       with ("Key (" ++ "username" ++ String ")"
               ("=(" ++ InsertUser.username insertUser ++ ") already exists."))
    |change ("Key (" ++ "email" ++ ")=(" ++ InsertUser.email insertUser
             ++ ") already exists.")
       with ("Key (" ++ "email" ++ String ")"
               ("=(" ++ InsertUser.email insertUser ++ ") already exists."))];
    rewrite first_group_key by reflexivity; reflexivity.
Qed.

(** X18.  A stored password that is not [<128 hexadecimal digits>.<salt>]
    makes every login of that user a server error: without a [.] the salt
    is [undefined] and [scrypt] throws, with a hash part that decodes to
    another length than 64 [timingSafeEqual] throws; the verify callback
    passes the error on, and the route logs it and answers 500, whatever the
    password. *)
Theorem X18_malformed_hash_is_a_server_error
    sessionError username password user a :
  username <> EmptyString -> password <> EmptyString ->
  refused (SelectUserByUsername username) = None ->
  hd_error (filter (fun u => (User.username u =? username)%string) (users a)) = Some user ->
  lacks "." (User.password user) = true
  \/ (exists hashed salt,
        User.password user = hashed ++ String "." salt
        /\ lacks "." hashed = true
        /\ List.length (fromHex hashed) <> 64%nat) ->
  exists err,
    (err = TypeError \/ err = RangeError)
    /\ post_login scrypt refused sessionError (Some username) (Some password) a =
       (ReplyError 500 "Internal server error",
        console_log (LoggedError "Login error:" err) a).
Proof.
  intros Hu Hp R F M.
  unfold post_login. rewrite !truthy_some by assumption.
  unfold verify, getUserByUsername, select_user. rewrite R, F.
  unfold comparePasswords. cbv zeta.
  destruct M as [M|(hashed & salt & E & L & N)].
  - exists TypeError. split; [left; reflexivity|].
    rewrite split_lacks by exact M. reflexivity.
  - exists RangeError. split; [right; reflexivity|].
    rewrite E, split_at_first by exact L.
    destruct (split "." salt) as [|s0 rest] eqn:Es;
      [exfalso; exact (split_nonempty _ _ Es)|].
    cbn [nth nth_error scryptAsync]. unfold timingSafeEqual.
    rewrite scrypt_length.
    apply Nat.eqb_neq in N. rewrite N. reflexivity.
Qed.

(** X19.  Registration and login agree.  A registration with five
    non-empty fields, a free user name and a free email address, which the
    database accepts, answers 201 with the new row, whose password is the
    hash; the same user name and password then log in with 200 and that row;
    a password with another key, and a user name nobody has, both get the
    one answer 401 "Invalid username or password", and nothing is logged. *)
Theorem X19_register_then_login
    now random username password email firstName lastName a :
  username <> EmptyString -> password <> EmptyString -> email <> EmptyString ->
  firstName <> EmptyString -> lastName <> EmptyString ->
  let body :=
    RegisterBody.mk (Some username) (Some password) (Some email)
                    (Some firstName) (Some lastName) in
  let hashedPassword := hashPassword scrypt random password in
  refused (InsertIntoUsers
             (InsertUser.mk username hashedPassword email firstName lastName)) = None ->
  existsb (fun u => (User.username u =? username)%string) (users a) = false ->
  existsb (fun u => (User.email u =? email)%string) (users a) = false ->
  let r := post_register scrypt refused now random None body a in
  let user :=
    User.mk (next_user_id a) username hashedPassword email firstName lastName now in
  fst r = ReplyUser 201 user
  /\ users (snd r) = (users a ++ [user])%list
  /\ (refused (SelectUserByUsername username) = None ->
      post_login scrypt refused None (Some username) (Some password) (snd r) =
      (ReplyUser 200 user, snd r)
      /\ forall sessionError other,
           other <> EmptyString ->
           scrypt other (toHex random) 64 <> scrypt password (toHex random) 64 ->
           post_login scrypt refused sessionError (Some username) (Some other) (snd r) =
           (ReplyError 401 "Invalid username or password", snd r))
  /\ (forall sessionError stranger,
        stranger <> EmptyString ->
        refused (SelectUserByUsername stranger) = None ->
        stranger <> username ->
        existsb (fun u => (User.username u =? stranger)%string) (users a) = false ->
        post_login scrypt refused sessionError (Some stranger) (Some password) (snd r) =
        (ReplyError 401 "Invalid username or password", snd r)).
Proof.
  intros Hu Hp He Hf Hl. cbv zeta. intros R U E.
  unfold post_register. cbn [RegisterBody.username RegisterBody.password
    RegisterBody.email RegisterBody.firstName RegisterBody.lastName].
  rewrite !truthy_some by assumption. cbv zeta.
  rewrite createUser_created by assumption. cbv zeta.
  cbn [fst snd users InsertUser.username InsertUser.password InsertUser.email
       InsertUser.firstName InsertUser.lastName].
  split; [reflexivity|]. split; [reflexivity|]. split.
  - intros S.
    assert (V : forall p,
               verify scrypt refused username p
                 (mkAccounts
                    (users a ++
                     [User.mk (next_user_id a) username
                        (hashPassword scrypt random password) email firstName
                        lastName now])%list
                    (N.succ (next_user_id a))
                    (output a ++
                     [InsertingUser
                        (InsertUser.mk username (hashPassword scrypt random password)
                           email firstName lastName)] ++
                     [InsertedUser
                        (User.mk (next_user_id a) username
                           (hashPassword scrypt random password) email firstName
                           lastName now)])%list) =
               match comparePasswords scrypt p (hashPassword scrypt random password) with
               | inr err => DoneError err
               | inl false => DoneFalse (Some "Invalid username or password")
               | inl true =>
                   DoneUser (User.mk (next_user_id a) username
                               (hashPassword scrypt random password) email firstName
                               lastName now)
               end).
    { intros p. unfold verify, getUserByUsername, select_user. rewrite S.
      cbn [users]. rewrite filter_app, (filter_none _ _ U). cbn [filter app User.username].
      rewrite String.eqb_refl. reflexivity. }
    split.
    + unfold post_login. rewrite !truthy_some by assumption. rewrite V.
      rewrite comparePasswords_hashed.
      rewrite (proj2 (Buffer_eqb_eq _ _) eq_refl). reflexivity.
    + intros sessionError other Ho Hk.
      unfold post_login. rewrite !truthy_some by assumption. rewrite V.
      rewrite comparePasswords_hashed.
      destruct (Buffer_eqb _ _) eqn:B; [|reflexivity].
      apply Buffer_eqb_eq in B. exfalso. apply Hk. symmetry. exact B.
  - intros sessionError stranger Hs S Hn Us.
    unfold post_login. rewrite !truthy_some by assumption.
    unfold verify, getUserByUsername, select_user. rewrite S.
    cbn [users]. rewrite filter_app, (filter_none _ _ Us). cbn [filter app User.username].
    apply not_eq_sym in Hn. apply String.eqb_neq in Hn. rewrite Hn. reflexivity.
Qed.

(** X20.  A taken user name or email address is a 400, not a 500: the
    unique violation of the insert becomes "Username already exists." or
    "Email already exists.", which the route sends with status 400; the
    users table is as before and no error is logged. *)
Theorem X20_duplicate_accounts_are_refused
    now random sessionError username password email firstName lastName a :
  username <> EmptyString -> password <> EmptyString -> email <> EmptyString ->
  firstName <> EmptyString -> lastName <> EmptyString ->
  let body :=
    RegisterBody.mk (Some username) (Some password) (Some email)
                    (Some firstName) (Some lastName) in
  let insertUser :=
    InsertUser.mk username (hashPassword scrypt random password) email firstName
                  lastName in
  refused (InsertIntoUsers insertUser) = None ->
  let r := post_register scrypt refused now random sessionError body a in
  let taken_name := existsb (fun u => (User.username u =? username)%string) (users a) in
  let taken_email := existsb (fun u => (User.email u =? email)%string) (users a) in
  (taken_name = true -> taken_email = false ->
   r = (ReplyError 400 "Username already exists.",
        console_log (InsertingUser insertUser) a))
  /\ (taken_name = false -> taken_email = true ->
      r = (ReplyError 400 "Email already exists.",
           console_log (InsertingUser insertUser) a))
  /\ (taken_name = true \/ taken_email = true ->
      users (snd r) = users a
      /\ exists message,
           fst r = ReplyError 400 message
           /\ (message = "Username already exists."
               \/ message = "Email already exists.")).
Proof.
  intros Hu Hp He Hf Hl. cbv zeta. intros R.
  unfold post_register. cbn [RegisterBody.username RegisterBody.password
    RegisterBody.email RegisterBody.firstName RegisterBody.lastName].
  rewrite !truthy_some by assumption. cbv zeta.
  destruct (createUser_duplicate now _ a R) as (D1 & D2).
  cbn [InsertUser.username InsertUser.email] in D1, D2.
  split; [|split].
  - intros U _. rewrite (D1 U). reflexivity.
  - intros U E. rewrite (D2 U E). reflexivity.
  - intros T.
    destruct (existsb (fun u => (User.username u =? username)%string) (users a)) eqn:U.
    + rewrite (D1 eq_refl). split; [reflexivity|].
      eexists. split; [reflexivity|left; reflexivity].
    + destruct T as [T|T]; [discriminate T|].
      rewrite (D2 eq_refl T). split; [reflexivity|].
      eexists. split; [reflexivity|right; reflexivity].
Qed.

(** X21.  A registration that lacks one of the five fields, or has an
    empty one, is answered 400 "All fields are required." before anything
    else happens: no password is hashed, no statement sent, nothing logged. *)
Theorem X21_registration_needs_every_field now random sessionError body a :
  truthy (RegisterBody.username body) = None
  \/ truthy (RegisterBody.password body) = None
  \/ truthy (RegisterBody.email body) = None
  \/ truthy (RegisterBody.firstName body) = None
  \/ truthy (RegisterBody.lastName body) = None ->
  post_register scrypt refused now random sessionError body a =
  (ReplyError 400 "All fields are required.", a).
Proof.
  intros H. unfold post_register.
  destruct (truthy (RegisterBody.username body)),
           (truthy (RegisterBody.password body)),
           (truthy (RegisterBody.email body)),
           (truthy (RegisterBody.firstName body)),
           (truthy (RegisterBody.lastName body));
    try reflexivity.
  destruct H as [H|[H|[H|[H|H]]]]; discriminate H.
Qed.

(** X22.  A registration can fail after the account was created.  When
    [req.login] reports an error, the error handler answers with the error's
    status (500 when it has none) and message, but the row is already in the
    users table; the same registration sent again is then refused with 400
    and "Username already exists." or "Email already exists.". *)
Theorem X22_failed_session_leaves_the_account
    now random err username password email firstName lastName a :
  username <> EmptyString -> password <> EmptyString -> email <> EmptyString ->
  firstName <> EmptyString -> lastName <> EmptyString ->
  let body :=
    RegisterBody.mk (Some username) (Some password) (Some email)
                    (Some firstName) (Some lastName) in
  let insertUser random :=
    InsertUser.mk username (hashPassword scrypt random password) email firstName
                  lastName in
  refused (InsertIntoUsers (insertUser random)) = None ->
  existsb (fun u => (User.username u =? username)%string) (users a) = false ->
  existsb (fun u => (User.email u =? email)%string) (users a) = false ->
  let r := post_register scrypt refused now random (Some err) body a in
  fst r =
    ReplyMessage
      (status_or (SessionError.status err) (status_or (SessionError.statusCode err) 500))
      (message_or (Some (SessionError.message err)) "Internal Server Error")
  /\ users (snd r) =
     (users a ++ [User.mk (next_user_id a) username (hashPassword scrypt random password)
                    email firstName lastName now])%list
  /\ forall now' random' sessionError,
       refused (InsertIntoUsers (insertUser random')) = None ->
       exists message,
         fst (post_register scrypt refused now' random' sessionError body (snd r)) =
         ReplyError 400 message
         /\ (message = "Username already exists."
             \/ message = "Email already exists.").
Proof.
  intros Hu Hp He Hf Hl. cbv zeta. cbv beta. intros R U E.
  assert (Er : post_register scrypt refused now random (Some err)
                 (RegisterBody.mk (Some username) (Some password) (Some email)
                    (Some firstName) (Some lastName)) a =
               errorHandler err
                 (mkAccounts
                    (users a ++
                     [User.mk (next_user_id a) username
                        (hashPassword scrypt random password) email firstName lastName
                        now])%list
                    (N.succ (next_user_id a))
                    (output a ++
                     [InsertingUser
                        (InsertUser.mk username (hashPassword scrypt random password)
                           email firstName lastName)] ++
                     [InsertedUser
                        (User.mk (next_user_id a) username
                           (hashPassword scrypt random password) email firstName
                           lastName now)])%list)).
  { unfold post_register. cbn [RegisterBody.username RegisterBody.password
      RegisterBody.email RegisterBody.firstName RegisterBody.lastName].
    rewrite !truthy_some by assumption. cbv zeta.
    rewrite createUser_created by assumption. reflexivity. }
  rewrite Er. unfold errorHandler, console_log. cbv zeta. cbn [fst snd users].
  split; [reflexivity|]. split; [reflexivity|].
  intros now' random' sessionError R'.
  unfold post_register. cbn [RegisterBody.username RegisterBody.password
    RegisterBody.email RegisterBody.firstName RegisterBody.lastName].
  rewrite !truthy_some by assumption. cbv zeta.
  match goal with
  | |- context [createUser refused now' ?iu ?acc] =>
      destruct (createUser_duplicate now' iu acc R') as (D & _); rewrite D
  end; [eexists; split; [reflexivity|left; reflexivity]|].
  cbn [users InsertUser.username]. rewrite existsb_app. cbn [existsb User.username].
  rewrite String.eqb_refl, orb_true_r. reflexivity.
Qed.

(** X23.  Which constraint a unique violation names is read from the first
    parenthesised group of the error detail, whatever value follows it.  For
    a detail [Key (column)=(value) already exists.] on any other column than
    [username] and [email], [createUser] throws "Unique constraint
    violation.", and the route logs it and answers 500. *)
Theorem X23_other_unique_violations_are_server_errors
    now random sessionError username password email firstName lastName
    column value message a :
  username <> EmptyString -> password <> EmptyString -> email <> EmptyString ->
  firstName <> EmptyString -> lastName <> EmptyString ->
  plain column = true -> column <> "username" -> column <> "email" ->
  let body :=
    RegisterBody.mk (Some username) (Some password) (Some email)
                    (Some firstName) (Some lastName) in
  let insertUser :=
    InsertUser.mk username (hashPassword scrypt random password) email firstName
                  lastName in
  refused (InsertIntoUsers insertUser) =
    Some (PgError.mk "23505"
            (Some ("Key (" ++ column ++ ")=(" ++ value ++ ") already exists."))
            message) ->
  createUser refused now insertUser a =
    (inr (JsError "Unique constraint violation."),
     console_log (InsertingUser insertUser) a)
  /\ post_register scrypt refused now random sessionError body a =
     (ReplyError 500 "Internal server error.",
      console_log (LoggedError "Error during registration:"
                     (JsError "Unique constraint violation."))
        (console_log (InsertingUser insertUser) a)).
Proof.
  intros Hu Hp He Hf Hl Hc Hn1 Hn2. cbv zeta. intros R.
  assert (C : createUser refused now
                (InsertUser.mk username (hashPassword scrypt random password) email
                   firstName lastName) a =
              (inr (JsError "Unique constraint violation."),
               console_log
                 (InsertingUser
                    (InsertUser.mk username (hashPassword scrypt random password) email
                       firstName lastName)) a)).
  { unfold createUser, insert_into_users. cbv zeta. rewrite R.
    cbn [PgError.code PgError.detail String.eqb Ascii.eqb Bool.eqb].
    change ("Key (" ++ column ++ ")=(" ++ value ++ ") already exists.")
      with ("Key (" ++ column ++ String ")" ("=(" ++ value ++ ") already exists.")).
    rewrite first_group_key by exact Hc. cbn [is_text].
    apply String.eqb_neq in Hn1, Hn2. rewrite Hn1, Hn2. reflexivity. }
  split; [exact C|].
  unfold post_register. cbn [RegisterBody.username RegisterBody.password
    RegisterBody.email RegisterBody.firstName RegisterBody.lastName].
  rewrite !truthy_some by assumption. cbv zeta. rewrite C. reflexivity.
Qed.

(** ** The accounts over time *)

Lemma truthy_spec (v : option string) (s : string) :
  truthy v = Some s -> v = Some s /\ s <> EmptyString.
Proof.
  destruct v as [t|]; cbn [truthy]; [|discriminate].
  destruct (t =? EmptyString)%string eqn:E; [discriminate|].
  intros H. inversion H; subst. split; [reflexivity|]. apply String.eqb_neq, E.
Qed.

Lemma NoDup_map_snoc {A B} (f : A -> B) (eqb : B -> B -> bool) (l : list A) (x : A) :
  (forall a b, eqb a b = true <-> a = b) ->
  existsb (fun y => eqb (f y) (f x)) l = false ->
  NoDup (map f l) -> NoDup (map f (l ++ [x])).
Proof.
  intros Heq Hx Hd. rewrite map_app. cbn [map].
  apply (Permutation_NoDup (l := f x :: map f l));
    [apply Permutation_cons_append|].
  constructor; [|exact Hd]. intros Hin.
  apply in_map_iff in Hin as (y & Hy & Hin).
  assert (E : existsb (fun y => eqb (f y) (f x)) l = true)
    by (apply existsb_exists; exists y; split; [exact Hin|apply Heq, Hy]).
  rewrite E in Hx. discriminate.
Qed.

(** What a registration does to the users table. *)
Lemma post_register_users now random sessionError body a :
  let a' := snd (post_register scrypt refused now random sessionError body a) in
  users a' = users a
  \/ exists username password email firstName lastName,
       existsb (fun u => (User.username u =? username)%string) (users a) = false
       /\ existsb (fun u => (User.email u =? email)%string) (users a) = false
       /\ users a' =
          (users a ++ [User.mk (next_user_id a) username
                         (hashPassword scrypt random password) email firstName lastName
                         now])%list.
Proof.
  cbv zeta. unfold post_register.
  destruct (truthy (RegisterBody.username body)) as [username|]; [|left; reflexivity].
  destruct (truthy (RegisterBody.password body)) as [password|]; [|left; reflexivity].
  destruct (truthy (RegisterBody.email body)) as [email|]; [|left; reflexivity].
  destruct (truthy (RegisterBody.firstName body)) as [firstName|]; [|left; reflexivity].
  destruct (truthy (RegisterBody.lastName body)) as [lastName|]; [|left; reflexivity].
  cbv zeta.
  set (insertUser := InsertUser.mk username (hashPassword scrypt random password) email
                       firstName lastName).
  destruct (refused (InsertIntoUsers insertUser)) as [e|] eqn:R.
  - left. unfold createUser, insert_into_users. cbv zeta. rewrite R.
    destruct (PgError.code e =? "23505")%string;
      [destruct (PgError.detail e)|];
      repeat match goal with
             | |- context [if ?b then _ else _] => destruct b
             end; reflexivity.
  - destruct (createUser_duplicate now insertUser a R) as (D1 & D2).
    cbn [insertUser InsertUser.username InsertUser.email] in D1, D2.
    destruct (existsb (fun u => (User.username u =? username)%string) (users a)) eqn:U;
      [left; rewrite (D1 eq_refl); reflexivity|].
    destruct (existsb (fun u => (User.email u =? email)%string) (users a)) eqn:E;
      [left; rewrite (D2 eq_refl eq_refl); reflexivity|].
    right. exists username, password, email, firstName, lastName.
    split; [exact U|]. split; [exact E|].
    rewrite (createUser_created now insertUser a R U E). cbv zeta.
    destruct sessionError; reflexivity.
Qed.

(** X27.  Registrations keep the accounts sound, whatever the bodies, the
    salts, the session errors and the statements the database refuses: user
    names stay unique, email addresses stay unique, and every stored
    password is one that [hashPassword] made. *)
Theorem X27_registrations_keep_accounts_sound now random sessionError body a :
  sound_accounts scrypt a ->
  sound_accounts scrypt
    (snd (post_register scrypt refused now random sessionError body a)).
Proof.
  intros (Hn & He & Hh).
  destruct (post_register_users now random sessionError body a)
    as [E|(username & password & email & firstName & lastName & U & M & E)];
    unfold sound_accounts; rewrite E; [repeat split; assumption|].
  split; [|split].
  - apply (NoDup_map_snoc User.username String.eqb);
      [apply String.eqb_eq|exact U|exact Hn].
  - apply (NoDup_map_snoc User.email String.eqb);
      [apply String.eqb_eq|exact M|exact He].
  - apply Forall_app. split; [exact Hh|].
    constructor; [|constructor]. exists random, password. reflexivity.
Qed.

(** X28.  On sound accounts a login is never a server error of its own:
    when the user lookup is accepted and the session is stored, the answer
    is 200 with a row of the users table that has the user name given, or
    401 with "Invalid username or password" or "Missing credentials"; the
    accounts are as before and nothing is logged. *)
Theorem X28_logins_answer_200_or_401 username password a :
  sound_accounts scrypt a ->
  (forall name, refused (SelectUserByUsername name) = None) ->
  exists reply,
    post_login scrypt refused None username password a = (reply, a)
    /\ (reply = ReplyError 401 "Missing credentials"
        \/ reply = ReplyError 401 "Invalid username or password"
        \/ exists user,
             reply = ReplyUser 200 user
             /\ In user (users a)
             /\ username = Some (User.username user)).
Proof.
  intros (_ & _ & Hh) R. unfold post_login.
  destruct (truthy username) as [name|] eqn:Tu;
    [|eexists; split; [destruct (truthy password); reflexivity|left; reflexivity]].
  destruct (truthy password) as [pw|] eqn:Tp;
    [|eexists; split; [reflexivity|left; reflexivity]].
  apply truthy_spec in Tu as (Eu & _).
  unfold verify, getUserByUsername, select_user. rewrite R.
  destruct (filter (fun u => (User.username u =? name)%string) (users a))
    as [|user rest] eqn:F;
    [eexists; split; [reflexivity|right; left; reflexivity]|].
  assert (Hin : In user (filter (fun u => (User.username u =? name)%string) (users a)))
    by (rewrite F; left; reflexivity).
  apply filter_In in Hin as (Hin & Hname). apply String.eqb_eq in Hname.
  cbn [hd_error].
  destruct (proj1 (Forall_forall _ _) Hh user Hin) as (random & original & Ep).
  rewrite Ep, comparePasswords_hashed.
  destruct (Buffer_eqb _ _); eexists; (split; [reflexivity|]).
  - right. right. exists user. split; [reflexivity|]. split; [exact Hin|]. congruence.
  - right. left. reflexivity.
Qed.

End AccountProperties.

(** ** The request log line *)

(** X24.  A log line of more than 80 code units is cut to its first 79 and
    the suffix of the source file, which has three code units: the line
    logged then has 82, more than the 80 the test allows; a line of at most
    80 is logged as it is, and a path outside [/api] logs nothing. *)
Theorem X24_long_log_lines_have_82_units method path statusCode duration captured :
  let full := fullLine method path statusCode duration captured in
  match logLine method path statusCode duration captured with
  | None => startsWith path (units "/api") = false
  | Some line =>
      startsWith path (units "/api") = true
      /\ ((List.length full <= 80)%nat -> line = full)
      /\ ((80 < List.length full)%nat ->
          List.length line = 82%nat /\ firstn 79 line = firstn 79 full)
  end.
Proof.
  cbv zeta. unfold logLine.
  destruct (startsWith path (units "/api")); [|reflexivity].
  split; [reflexivity|].
  set (full := fullLine method path statusCode duration captured).
  destruct (80 <? List.length full)%nat eqn:L.
  - apply Nat.ltb_lt in L. split; [lia|]. intros _. split.
    + rewrite length_app, length_firstn. cbn [shortened List.length]. lia.
    + rewrite firstn_app, length_firstn.
      replace (79 - Nat.min 79 (List.length full))%nat with 0%nat by lia.
      rewrite firstn_O, app_nil_r, firstn_firstn. reflexivity.
  - apply Nat.ltb_ge in L. split; [reflexivity|lia].
Qed.
End Server.

(** * The scenarios, on the example data *)


(** Spending of exactly 80.0 percent alerts, of 79.99 percent does nothing,
    of exactly 100 percent is "Budget Exceeded" and not "Budget Alert". *)
Example thresholds_at_the_boundaries :
  map Notification.message
    (notifications
       (db (snd (checkBudgetAlerts no_faults oneDecimal oneDecimal alice Food 6 2024
                   (spent_world food_budget 80000))))) =
  ["You've spent 80.0% of your Food budget this month (₹800.0 of ₹1000.0)"]
  /\ notifications
       (db (snd (checkBudgetAlerts no_faults oneDecimal oneDecimal alice Food 6 2024
                   (spent_world food_budget 79990)))) = []
  /\ map Notification.title
       (notifications
          (db (snd (checkBudgetAlerts no_faults oneDecimal oneDecimal alice Food 6 2024
                      (spent_world food_budget 100000))))) =
     ["Budget Exceeded - Food"].
Proof. vm_compute. repeat split. Qed.

(** The percentage is the binary64 value: 4.52 / 5.65 * 100 evaluates to the
    double just below 80, so an expense of 4.52 against a budget of 5.65 falls
    in the case [percentage < 80]. *)
Example percentage_is_rounded :
  PrimFloat.ltb (percentage (Num.parseFloat 452) (Num.parseFloat 565)) 80%float = true
  /\ notifications
       (db (snd (checkBudgetAlerts no_faults oneDecimal oneDecimal alice Food 6 2024
                   (spent_world
                      (Budget.mk 10%N alice Food 565 6 2024 mid_june_2024) 452)))) = [].
Proof. vm_compute. split; reflexivity. Qed.

(** Of Alice's six rows and Bob's one, the two Food expenses of June count. *)
Lemma C2_witness :
  (forall q, no_faults q = false)
  /\ 1 <= 6 <= 12 /\ 100 <= 2024
  /\ budgetFor alice Food 6 2024 (db mixed_world) = Some food_budget
  /\ Permutation (monthRows alice Food 6 2024 (db mixed_world))
       (filter (counts_towards alice Food 6 2024) mixed_rows)
  /\ filter (counts_towards alice Food 6 2024) mixed_rows =
     [nth 0 mixed_rows bob_transaction; nth 5 mixed_rows bob_transaction].
Proof.
  split; [reflexivity|]. split; [lia|]. split; [lia|]. split; [reflexivity|].
  split; [|reflexivity].
  assert (Hm : 1 <= 6 <= 12) by lia. assert (Hy : 100 <= 2024) by lia.
  destruct (C2_total_spent_scope no_faults oneDecimal oneDecimal alice Food 6 2024
              food_budget mixed_world (fun _ => eq_refl) Hm Hy eq_refl)
    as (_ & P & _).
  exact P.
Defined.

(** No Travel budget exists: creating a Travel expense creates no
    notification. *)
Lemma C3_witness :
  budgetFor alice Travel 6 2024 (db food_world) = None
  /\ notifications
       (db (snd (post_transactions no_faults oneDecimal oneDecimal (Some alice)
                   (Some travel_expense) food_world))) = [].
Proof.
  split; [reflexivity|].
  destruct (C3_no_budget_is_no_op no_faults oneDecimal oneDecimal alice Travel 6 2024
              food_world eq_refl) as (_ & _ & _ & _ & H).
  exact (H travel_expense eq_refl eq_refl eq_refl eq_refl).
Defined.

(** An expense dated 25 December 2023, created on 15 June 2024, is evaluated
    against the budget of June 2024, once. *)
Lemma C4_witness :
  no_faults (InsertIntoTransactions alice backdated_expense) = false
  /\ InsertTransaction.type backdated_expense = expense
  /\ filter is_budget_lookup
       (queries (snd (post_transactions no_faults oneDecimal oneDecimal (Some alice)
                        (Some backdated_expense) food_world))) =
     [SelectBudgetByCategory alice Food 6 2024].
Proof.
  split; [reflexivity|]. split; [reflexivity|].
  destruct (C4_evaluator_runs_once_for_expenses no_faults oneDecimal oneDecimal alice
              backdated_expense food_world eq_refl) as (H & _).
  destruct (H eq_refl) as (_ & L). rewrite L. reflexivity.
Defined.

(** The database rejects the insert of the notification: the route still
    answers 201, the expense is stored, the error is logged. *)
Lemma C5_witness :
  reject_notifications (InsertIntoTransactions alice expense_850) = false
  /\ InsertTransaction.type expense_850 = expense
  /\ (let r := post_transactions reject_notifications oneDecimal oneDecimal
                 (Some alice) (Some expense_850) food_world in
      fst r =
        Returned (StatusJson 201
                    (JsonTransaction
                       (fst (insert_into_transactions mid_june_2024 alice expense_850
                               (db food_world)))))
      /\ List.length (transactions (db (snd r))) = 1%nat
      /\ List.length (console (snd r)) = 1%nat
      /\ notifications (db (snd r)) = []).
Proof.
  split; [reflexivity|]. split; [reflexivity|]. cbv zeta.
  destruct (C5_evaluator_failures_do_not_surface reject_notifications oneDecimal
              oneDecimal alice expense_850 food_world eq_refl eq_refl)
    as (R & T & _ & _ & N).
  split; [exact R|]. split; [rewrite T; reflexivity|].
  destruct (N food_budget
              (budgetAlert oneDecimal oneDecimal alice Food
                 85%float 850%float 1000%float)
              eq_refl eq_refl eq_refl eq_refl eq_refl) as (C & E).
  split; [rewrite C; reflexivity | exact E].
Defined.

(** The Food budget of 1000.00: an expense of 850.00 and then one of 200.00
    leave two notifications, "Budget Alert - Food" with 85.0% and "Budget
    Exceeded - Food" with the overage 50. *)
Lemma C7_witness :
  (forall q, no_faults q = false)
  /\ budgetFor alice Food 6 2024 (db food_world) = Some food_budget
  /\ map (fun n => (Notification.title n, Notification.message n))
       (notifications
          (db (snd (post_transactions no_faults oneDecimal oneDecimal (Some alice)
                      (Some expense_200)
                      (snd (post_transactions no_faults oneDecimal oneDecimal
                              (Some alice) (Some expense_850) food_world)))))) =
     [("Budget Alert - Food",
       "You've spent 85.0% of your Food budget this month (₹850.0 of ₹1000.0)");
      ("Budget Exceeded - Food", "You've exceeded your Food budget by ₹50.0")].
Proof.
  split; [reflexivity|]. split; [reflexivity|].
  destruct (C7_alerts_are_not_idempotent no_faults oneDecimal oneDecimal alice Food
              expense_850 expense_200 food_budget food_world (fun _ => eq_refl)
              eq_refl eq_refl eq_refl eq_refl eq_refl eq_refl eq_refl)
    as (_ & n1 & n2 & A1 & A2 & E).
  rewrite E. vm_compute in A1, A2. inversion A1. inversion A2. reflexivity.
Defined.

(** A Food budget of 0.00: an expense of 50.00 gives +infinity percent and
    "Budget Exceeded"; no expense gives NaN and nothing. *)
Lemma C10_witness :
  (forall q, no_faults q = false)
  /\ budgetFor alice Food 6 2024 (db (spent_world zero_budget 5000)) = Some zero_budget
  /\ Num.parseFloat (Budget.amount zero_budget) = 0%float
  /\ map Notification.title
       (notifications
          (db (snd (checkBudgetAlerts no_faults oneDecimal oneDecimal alice Food 6 2024
                      (spent_world zero_budget 5000))))) =
     ["Budget Exceeded - Food"]
  /\ notifications
       (db (snd (checkBudgetAlerts no_faults oneDecimal oneDecimal alice Food 6 2024
                   (spent_world zero_budget 0)))) = [].
Proof.
  split; [reflexivity|]. split; [reflexivity|]. split; [reflexivity|].
  split.
  - destruct (C10_zero_budget no_faults oneDecimal oneDecimal alice Food 6 2024
                zero_budget (spent_world zero_budget 5000) (fun _ => eq_refl)
                eq_refl eq_refl) as (_ & _ & H & _).
    destruct (H eq_refl) as (_ & E). rewrite E. reflexivity.
  - destruct (C10_zero_budget no_faults oneDecimal oneDecimal alice Food 6 2024
                zero_budget (spent_world zero_budget 0) (fun _ => eq_refl)
                eq_refl eq_refl) as (_ & _ & _ & H).
    destruct (H eq_refl) as (_ & _ & _ & _ & E). exact E.
Defined.


(** The trends of the same rows over six months: the bakery of 31 May in
    2024-05; in 2024-06 the refund as income and the market and the flight as
    expenses.  Bob's row is in no bucket, and the restaurant of 30 June, which
    is later than the clock, is in none either. *)
Example trends_of_mixed_rows :
  fst (getMonthlyTrends no_faults alice 6 mixed_world) =
  Returned [TrendRow.mk "2024-05" 0 9900; TrendRow.mk "2024-06" 50000 150000].
Proof. vm_compute. reflexivity. Qed.





(** * Scenarios for the further properties *)

(** Bob's Food expense leaves Alice's Food alert of June 2024 as it was. *)
Lemma X1_witness :
  bob <> alice
  /\ alertFor oneDecimal oneDecimal alice Food 6 2024 food_budget
       (db (snd (post_transactions no_faults oneDecimal oneDecimal (Some bob)
                   (Some expense_850) food_world))) =
     alertFor oneDecimal oneDecimal alice Food 6 2024 food_budget (db food_world).
Proof.
  assert (H : bob <> alice) by discriminate.
  split; [exact H|].
  destruct (X1_other_transactions_keep_the_alert no_faults oneDecimal oneDecimal
              alice Food 6 2024 food_budget bob expense_850 food_world
              (or_introl H)) as (_ & _ & E).
  exact E.
Defined.

(** The market expense of 1 June 2024, 00:00:00 is counted for June 2024. *)
Lemma X2_witness :
  1 <= 6 <= 12 /\ 100 <= 2024
  /\ counted alice Food 6 2024 (nth 0 mixed_rows bob_transaction) = true
  /\ 6 = 6 /\ 2024 = 2024.
Proof.
  assert (Hm : 1 <= 6 <= 12) by lia. assert (Hy : 100 <= 2024) by lia.
  split; [exact Hm|]. split; [exact Hy|]. split; [reflexivity|].
  exact (X2_month_ranges_disjoint alice Food alice Food 6 2024 6 2024
           (nth 0 mixed_rows bob_transaction) Hm Hy Hm Hy eq_refl eq_refl).
Defined.

(** An expense dated 30 June 2024, 23:59:59.500 counts neither for June nor
    for July. *)
Lemma X3_witness :
  1 <= 6 <= 12 /\ 100 <= 2024
  /\ monthEnd 2024 6 < Transaction.date last_second_expense < monthStart 2024 (6 + 1)
  /\ counted alice Food 6 2024 last_second_expense = false
  /\ counted alice Food 7 2024 last_second_expense = false.
Proof.
  assert (Hm : 1 <= 6 <= 12) by lia. assert (Hy : 100 <= 2024) by lia.
  assert (Ht : monthEnd 2024 6 < Transaction.date last_second_expense
               < monthStart 2024 (6 + 1)) by (vm_compute; split; reflexivity).
  split; [exact Hm|]. split; [exact Hy|]. split; [exact Ht|].
  destruct (X3_last_second_of_a_month_is_in_no_range 6 2024 last_second_expense
              Hm Hy Ht) as (_ & H).
  split; apply H; lia.
Defined.

(** Deleting a goal that does not exist answers 404 and writes nothing. *)
Lemma X6_witness :
  fst (handle no_faults oneDecimal oneDecimal no_rejects (Some alice)
         (DeleteGoals 99%N) food_world) =
  Some (Send (StatusJson 404 (JsonMessage "Goal not found")))
  /\ 400 <= 404
  /\ db (snd (handle no_faults oneDecimal oneDecimal no_rejects (Some alice)
                (DeleteGoals 99%N) food_world)) = db food_world.
Proof.
  split; [reflexivity|]. split; [lia|].
  destruct (X6_error_responses_write_nothing no_faults oneDecimal oneDecimal
              no_rejects (Some alice) (DeleteGoals 99%N) food_world
              (Send (StatusJson 404 (JsonMessage "Goal not found"))) eq_refl) as (E & _);
    [cbn; lia|exact E].
Defined.

(** After the busy day the goal Alice created is gone; a goal created after
    it still starts without progress. *)
Lemma X7_witness :
  Forall no_progress (goals (db food_world))
  /\ Forall no_progress
       (goals (db (serve no_faults oneDecimal oneDecimal no_rejects
                     (busy_day ++ [Call (Some bob) (PostGoals (Some laptop_goal))])
                     food_world)))
  /\ map Goal.userId
       (goals (db (serve no_faults oneDecimal oneDecimal no_rejects
                     (busy_day ++ [Call (Some bob) (PostGoals (Some laptop_goal))])
                     food_world))) = [bob].
Proof.
  assert (H : Forall no_progress (goals (db food_world))) by constructor.
  split; [exact H|]. split; [|vm_compute; reflexivity].
  exact (X7_goals_never_progress no_faults oneDecimal oneDecimal no_rejects
           (busy_day ++ [Call (Some bob) (PostGoals (Some laptop_goal))])
           food_world H).
Defined.

(** The busy day leaves the two Food alerts of Alice. *)
Lemma X8_witness :
  Forall (alert_row) (notifications (db food_world))
  /\ Forall (alert_row)
       (notifications (db (serve no_faults oneDecimal oneDecimal no_rejects busy_day
                             food_world)))
  /\ map Notification.title
       (notifications (db (serve no_faults oneDecimal oneDecimal no_rejects busy_day
                             food_world))) =
     ["Budget Alert - Food"; "Budget Exceeded - Food"].
Proof.
  assert (H : Forall alert_row (notifications (db food_world))) by constructor.
  split; [exact H|]. split; [|vm_compute; reflexivity].
  exact (X8_notifications_are_budget_alerts no_faults oneDecimal oneDecimal no_rejects
           busy_day food_world H).
Defined.

Lemma food_world_identified : well_identified (db food_world).
Proof.
  unfold well_identified, identified. cbn.
  repeat split; repeat constructor; try lia. intros [].
Qed.

(** The ids stay distinct over the busy day. *)
Lemma X9_witness :
  well_identified (db food_world)
  /\ well_identified
       (db (serve no_faults oneDecimal oneDecimal no_rejects busy_day food_world))
  /\ map Notification.id
       (notifications (db (serve no_faults oneDecimal oneDecimal no_rejects busy_day
                             food_world))) = [13%N; 15%N].
Proof.
  split; [exact food_world_identified|]. split; [|vm_compute; reflexivity].
  destruct (X9_ids_stay_distinct no_faults oneDecimal oneDecimal no_rejects busy_day
              food_world food_world_identified) as (W & _).
  exact W.
Defined.

(** Alice's requests on Bob's store delete his transaction and rename his
    goal, and add no row of his. *)
Lemma X10_witness :
  (In bob (callers alice_only) -> False)
  /\ incl (ownTransactions bob
             (db (serve no_faults oneDecimal oneDecimal no_rejects alice_only bob_world)))
          (ownTransactions bob (db bob_world))
  /\ ownTransactions bob
       (db (serve no_faults oneDecimal oneDecimal no_rejects alice_only bob_world)) = []
  /\ map (fun g => (Goal.userId g, Goal.title g))
       (goals (db (serve no_faults oneDecimal oneDecimal no_rejects alice_only bob_world)))
     = [(bob, "Used laptop"); (alice, "New laptop")].
Proof.
  assert (H : ~ In bob (callers alice_only))
    by (cbn; intros [E|[E|[E|[E|[E|[]]]]]]; discriminate E).
  split; [exact H|].
  destruct (X10_rows_are_created_for_the_caller_only no_faults oneDecimal oneDecimal
              no_rejects bob alice_only bob_world H) as (T & _).
  split; [exact T|]. split; vm_compute; reflexivity.
Defined.

(** Bob marks Alice's alert as read: 204, and the alert is read. *)
Lemma X11_witness :
  no_rejects (UpdateNotificationsSetRead 12%N) = false
  /\ fst (handle no_faults oneDecimal oneDecimal no_rejects (Some bob)
            (PutNotificationsRead 12%N) alerted_world) = Some (Send (SendStatus 204))
  /\ notifications
       (db (snd (handle no_faults oneDecimal oneDecimal no_rejects (Some bob)
                   (PutNotificationsRead 12%N) alerted_world))) = [set_read food_alert].
Proof.
  split; [reflexivity|].
  destruct (X11_mark_as_read_by_id_alone no_faults oneDecimal oneDecimal no_rejects
              bob 12%N alerted_world eq_refl) as (R & _ & S & _).
  split.
  - apply R. exists food_alert. split; [left|]; reflexivity.
  - rewrite S. reflexivity.
Defined.

(** Alice's unread notifications are then none. *)
Lemma X12_witness :
  no_rejects (UpdateNotificationsSetRead 12%N) = false
  /\ unreadCount (inbox alice (db alerted_world)) = 1%nat
  /\ unreadNotifications
       (inbox alice
          (db (snd (handle no_faults oneDecimal oneDecimal no_rejects (Some bob)
                      (PutNotificationsRead 12%N) alerted_world)))) = [].
Proof.
  split; [reflexivity|]. split; [reflexivity|].
  destruct (X12_mark_as_read_seen_by_the_client no_faults oneDecimal oneDecimal
              no_rejects bob 12%N alerted_world alice eq_refl) as (_ & U & _).
  rewrite U. reflexivity.
Defined.

(** Alice's expense of 850.00 against her Food budget of 1000.00: her list
    gains the unread alert, Bob's stays empty. *)
Lemma X13_witness :
  (forall q, no_faults q = false)
  /\ InsertTransaction.type expense_850 = expense
  /\ budgetFor alice Food 6 2024 (db food_world) = Some food_budget
  /\ unreadCount
       (inbox alice
          (db (snd (handle no_faults oneDecimal oneDecimal no_rejects (Some alice)
                      (PostTransactions (Some expense_850)) food_world)))) = 1%nat
  /\ inbox bob
       (db (snd (handle no_faults oneDecimal oneDecimal no_rejects (Some alice)
                   (PostTransactions (Some expense_850)) food_world))) = [].
Proof.
  split; [reflexivity|]. split; [reflexivity|]. split; [reflexivity|].
  destruct (X13_alert_reaches_the_owner no_faults oneDecimal oneDecimal no_rejects
              alice expense_850 food_world food_budget
              (budgetAlert oneDecimal oneDecimal alice Food 85%float 850%float 1000%float)
              (fun _ => eq_refl) eq_refl eq_refl eq_refl) as (_ & C & O).
  split; [rewrite C; reflexivity|].
  rewrite (O bob) by discriminate. reflexivity.
Defined.

(** A second Food budget for June 2024 is accepted next to the first. *)
Lemma X14_witness :
  no_rejects (InsertIntoBudgets alice second_food_budget) = false
  /\ map Budget.amount
       (budgets (db (snd (handle no_faults oneDecimal oneDecimal no_rejects (Some alice)
                            (PostBudgets (Some second_food_budget)) food_world)))) =
     [100000; 50000].
Proof.
  split; [reflexivity|].
  destruct (X14_budgets_are_not_unique no_faults oneDecimal oneDecimal no_rejects
              alice second_food_budget food_world eq_refl) as (_ & B & _).
  rewrite B. reflexivity.
Defined.

(** Alice's budgets of June 2024. *)
Lemma X15_witness :
  no_rejects (SelectBudgets alice (Some (6, 2024))) = false
  /\ exists rows,
       getBudgets no_rejects alice (Some 6) (Some 2024) food_world = (inl rows, food_world)
       /\ (In food_budget rows <->
           In food_budget (budgets (db food_world)) /\ Budget.userId food_budget = alice
           /\ Budget.month food_budget = 6 /\ Budget.year food_budget = 2024).
Proof.
  split; [reflexivity|].
  destruct (X15_budgets_of_the_month no_rejects alice 6 2024
              food_world eq_refl) as (rows & E & I & _).
  exists rows. split; [exact E|apply I].
Defined.

(** The two newest of Alice's five rows of [mixed_rows]. *)
Lemma X16_witness :
  0 <= or_else (Some 2) 50 <= 9223372036854775807
  /\ no_rejects (SelectTransactions alice (or_else (Some 2) 50)) = false
  /\ exists rows rest,
       getTransactions no_rejects alice (Some 2) mixed_world = (inl rows, mixed_world)
       /\ List.length rows = 2%nat
       /\ Permutation (rows ++ rest)
            (filter (fun t => (Transaction.userId t =? alice)%N) mixed_rows).
Proof.
  assert (Hk : 0 <= or_else (Some 2) 50 <= 9223372036854775807)
    by (split; vm_compute; discriminate).
  split; [exact Hk|]. split; [reflexivity|].
  destruct (X16_the_newest_transactions no_rejects alice (Some 2) mixed_world Hk eq_refl)
    as (rows & rest & E & P & L & _).
  exists rows, rest. split; [exact E|]. split; [rewrite L; reflexivity|exact P].
Defined.

Lemma toy_scrypt_length (password salt : string) (keylen : nat) :
  List.length (toy_scrypt password salt keylen) = keylen.
Proof. unfold toy_scrypt. rewrite length_map, length_seq. reflexivity. Qed.

(** The right password is accepted against its hash. *)
Lemma X17_witness :
  (forall password salt keylen,
      List.length (toy_scrypt password salt keylen) = keylen)
  /\ comparePasswords toy_scrypt "correct horse"
       (hashPassword toy_scrypt sixteen_bytes "correct horse") = inl true.
Proof.
  split; [exact toy_scrypt_length|].
  destruct (X17_password_hash_round_trip toy_scrypt toy_scrypt_length sixteen_bytes
              "correct horse" "battery") as (H & _).
  exact H.
Defined.

(** Dave's stored password has no salt: his login is a 500. *)
Lemma X18_witness :
  (forall password salt keylen,
      List.length (toy_scrypt password salt keylen) = keylen)
  /\ hd_error (filter (fun u => (User.username u =? "dave")%string)
                      (users some_accounts)) = Some dave
  /\ lacks "." (User.password dave) = true
  /\ fst (post_login toy_scrypt nothing_refused None (Some "dave")
            (Some "plain-text-password") some_accounts) =
     ReplyError 500 "Internal server error".
Proof.
  split; [exact toy_scrypt_length|]. split; [reflexivity|]. split; [reflexivity|].
  assert (Hu : "dave" <> EmptyString) by discriminate.
  assert (Hp : "plain-text-password" <> EmptyString) by discriminate.
  destruct (X18_malformed_hash_is_a_server_error toy_scrypt nothing_refused
              toy_scrypt_length None "dave" "plain-text-password" dave some_accounts
              Hu Hp eq_refl eq_refl (or_introl eq_refl))
    as (err & _ & E).
  rewrite E. reflexivity.
Defined.

(** Carol registers and logs in. *)
Lemma X19_witness :
  (forall password salt keylen,
      List.length (toy_scrypt password salt keylen) = keylen)
  /\ existsb (fun u => (User.username u =? "carol")%string) (users some_accounts) = false
  /\ existsb (fun u => (User.email u =? "carol@example.org")%string)
             (users some_accounts) = false
  /\ (let registered :=
        snd (post_register toy_scrypt nothing_refused 1000 sixteen_bytes None carol_body
               some_accounts) in
      map User.username (users registered) = ["dave"; "carol"]
      /\ exists user,
           post_login toy_scrypt nothing_refused None (Some "carol")
             (Some "correct horse") registered = (ReplyUser 200 user, registered)
           /\ User.id user = 6%N).
Proof.
  split; [exact toy_scrypt_length|]. split; [reflexivity|]. split; [reflexivity|].
  cbv zeta. unfold carol_body.
  assert (Hu : "carol" <> EmptyString) by discriminate.
  assert (Hp : "correct horse" <> EmptyString) by discriminate.
  assert (He : "carol@example.org" <> EmptyString) by discriminate.
  assert (Hf : "Carol" <> EmptyString) by discriminate.
  assert (Hl : "Jones" <> EmptyString) by discriminate.
  destruct (X19_register_then_login toy_scrypt nothing_refused toy_scrypt_length
              1000 sixteen_bytes "carol" "correct horse" "carol@example.org" "Carol"
              "Jones" some_accounts Hu Hp He Hf Hl eq_refl eq_refl eq_refl)
    as (_ & U & L & _).
  split; [rewrite U; reflexivity|].
  destruct (L eq_refl) as (L1 & _).
  eexists. split; [exact L1|reflexivity].
Defined.

(** A second Dave is refused with 400. *)
Lemma X20_witness :
  nothing_refused
    (InsertIntoUsers
       (InsertUser.mk "dave" (hashPassword toy_scrypt sixteen_bytes "pw")
          "dave2@example.org" "Dave" "Second")) = None
  /\ existsb (fun u => (User.username u =? "dave")%string) (users some_accounts) = true
  /\ fst (post_register toy_scrypt nothing_refused 1000 sixteen_bytes None
            (RegisterBody.mk (Some "dave") (Some "pw") (Some "dave2@example.org")
               (Some "Dave") (Some "Second")) some_accounts) =
     ReplyError 400 "Username already exists.".
Proof.
  split; [reflexivity|]. split; [reflexivity|].
  assert (Hu : "dave" <> EmptyString) by discriminate.
  assert (Hp : "pw" <> EmptyString) by discriminate.
  assert (He : "dave2@example.org" <> EmptyString) by discriminate.
  assert (Hf : "Dave" <> EmptyString) by discriminate.
  assert (Hl : "Second" <> EmptyString) by discriminate.
  destruct (X20_duplicate_accounts_are_refused toy_scrypt nothing_refused 1000
              sixteen_bytes None "dave" "pw" "dave2@example.org" "Dave" "Second"
              some_accounts Hu Hp He Hf Hl eq_refl) as (H & _).
  rewrite (H eq_refl eq_refl). reflexivity.
Defined.

(** An empty last name is a missing field. *)
Lemma X21_witness :
  truthy (Some EmptyString) = None
  /\ post_register toy_scrypt nothing_refused 1000 sixteen_bytes None
       (RegisterBody.mk (Some "erin") (Some "pw") (Some "erin@example.org")
          (Some "Erin") (Some EmptyString)) some_accounts =
     (ReplyError 400 "All fields are required.", some_accounts).
Proof.
  split; [reflexivity|].
  apply (X21_registration_needs_every_field toy_scrypt nothing_refused).
  right. right. right. right. reflexivity.
Defined.

(** The session store is down while Carol registers: 500, but she is in
    the table. *)
Lemma X22_witness :
  existsb (fun u => (User.username u =? "carol")%string) (users some_accounts) = false
  /\ existsb (fun u => (User.email u =? "carol@example.org")%string)
             (users some_accounts) = false
  /\ (let r := post_register toy_scrypt nothing_refused 1000 sixteen_bytes
                 (Some store_down) carol_body some_accounts in
      fst r = ReplyMessage 500 "connect ECONNREFUSED"
      /\ map User.username (users (snd r)) = ["dave"; "carol"]
      /\ exists message,
           fst (post_register toy_scrypt nothing_refused 2000 sixteen_bytes None
                  carol_body (snd r)) = ReplyError 400 message
           /\ (message = "Username already exists."
               \/ message = "Email already exists.")).
Proof.
  split; [reflexivity|]. split; [reflexivity|]. cbv zeta. unfold carol_body.
  assert (Hu : "carol" <> EmptyString) by discriminate.
  assert (Hp : "correct horse" <> EmptyString) by discriminate.
  assert (He : "carol@example.org" <> EmptyString) by discriminate.
  assert (Hf : "Carol" <> EmptyString) by discriminate.
  assert (Hl : "Jones" <> EmptyString) by discriminate.
  destruct (X22_failed_session_leaves_the_account toy_scrypt nothing_refused 1000
              sixteen_bytes store_down "carol" "correct horse" "carol@example.org"
              "Carol" "Jones" some_accounts Hu Hp He Hf Hl eq_refl eq_refl eq_refl)
    as (R & U & Again).
  split; [exact R|]. split; [rewrite U; reflexivity|].
  exact (Again 2000 sixteen_bytes None eq_refl).
Defined.

(** A collision on the primary key is a 500. *)
Lemma X23_witness :
  plain "id" = true
  /\ fst (post_register toy_scrypt id_collision 1000 sixteen_bytes None carol_body
            some_accounts) = ReplyError 500 "Internal server error.".
Proof.
  split; [reflexivity|]. unfold carol_body.
  assert (Hu : "carol" <> EmptyString) by discriminate.
  assert (Hp : "correct horse" <> EmptyString) by discriminate.
  assert (He : "carol@example.org" <> EmptyString) by discriminate.
  assert (Hf : "Carol" <> EmptyString) by discriminate.
  assert (Hl : "Jones" <> EmptyString) by discriminate.
  assert (H1 : "id" <> "username") by discriminate.
  assert (H2 : "id" <> "email") by discriminate.
  destruct (X23_other_unique_violations_are_server_errors toy_scrypt id_collision 1000
              sixteen_bytes None "carol" "correct horse" "carol@example.org" "Carol"
              "Jones" "id" "7" "duplicate key value violates unique constraint"
              some_accounts Hu Hp He Hf Hl eq_refl H1 H2 eq_refl)
    as (_ & H).
  rewrite H. reflexivity.
Defined.

(** Alice's goals and notifications, read by Alice. *)
Lemma X25_witness :
  no_rejects (SelectGoals alice) = false
  /\ no_rejects (SelectNotifications alice) = false
  /\ handle no_faults oneDecimal oneDecimal no_rejects (Some alice) GetNotifications
       alerted_world = (Some (SendNotifications [food_alert]), alerted_world).
Proof.
  split; [reflexivity|]. split; [reflexivity|].
  destruct (X25_lists_are_scoped_to_the_caller no_faults oneDecimal oneDecimal no_rejects
              alice alerted_world eq_refl eq_refl) as (_ & H & _).
  rewrite H. reflexivity.
Defined.

(** Alice raises her Food expense of 500.00 to 2000.00, twice her budget:
    no budget lookup is sent. *)
Lemma X26_witness :
  (forall body,
      PutTransactions 11%N (Some raise_amount) = PostTransactions (Some body) ->
      InsertTransaction.type body = income)
  /\ map Transaction.amount
       (transactions
          (db (snd (handle no_faults oneDecimal oneDecimal no_rejects (Some alice)
                      (PutTransactions 11%N (Some raise_amount))
                      (spent_world food_budget 50000))))) = [200000]
  /\ filter is_budget_lookup
       (queries (snd (handle no_faults oneDecimal oneDecimal no_rejects (Some alice)
                        (PutTransactions 11%N (Some raise_amount))
                        (spent_world food_budget 50000)))) = [].
Proof.
  assert (H : forall body,
             PutTransactions 11%N (Some raise_amount) = PostTransactions (Some body) ->
             InsertTransaction.type body = income)
    by (intros body E; discriminate E).
  split; [exact H|]. split; [reflexivity|].
  destruct (X26_only_new_expenses_are_evaluated no_faults oneDecimal oneDecimal
              no_rejects (Some alice) (PutTransactions 11%N (Some raise_amount))
              (spent_world food_budget 50000) H) as (L & _).
  rewrite L. reflexivity.
Defined.

Lemma carol_accounts_sound : sound_accounts toy_scrypt carol_accounts.
Proof.
  unfold sound_accounts. cbn [carol_accounts users map].
  repeat split; repeat constructor; try (intros []).
  exists sixteen_bytes, "correct horse". reflexivity.
Qed.

(** Dave registers next to Carol. *)
Lemma X27_witness :
  sound_accounts toy_scrypt carol_accounts
  /\ sound_accounts toy_scrypt
       (snd (post_register toy_scrypt nothing_refused 2000 sixteen_bytes None
               (RegisterBody.mk (Some "dave") (Some "pw") (Some "dave@example.org")
                  (Some "Dave") (Some "Smith")) carol_accounts))
  /\ map User.username
       (users (snd (post_register toy_scrypt nothing_refused 2000 sixteen_bytes None
                      (RegisterBody.mk (Some "dave") (Some "pw")
                         (Some "dave@example.org") (Some "Dave") (Some "Smith"))
                      carol_accounts))) = ["carol"; "dave"].
Proof.
  split; [exact carol_accounts_sound|]. split; [|reflexivity].
  exact (X27_registrations_keep_accounts_sound toy_scrypt nothing_refused 2000
           sixteen_bytes None _ carol_accounts carol_accounts_sound).
Defined.

(** Carol logs in with a wrong password. *)
Lemma X28_witness :
  (forall password salt keylen,
      List.length (toy_scrypt password salt keylen) = keylen)
  /\ sound_accounts toy_scrypt carol_accounts
  /\ (forall name, nothing_refused (SelectUserByUsername name) = None)
  /\ exists reply,
       post_login toy_scrypt nothing_refused None (Some "carol") (Some "wrong")
         carol_accounts = (reply, carol_accounts)
       /\ (reply = ReplyError 401 "Missing credentials"
           \/ reply = ReplyError 401 "Invalid username or password"
           \/ exists user,
                reply = ReplyUser 200 user
                /\ In user (users carol_accounts)
                /\ Some "carol" = Some (User.username user)).
Proof.
  split; [exact toy_scrypt_length|]. split; [exact carol_accounts_sound|].
  split; [reflexivity|].
  exact (X28_logins_answer_200_or_401 toy_scrypt nothing_refused toy_scrypt_length
           (Some "carol") (Some "wrong") carol_accounts carol_accounts_sound
           (fun _ => eq_refl)).
Defined.

(** A line of 97 code units is logged with 82. *)
Example long_line_is_cut :
  List.length (fullLine (units "GET") (units "/api/transactions") (units "200")
                 (units "12") (Some long_line_body)) = 97%nat
  /\ option_map (@List.length N)
       (logLine (units "GET") (units "/api/transactions") (units "200") (units "12")
          (Some long_line_body)) = Some 82%nat
  /\ logLine (units "GET") (units "/assets/app.js") (units "200") (units "3") None = None.
Proof. vm_compute. repeat split. Qed.
